(** * structify: declarative binary records on top of Python's [struct]

    A shallow embedding of [structify/__init__.py].  A record type is a
    class whose attributes are [StructField] descriptors; the metaclass
    [MetaStruct] compiles them, once per class, into a [struct] format
    string, a name -> index map and a list of default values; instances
    keep their current values in [self.values] and pack / unpack them
    through the compiled format.

    The file has two parts: the embedding (Python values, the [struct]
    module the code calls, the object store, [StructField], [MetaStruct],
    [Struct], the descriptor interface and [FileHelper] with the file
    objects it uses), then the properties proved about it. *)

From Stdlib Require Import ZArith Lia String Ascii List Sorting.Sorted.
From Stdlib Require Import DecimalString DecimalNat DecimalPos.
From Stdlib Require Import Floats.SpecFloat.
From coqutil Require Import Byte Word.LittleEndianList.
From stdpp Require Import base list.
Import ListNotations.

Local Open Scope Z_scope.

(** ** Python values and exceptions *)

(** The values a field can hold.  A [float] is kept as the bit pattern of
    its IEEE-754 binary64 representation; [bytes] objects are lists of
    bytes. *)
Inductive pyval :=
| PyNone
| PyInt (z : Z)
| PyFloat (bits : Z)
| PyBytes (b : list byte)
| PyStr (s : string).

(** The two messages [StructException] is raised with by the record
    types (the third one, of [FileHelper], is
    [File_must_be_opened_in_binary_mode] below). *)
Inductive message :=
| CHAR_fields_require_strlen
| Unexpected_kwargs (kwargs : list (string * pyval)).

(** [StructException] is the library's only exception class;
    [struct_error] is [struct.error]; the others are Python built-ins.
    [SystemError] stands for a reference that does not denote an object
    of the expected kind, which no well-formed store contains. *)
Inductive exn :=
| StructException (msg : message)
| struct_error
| KeyError (key : string)
| TypeError
| IndexError
| OverflowError
| SystemError.

Inductive result (A : Type) :=
| Ok (a : A)
| Raise (e : exn).
Arguments Ok {A} a.
Arguments Raise {A} e.

#[global] Instance result_ret : MRet result := @Ok.
#[global] Instance result_bind : MBind result :=
  fun A B f m => match m with Ok a => f a | Raise e => Raise e end.
#[global] Instance result_fmap : FMap result :=
  fun A B f m => match m with Ok a => Ok (f a) | Raise e => Raise e end.

(** ** Module constants *)

(** [INT8_T = 'b'] ... [FLOAT64_T = 'd']: the type codes. *)
Inductive type_code :=
| INT8_T | UINT8_T | INT16_T | UINT16_T | INT32_T | UINT32_T
| INT64_T | UINT64_T | CHAR | FLOAT32_T | FLOAT64_T.

Definition type_code_char (t : type_code) : ascii :=
  match t with
  | INT8_T => "b" | UINT8_T => "B"
  | INT16_T => "h" | UINT16_T => "H"
  | INT32_T => "i" | UINT32_T => "I"
  | INT64_T => "q" | UINT64_T => "Q"
  | CHAR => "s"
  | FLOAT32_T => "f" | FLOAT64_T => "d"
  end%char.

(** [BYTE_ORDER_NATIVE = '@'] ... [BYTE_ORDER_NETWORK = '!']. *)
Inductive byte_order :=
| BYTE_ORDER_NATIVE
| BYTE_ORDER_NATIVE_STD
| BYTE_ORDER_LITTLE_ENDIAN
| BYTE_ORDER_BIG_ENDIAN
| BYTE_ORDER_NETWORK.

Definition byte_order_char (o : byte_order) : ascii :=
  match o with
  | BYTE_ORDER_NATIVE => "@"
  | BYTE_ORDER_NATIVE_STD => "="
  | BYTE_ORDER_LITTLE_ENDIAN => "<"
  | BYTE_ORDER_BIG_ENDIAN => ">"
  | BYTE_ORDER_NETWORK => "!"
  end%char.

Definition DEFAULT_BYTE_ORDER : byte_order := BYTE_ORDER_LITTLE_ENDIAN.

Definition type_code_eqb (a b : type_code) : bool :=
  Ascii.eqb (type_code_char a) (type_code_char b).

(** ** Python dictionaries

    Insertion-ordered, keyed by strings: assigning to an existing key
    replaces the value in place, assigning to a new key appends. *)
Module dict.
Definition t (V : Type) : Type := list (string * V).

Fixpoint get {V} (k : string) (d : t V) : option V :=
  match d with
  | [] => None
  | (k', v) :: d' => if String.eqb k k' then Some v else get k d'
  end.

Fixpoint set {V} (d : t V) (k : string) (v : V) : t V :=
  match d with
  | [] => [(k, v)]
  | (k', v') :: d' =>
      if String.eqb k k' then (k', v) :: d' else (k', v') :: set d' k v
  end.

Fixpoint pop {V} (k : string) (d : t V) : t V :=
  match d with
  | [] => []
  | (k', v) :: d' => if String.eqb k k' then d' else (k', v) :: pop k d'
  end.

Definition keys {V} (d : t V) : list string := map fst d.
Definition values {V} (d : t V) : list V := map snd d.
Definition items {V} (d : t V) : list (string * V) := d.

Definition is_empty {V} (d : t V) : bool :=
  match d with [] => true | _ => false end.
End dict.

(** ** IEEE-754 conversions used by the ['f'] and ['d'] codes

    Bit patterns are decoded to [spec_float]; rounding is the standard
    library's round-to-nearest-even [binary_normalize].  NaN payloads are
    not tracked: every NaN converts to the quiet NaN of the target format. *)
Module ieee.
Section Format.
(** [mw] mantissa bits stored, [ew] exponent bits. *)
Variables mw ew : Z.

Definition prec : Z := mw + 1.
Definition emax : Z := 2 ^ (ew - 1).

Definition of_bits (x : Z) : spec_float :=
  let s := Z.testbit x (mw + ew) in
  let e := (x / 2 ^ mw) mod 2 ^ ew in
  let m := x mod 2 ^ mw in
  if e =? 0 then
    match m with
    | Zpos p => S754_finite s p (emin prec emax)
    | _ => S754_zero s
    end
  else if e =? 2 ^ ew - 1 then
    if m =? 0 then S754_infinity s else S754_nan
  else
    match m + 2 ^ mw with
    | Zpos p => S754_finite s p (e - 1 + emin prec emax)
    | _ => S754_nan
    end.

Definition sign_bit (s : bool) : Z := if s then 2 ^ (mw + ew) else 0.

Definition to_bits (f : spec_float) : Z :=
  match f with
  | S754_zero s => sign_bit s
  | S754_infinity s => sign_bit s + (2 ^ ew - 1) * 2 ^ mw
  | S754_nan => (2 ^ ew - 1) * 2 ^ mw + 2 ^ (mw - 1)
  | S754_finite s m e =>
      if Zpos m <? 2 ^ mw then sign_bit s + Zpos m
      else sign_bit s + (e - emin prec emax + 1) * 2 ^ mw + (Zpos m - 2 ^ mw)
  end.

(** Round a float of any format into this one. *)
Definition round (f : spec_float) : spec_float :=
  match f with
  | S754_finite s m e => binary_normalize prec emax (cond_Zopp s (Zpos m)) e s
  | _ => f
  end.
End Format.

Definition is_infinity (f : spec_float) : bool :=
  match f with S754_infinity _ => true | _ => false end.

(** The C cast [(float)x] of a double: the 32 bits of the nearest
    float. *)
Definition cast (x : Z) : Z :=
  to_bits 23 8 (round 23 8 (of_bits 52 11 x)) mod 2 ^ 32.

(** A finite double that the cast sends to an infinity. *)
Definition overflows (x : Z) : bool :=
  is_infinity (round 23 8 (of_bits 52 11 x))
  && negb (is_infinity (of_bits 52 11 x)).

(** The cast as [PyFloat_Pack4] does it: an overflow is an error
    ([None]). *)
Definition narrow (x : Z) : option Z :=
  if overflows x then None else Some (cast x).

(** The C cast [(double)y] of a float; always exact. *)
Definition widen (y : Z) : Z :=
  to_bits 52 11 (round 52 11 (of_bits 23 8 y)).

(** [int.__float__]: nearest double, [None] when the integer is too
    large. *)
Definition of_int (z : Z) : option Z :=
  let f := binary_normalize (prec 52) (emax 11) z 0 false in
  if is_infinity f then None else Some (to_bits 52 11 f).
End ieee.

(** ** The platform Python runs on

    What the native modes ['@'] and ['='] of [struct] take from the C
    compiler: the byte order and, for ['@'], the alignment of each C type.
    [char] has alignment 1 everywhere. *)
Record platform := {
  native_little_endian : bool;
  short_alignment : positive;
  int_alignment : positive;
  long_long_alignment : positive;
  float_alignment : positive;
  double_alignment : positive
}.

(** x86-64 and AArch64 (System V): every type is aligned on its size. *)
Definition lp64_le : platform :=
  {| native_little_endian := true;
     short_alignment := 2; int_alignment := 4; long_long_alignment := 8;
     float_alignment := 4; double_alignment := 8 |}.

(** ** Python's [struct] module, for the codes this library emits

    [Struct fmt] compiles a format string: an optional byte-order
    character, then codes, each with an optional decimal repeat count.
    The compiled object is the sequence of segments of the packed
    record: alignment padding (native mode only), one scalar, or one
    fixed-length byte string.  In native mode the C types [short],
    [int], [long long], [float] and [double] have their usual sizes 2, 4,
    8, 4 and 8, which are also the standard ones.  Sizes are unbounded
    naturals (the limit [PY_SSIZE_T_MAX] on the total size is left
    out). *)
Module PyStruct.

Inductive segment :=
| Padding (n : nat)
| Scalar (t : type_code)
| Bytes (n : nat).

Record t := {
  format : string;
  native : bool;
  little_endian : bool;
  segments : list segment
}.

(** *** Tables *)

Definition itemsize (c : type_code) : nat :=
  match c with
  | INT8_T | UINT8_T | CHAR => 1
  | INT16_T | UINT16_T => 2
  | INT32_T | UINT32_T | FLOAT32_T => 4
  | INT64_T | UINT64_T | FLOAT64_T => 8
  end.

Definition alignment (p : platform) (c : type_code) : nat :=
  match c with
  | INT8_T | UINT8_T | CHAR => 1
  | INT16_T | UINT16_T => Pos.to_nat (short_alignment p)
  | INT32_T | UINT32_T => Pos.to_nat (int_alignment p)
  | INT64_T | UINT64_T => Pos.to_nat (long_long_alignment p)
  | FLOAT32_T => Pos.to_nat (float_alignment p)
  | FLOAT64_T => Pos.to_nat (double_alignment p)
  end.

(** Range of the integer codes, [None] for the others. *)
Definition int_range (c : type_code) : option (Z * Z) :=
  match c with
  | INT8_T => Some (- 2 ^ 7, 2 ^ 7 - 1)
  | UINT8_T => Some (0, 2 ^ 8 - 1)
  | INT16_T => Some (- 2 ^ 15, 2 ^ 15 - 1)
  | UINT16_T => Some (0, 2 ^ 16 - 1)
  | INT32_T => Some (- 2 ^ 31, 2 ^ 31 - 1)
  | UINT32_T => Some (0, 2 ^ 32 - 1)
  | INT64_T => Some (- 2 ^ 63, 2 ^ 63 - 1)
  | UINT64_T => Some (0, 2 ^ 64 - 1)
  | CHAR | FLOAT32_T | FLOAT64_T => None
  end.

Definition byte_order_of_char (c : ascii) : option byte_order :=
  if Ascii.eqb c "@" then Some BYTE_ORDER_NATIVE
  else if Ascii.eqb c "=" then Some BYTE_ORDER_NATIVE_STD
  else if Ascii.eqb c "<" then Some BYTE_ORDER_LITTLE_ENDIAN
  else if Ascii.eqb c ">" then Some BYTE_ORDER_BIG_ENDIAN
  else if Ascii.eqb c "!" then Some BYTE_ORDER_NETWORK
  else None.

(** The table selected by the first character; without one the format
    is native and the character is not consumed. *)
Definition whichtable (fmt : string) : byte_order * string :=
  match fmt with
  | String c rest =>
      match byte_order_of_char c with
      | Some o => (o, rest)
      | None => (BYTE_ORDER_NATIVE, fmt)
      end
  | EmptyString => (BYTE_ORDER_NATIVE, fmt)
  end.

Definition is_little_endian (p : platform) (o : byte_order) : bool :=
  match o with
  | BYTE_ORDER_LITTLE_ENDIAN => true
  | BYTE_ORDER_BIG_ENDIAN | BYTE_ORDER_NETWORK => false
  | BYTE_ORDER_NATIVE | BYTE_ORDER_NATIVE_STD => native_little_endian p
  end.

Definition is_aligned (o : byte_order) : bool :=
  match o with BYTE_ORDER_NATIVE => true | _ => false end.

Definition getentry (c : ascii) : option type_code :=
  if Ascii.eqb c "b" then Some INT8_T
  else if Ascii.eqb c "B" then Some UINT8_T
  else if Ascii.eqb c "h" then Some INT16_T
  else if Ascii.eqb c "H" then Some UINT16_T
  else if Ascii.eqb c "i" then Some INT32_T
  else if Ascii.eqb c "I" then Some UINT32_T
  else if Ascii.eqb c "q" then Some INT64_T
  else if Ascii.eqb c "Q" then Some UINT64_T
  else if Ascii.eqb c "s" then Some CHAR
  else if Ascii.eqb c "f" then Some FLOAT32_T
  else if Ascii.eqb c "d" then Some FLOAT64_T
  else None.

Definition is_digit (c : ascii) : bool :=
  (48 <=? nat_of_ascii c)%nat && (nat_of_ascii c <=? 57)%nat.

Definition digit_value (c : ascii) : nat := (nat_of_ascii c - 48)%nat.

Definition is_space (c : ascii) : bool :=
  let n := nat_of_ascii c in
  (n =? 32)%nat || ((9 <=? n)%nat && (n <=? 13)%nat).

(** *** Parsing the codes

    [num] is the repeat count read so far for the next code, if any
    digit was read.  Whitespace is skipped between items only; a count
    with no code after it and a character outside the table are
    errors. *)
Fixpoint prepare (s : string) (num : option nat)
  : result (list (nat * type_code)) :=
  match s with
  | EmptyString =>
      match num with
      | None => Ok []
      | Some _ => Raise struct_error
      end
  | String c s' =>
      if is_digit c then
        prepare s' (Some (10 * default 0 num + digit_value c))%nat
      else if is_space c && bool_decide (num = None) then
        prepare s' None
      else
        match getentry c with
        | None => Raise struct_error
        | Some code =>
            rest ← prepare s' None;
            Ok ((default 1%nat num, code) :: rest)
        end
  end.

(** *** Layout *)

(** Bytes to add to [size] to reach a multiple of [a]. *)
Definition padding_to (a size : nat) : nat :=
  ((a - size mod a) mod a)%nat.

Fixpoint layout (p : platform) (aligned : bool) (size : nat)
    (codes : list (nat * type_code)) : list segment :=
  match codes with
  | [] => []
  | (num, c) :: rest =>
      let pad := if aligned then padding_to (alignment p c) size else 0%nat in
      let body :=
        match c with
        | CHAR => [Bytes num]
        | _ => replicate num (Scalar c)
        end in
      (if aligned then [Padding pad] else [])
        ++ body ++ layout p aligned (size + pad + num * itemsize c) rest
  end.

(** [struct.Struct(fmt)]. *)
Definition Struct (p : platform) (fmt : string) : result t :=
  let '(o, codes) := whichtable fmt in
  items ← prepare codes None;
  Ok {| format := fmt;
        native := is_aligned o;
        little_endian := is_little_endian p o;
        segments := layout p (is_aligned o) 0 items |}.

Definition segment_size (s : segment) : nat :=
  match s with
  | Padding n => n
  | Scalar c => itemsize c
  | Bytes n => n
  end.

Definition segments_size (segs : list segment) : nat :=
  foldr (fun seg n => (segment_size seg + n)%nat) 0%nat segs.

(** [Struct.size]. *)
Definition size (s : t) : nat := segments_size (segments s).

(** Number of values the format packs. *)
Fixpoint nvalues (segs : list segment) : nat :=
  match segs with
  | [] => 0%nat
  | Padding _ :: segs' => nvalues segs'
  | _ :: segs' => S (nvalues segs')
  end.

(** *** Packing *)

(** Bytes of a little-endian word, in the byte order of the format. *)
Definition ordered (le : bool) (bs : list byte) : list byte :=
  if le then bs else rev bs.

(** A double under ['f'].  The native table casts it in C; the standard
    tables go through [PyFloat_Pack4], which raises [OverflowError]. *)
Definition pack_float32 (native le : bool) (x : Z) : result (list byte) :=
  if native then Ok (ordered le (le_split 4 (ieee.cast x)))
  else
    match ieee.narrow x with
    | Some y => Ok (ordered le (le_split 4 y))
    | None => Raise OverflowError
    end.

(** One value under a scalar code: integer codes take an [int] in
    range, float codes a [float] or an [int] that converts to one; every
    other argument is a [struct.error]. *)
Definition pack_scalar (native le : bool) (c : type_code) (v : pyval)
  : result (list byte) :=
  match c with
  | CHAR => Raise struct_error
  | FLOAT32_T =>
      match v with
      | PyFloat x => pack_float32 native le x
      | PyInt z =>
          match ieee.of_int z with
          | Some x => pack_float32 native le x
          | None => Raise struct_error
          end
      | _ => Raise struct_error
      end
  | FLOAT64_T =>
      match v with
      | PyFloat x => Ok (ordered le (le_split 8 x))
      | PyInt z =>
          match ieee.of_int z with
          | Some x => Ok (ordered le (le_split 8 x))
          | None => Raise struct_error
          end
      | _ => Raise struct_error
      end
  | _ =>
      match v, int_range c with
      | PyInt z, Some (lo, hi) =>
          if (lo <=? z) && (z <=? hi)
          then Ok (ordered le (le_split (itemsize c) z))
          else Raise struct_error
      | _, _ => Raise struct_error
      end
  end.

(** A [bytes] value under ['Ns']: truncated or padded with null bytes
    to exactly [n] bytes. *)
Definition pack_bytes (n : nat) (v : pyval) : result (list byte) :=
  match v with
  | PyBytes b => Ok (take n (b ++ replicate n Byte.x00))
  | _ => Raise struct_error
  end.

Fixpoint pack_segments (native le : bool) (segs : list segment)
    (vals : list pyval) : result (list byte) :=
  match segs with
  | [] => Ok []
  | Padding n :: segs' =>
      rest ← pack_segments native le segs' vals;
      Ok (replicate n Byte.x00 ++ rest)
  | Scalar c :: segs' =>
      match vals with
      | [] => Raise struct_error
      | v :: vals' =>
          bs ← pack_scalar native le c v;
          rest ← pack_segments native le segs' vals';
          Ok (bs ++ rest)
      end
  | Bytes n :: segs' =>
      match vals with
      | [] => Raise struct_error
      | v :: vals' =>
          bs ← pack_bytes n v;
          rest ← pack_segments native le segs' vals';
          Ok (bs ++ rest)
      end
  end.

(** [Struct.pack] applied to the items of [vals]: the number of
    arguments is checked first. *)
Definition pack (s : t) (vals : list pyval) : result (list byte) :=
  if (length vals =? nvalues (segments s))%nat
  then pack_segments (native s) (little_endian s) (segments s) vals
  else Raise struct_error.

(** *** Unpacking *)

Definition unpack_scalar (le : bool) (c : type_code) (bs : list byte) : pyval :=
  let n := le_combine (ordered le bs) in
  match c with
  | CHAR => PyBytes bs
  | FLOAT32_T => PyFloat (ieee.widen n)
  | FLOAT64_T => PyFloat n
  | INT8_T | INT16_T | INT32_T | INT64_T =>
      let half := 2 ^ (8 * Z.of_nat (itemsize c) - 1) in
      PyInt (if n <? half then n else n - 2 * half)
  | UINT8_T | UINT16_T | UINT32_T | UINT64_T => PyInt n
  end.

Fixpoint unpack_segments (le : bool) (segs : list segment) (bs : list byte)
  : list pyval :=
  match segs with
  | [] => []
  | Padding n :: segs' => unpack_segments le segs' (drop n bs)
  | Scalar c :: segs' =>
      unpack_scalar le c (take (itemsize c) bs)
        :: unpack_segments le segs' (drop (itemsize c) bs)
  | Bytes n :: segs' =>
      PyBytes (take n bs) :: unpack_segments le segs' (drop n bs)
  end.

(** [Struct.unpack(buffer)]: the buffer must have exactly [size] bytes;
    the result is a tuple, given here by its items. *)
Definition unpack (s : t) (bs : list byte) : result (list pyval) :=
  if (length bs =? size s)%nat
  then Ok (unpack_segments (little_endian s) (segments s) bs)
  else Raise struct_error.
End PyStruct.

(** ** [StructField]: the field descriptor *)
Module StructField.

(** The attributes of a descriptor.  [index], which [MetaStruct] writes
    and nothing reads, is left out; [default=None], the absence of a
    default, is [PyNone]. *)
Record t := {
  field_type : type_code;
  default : pyval;
  str_len : option Z;
  count : nat;
  name : string
}.

(** Python truth value of [str_len]: [None] and [0] are false. *)
Definition truthy (str_len : option Z) : bool :=
  match str_len with
  | None => false
  | Some n => negb (n =? 0)
  end.

(** [StructField(field_type, default, str_len)].  [count_] is the class
    variable [StructField.count_], threaded through: the new
    descriptor records it and the successor is returned. *)
Definition __init__ (field_type : type_code) (default : pyval)
    (str_len : option Z) (count_ : nat) : result (t * nat) :=
  if type_code_eqb field_type CHAR && negb (truthy str_len) then
    Raise (StructException CHAR_fields_require_strlen)
  else
    Ok ({| field_type := field_type;
           default := default;
           str_len := str_len;
           count := count_;
           name := EmptyString |},
        S count_).

Definition __set_name__ (self : t) (name : string) : t :=
  {| field_type := field_type self;
     default := default self;
     str_len := str_len self;
     count := count self;
     name := name |}.
End StructField.

Definition int8_t (default : pyval) := StructField.__init__ INT8_T default None.
Definition uint8_t (default : pyval) := StructField.__init__ UINT8_T default None.
Definition int16_t (default : pyval) := StructField.__init__ INT16_T default None.
Definition uint16_t (default : pyval) := StructField.__init__ UINT16_T default None.
Definition int32_t (default : pyval) := StructField.__init__ INT32_T default None.
Definition uint32_t (default : pyval) := StructField.__init__ UINT32_T default None.
Definition int64_t (default : pyval) := StructField.__init__ INT64_T default None.
Definition uint64_t (default : pyval) := StructField.__init__ UINT64_T default None.
Definition float64_t (default : pyval) := StructField.__init__ FLOAT64_T default None.
Definition char (strlen : Z) (default : pyval) :=
  StructField.__init__ CHAR default (Some strlen).

(** ** The object store

    Lists are mutable and shared by reference, so they live in a store
    addressed by locations; so do the instances, whose [values]
    attribute is rebound by [unpack].  A tuple is immutable and is kept
    by value. *)
Abbreviation loc := nat.

(** What [self.values] can be bound to. *)
Inductive pyseq :=
| PyList (l : loc)
| PyTuple (items : list pyval).

(** The class attributes [MetaStruct] sets on a record type. *)
Record StructClass := {
  _BASE_STRUCT_FORMAT : string;
  _STRUCT_FORMAT : string;
  _NAME_INDEX_MAP : dict.t nat;
  _DEFAULT_VALUES : loc;
  _PACKER : PyStruct.t
}.

Inductive object :=
| ObjList (items : list pyval)
| ObjStruct (cls : StructClass) (values : pyseq).

Abbreviation heap := (list object).

(** Computations that read and write the store and may raise; the store
    is returned also when an exception is raised. *)
Definition M (A : Type) : Type := heap -> result A * heap.

#[global] Instance M_ret : MRet M := fun A a h => (Ok a, h).
#[global] Instance M_bind : MBind M :=
  fun A B f m h =>
    match m h with
    | (Ok a, h') => f a h'
    | (Raise e, h') => (Raise e, h')
    end.

Definition throw {A} (e : exn) : M A := fun h => (Raise e, h).

Definition lift {A} (r : result A) : M A := fun h => (r, h).

Definition alloc (o : object) : M loc :=
  fun h => (Ok (length h), h ++ [o]).

Definition load (l : loc) : M object :=
  fun h =>
    match h !! l with
    | Some o => (Ok o, h)
    | None => (Raise SystemError, h)
    end.

Definition store (l : loc) (o : object) : M unit :=
  fun h => (Ok tt, <[l := o]> h).

(** *** Lists *)

Definition list_items (l : loc) : M (list pyval) :=
  o ← load l;
  match o with
  | ObjList xs => mret xs
  | _ => throw SystemError
  end.

(** [l.copy()] *)
Definition list_copy (l : loc) : M loc :=
  xs ← list_items l;
  alloc (ObjList xs).

(** [l.append(v)] *)
Definition list_append (l : loc) (v : pyval) : M unit :=
  xs ← list_items l;
  store l (ObjList (xs ++ [v])).

(** [l[i] = v] *)
Definition list_setitem (l : loc) (i : nat) (v : pyval) : M unit :=
  xs ← list_items l;
  if (i <? length xs)%nat then store l (ObjList (<[i := v]> xs))
  else throw IndexError.

(** *** Sequences: a list or a tuple *)

Definition seq_items (s : pyseq) : M (list pyval) :=
  match s with
  | PyList l => list_items l
  | PyTuple xs => mret xs
  end.

(** [s[i]] *)
Definition seq_getitem (s : pyseq) (i : nat) : M pyval :=
  xs ← seq_items s;
  match xs !! i with
  | Some v => mret v
  | None => throw IndexError
  end.

(** [s[i] = v]: a tuple does not support item assignment. *)
Definition seq_setitem (s : pyseq) (i : nat) (v : pyval) : M unit :=
  match s with
  | PyList l => list_setitem l i v
  | PyTuple _ => throw TypeError
  end.

(** *** Instances *)

(** The class of [self] and what [self.values] is bound to. *)
Definition instance (self : loc) : M (StructClass * pyseq) :=
  o ← load self;
  match o with
  | ObjStruct cls values => mret (cls, values)
  | _ => throw SystemError
  end.

(** [self.values = values] *)
Definition set_values (self : loc) (values : pyseq) : M unit :=
  '(cls, _) ← instance self;
  store self (ObjStruct cls values).

(** ** Class bodies *)

(** The value of a class attribute, as far as [MetaStruct] tells them
    apart: a field descriptor, a byte-order string, anything else. *)
Inductive attr :=
| AttrField (f : StructField.t)
| AttrByteOrder (o : byte_order)
| AttrOther.

(** The [__dict__] of a class. *)
Definition namespace := dict.t attr.

(** [type.__new__]: the class is created from the body's namespace and
    every descriptor in it is told the name it is bound to.  Each
    descriptor object is bound once, as a field constructor called in a
    class body yields a fresh object. *)
Definition type_new (attrs : namespace) : namespace :=
  map (fun '(a, v) =>
         (a, match v with
             | AttrField f => AttrField (StructField.__set_name__ f a)
             | _ => v
             end)) attrs.

(** [str(field.str_len)] *)
Definition str (n : option Z) : string :=
  match n with
  | None => "None"
  | Some z => NilZero.string_of_int (Z.to_int z)
  end.

(** ** [MetaStruct]: compiling a record type *)
Module MetaStruct.

(** The inner loop over [base.__dict__.items()]. *)
Definition collect_class (struct_fields : dict.t StructField.t)
    (base : namespace) : dict.t StructField.t :=
  fold_left
    (fun acc '(attr, value) =>
       match value with
       | AttrField f => dict.set acc attr f
       | _ => acc
       end)
    (dict.items base) struct_fields.

(** Walk through the MRO, most-base class first. *)
Definition collect (mro : list namespace) : dict.t StructField.t :=
  fold_left collect_class (rev mro) [].

(** [sorted(fields, key=lambda f: f.count)]: the stable sort. *)
Fixpoint insert (f : StructField.t) (l : list StructField.t)
  : list StructField.t :=
  match l with
  | [] => [f]
  | g :: l' =>
      if (StructField.count f <=? StructField.count g)%nat
      then f :: g :: l'
      else g :: insert f l'
  end.

Definition sorted (l : list StructField.t) : list StructField.t :=
  foldr insert [] l.

(** [getattr(new_class, 'BYTE_ORDER', DEFAULT_BYTE_ORDER)]: the first
    class of the MRO that defines the attribute.  Only a string can be
    concatenated with the format. *)
Fixpoint getattr_BYTE_ORDER (mro : list namespace) : result byte_order :=
  match mro with
  | [] => Ok DEFAULT_BYTE_ORDER
  | ns :: mro' =>
      match dict.get "BYTE_ORDER" ns with
      | Some (AttrByteOrder o) => Ok o
      | Some _ => Raise TypeError
      | None => getattr_BYTE_ORDER mro'
      end
  end.

(** The loop over [enumerate(field_list)], from [index] on: extends the
    format and the name -> index map, appends to the defaults list. *)
Fixpoint compile (defaults : loc) (index : nat)
    (field_list : list StructField.t) (fmt : string) (nim : dict.t nat)
  : M (string * dict.t nat) :=
  match field_list with
  | [] => mret (fmt, nim)
  | field :: rest =>
      let field_type := StructField.field_type field in
      let fmt :=
        if type_code_eqb field_type CHAR
        then String.append fmt (str (StructField.str_len field))
        else fmt in
      let fmt := String.append fmt (String (type_code_char field_type) EmptyString) in
      let nim := dict.set nim (StructField.name field) index in
      _ ← list_append defaults (StructField.default field);
      compile defaults (S index) rest fmt nim
  end.

Definition field_list (mro : list namespace) : list StructField.t :=
  sorted (dict.values (collect mro)).

(** [MetaStruct.__new__]: [attrs] is the body of the new class and
    [bases] the namespaces of the classes that follow it in its MRO. *)
Definition __new__ (p : platform) (bases : list namespace) (attrs : namespace)
  : M StructClass :=
  let mro := type_new attrs :: bases in
  defaults ← alloc (ObjList []);
  '(fmt, nim) ← compile defaults 0 (field_list mro) EmptyString [];
  byte_order ← lift (getattr_BYTE_ORDER mro);
  let struct_format := String (byte_order_char byte_order) fmt in
  packer ← lift (PyStruct.Struct p struct_format);
  mret {| _BASE_STRUCT_FORMAT := fmt;
          _STRUCT_FORMAT := struct_format;
          _NAME_INDEX_MAP := nim;
          _DEFAULT_VALUES := defaults;
          _PACKER := packer |}.
End MetaStruct.

(** The body of [Struct] itself: [BYTE_ORDER] and the private class
    variables, none of which is a descriptor. *)
Definition Struct_body : namespace :=
  [("BYTE_ORDER", AttrByteOrder DEFAULT_BYTE_ORDER);
   ("_BASE_STRUCT_FORMAT", AttrOther);
   ("_STRUCT_FORMAT", AttrOther);
   ("_NAME_INDEX_MAP", AttrOther);
   ("_DEFAULT_VALUES", AttrOther);
   ("_PACKER", AttrOther)]%string.

(** ** [Struct]: the record *)
Module Struct.

(** [self.values[index] = value] *)
Definition values_setitem (self : loc) (index : nat) (value : pyval) : M unit :=
  '(_, values) ← instance self;
  seq_setitem values index value.

(** The loop of [__init__] over [_NAME_INDEX_MAP.items()]; returns what
    is left of [kwargs]. *)
Fixpoint init_kwargs (self : loc) (items : list (string * nat))
    (kwargs : dict.t pyval) : M (dict.t pyval) :=
  match items with
  | [] => mret kwargs
  | (name, index) :: rest =>
      match dict.get name kwargs with
      | Some v =>
          _ ← values_setitem self index v;
          init_kwargs self rest (dict.pop name kwargs)
      | None => init_kwargs self rest kwargs
      end
  end.

(** Calling the class with keyword arguments [kwargs]: a new instance
    is allocated and initialised by [__init__]. *)
Definition __init__ (cls : StructClass) (kwargs : dict.t pyval) : M loc :=
  values ← list_copy (_DEFAULT_VALUES cls);
  self ← alloc (ObjStruct cls (PyList values));
  if dict.is_empty kwargs then mret self
  else
    kwargs ← init_kwargs self (dict.items (_NAME_INDEX_MAP cls)) kwargs;
    if dict.is_empty kwargs then mret self
    else throw (StructException (Unexpected_kwargs kwargs)).

(** [self._NAME_INDEX_MAP[name]] *)
Definition name_index (cls : StructClass) (name : string) : M nat :=
  match dict.get name (_NAME_INDEX_MAP cls) with
  | Some index => mret index
  | None => throw (KeyError name)
  end.

Definition get_field_value (self : loc) (name : string) : M pyval :=
  '(cls, values) ← instance self;
  index ← name_index cls name;
  seq_getitem values index.

Definition set_field_value (self : loc) (name : string) (value : pyval)
  : M unit :=
  '(cls, values) ← instance self;
  index ← name_index cls name;
  seq_setitem values index value.

Definition pack (self : loc) : M (list byte) :=
  '(cls, values) ← instance self;
  vals ← seq_items values;
  lift (PyStruct.pack (_PACKER cls) vals).

Definition pack_endian (p : platform) (self : loc) (byte_order : byte_order)
  : M (list byte) :=
  '(cls, values) ← instance self;
  vals ← seq_items values;
  lift (s ← PyStruct.Struct p
              (String (byte_order_char byte_order) (_BASE_STRUCT_FORMAT cls));
        PyStruct.pack s vals).

Definition unpack (self : loc) (bytes_ : list byte) : M unit :=
  '(cls, _) ← instance self;
  vals ← lift (PyStruct.unpack (_PACKER cls) bytes_);
  set_values self (PyTuple vals).

Definition unpack_endian (p : platform) (self : loc) (bytes_ : list byte)
    (byte_order : byte_order) : M unit :=
  '(cls, _) ← instance self;
  vals ← lift (s ← PyStruct.Struct p
                      (String (byte_order_char byte_order) (_BASE_STRUCT_FORMAT cls));
               PyStruct.unpack s bytes_);
  set_values self (PyTuple vals).

Definition __len__ (self : loc) : M nat :=
  '(cls, _) ← instance self;
  mret (PyStruct.size (_PACKER cls)).

Definition sizeof (self : loc) : M nat := __len__ self.
End Struct.

(** ** Vocabulary of the properties *)

(** The width in bytes a field declares: that of its type, or [str_len]
    for a [CHAR] field. *)
Definition width (f : StructField.t) : nat :=
  match StructField.field_type f with
  | CHAR => Z.to_nat (default 0 (StructField.str_len f))
  | c => PyStruct.itemsize c
  end.

(** A value is valid for a field when it has the field's type and fits
    its width: an integer in the range of the integer type, a float (for
    [FLOAT32_T], one that single precision represents exactly), a byte
    string of exactly the declared length. *)
Definition valid_value (f : StructField.t) (v : pyval) : bool :=
  match StructField.field_type f, v with
  | CHAR, PyBytes b => (length b =? width f)%nat
  | FLOAT32_T, PyFloat x =>
      match ieee.narrow x with
      | Some y => ieee.widen y =? x
      | None => false
      end
  | FLOAT64_T, PyFloat x => (0 <=? x) && (x <? 2 ^ 64)
  | (CHAR | FLOAT32_T | FLOAT64_T), _ => false
  | c, PyInt z =>
      match PyStruct.int_range c with
      | Some (lo, hi) => (lo <=? z) && (z <=? hi)
      | None => false
      end
  | _, _ => false
  end.

Definition valid_values (fl : list StructField.t) (vs : list pyval) : Prop :=
  Forall2 (fun f v => valid_value f v = true) fl vs.

(** The class and the current values of the record at [self]. *)
Definition record (h : heap) (self : loc) : option (StructClass * list pyval) :=
  match h !! self with
  | Some (ObjStruct cls (PyList l)) =>
      match h !! l with
      | Some (ObjList xs) => Some (cls, xs)
      | _ => None
      end
  | Some (ObjStruct cls (PyTuple xs)) => Some (cls, xs)
  | _ => None
  end.

(** What the loop of [MetaStruct] makes of a field list: the repeat count
    and code of each field, and the format string. *)
Definition code_of (f : StructField.t) : nat * type_code :=
  match StructField.field_type f with
  | CHAR => (Z.to_nat (default 0 (StructField.str_len f)), CHAR)
  | c => (1%nat, c)
  end.

Definition fmt_of_field (f : StructField.t) : string :=
  let c := String (type_code_char (StructField.field_type f)) EmptyString in
  match StructField.field_type f with
  | CHAR => String.append (str (StructField.str_len f)) c
  | _ => c
  end.

Definition fmt_of (fl : list StructField.t) : string :=
  foldr (fun f s => String.append (fmt_of_field f) s) EmptyString fl.

(** A [CHAR] field whose length prints as a repeat count. *)
Definition countable (f : StructField.t) : Prop :=
  StructField.field_type f = CHAR ->
  exists n, StructField.str_len f = Some n /\ 0 <= n.

(** The name -> index map the loop builds, from [index] on. *)
Fixpoint index_map (index : nat) (fl : list StructField.t) (nim : dict.t nat)
  : dict.t nat :=
  match fl with
  | [] => nim
  | f :: rest => index_map (S index) rest (dict.set nim (StructField.name f) index)
  end.

(** The class [MetaStruct] computes from the sorted field list [fl] and
    the byte order [o], with its defaults list at [d]. *)
Definition compiled (p : platform) (o : byte_order) (fl : list StructField.t)
    (d : loc) : StructClass :=
  let struct_format := String (byte_order_char o) (fmt_of fl) in
  {| _BASE_STRUCT_FORMAT := fmt_of fl;
     _STRUCT_FORMAT := struct_format;
     _NAME_INDEX_MAP := index_map 0 fl [];
     _DEFAULT_VALUES := d;
     _PACKER :=
       {| PyStruct.format := struct_format;
          PyStruct.native := PyStruct.is_aligned o;
          PyStruct.little_endian := PyStruct.is_little_endian p o;
          PyStruct.segments :=
            PyStruct.layout p (PyStruct.is_aligned o) 0 (map code_of fl) |} |}.

(** The sum of the declared widths. *)
Definition total_width (fl : list StructField.t) : nat :=
  foldr (fun f n => (width f + n)%nat) 0%nat fl.

(** The segments one field contributes to the layout, and the padding
    before them when the record is [size] bytes long so far. *)
Definition field_segments (f : StructField.t) : list PyStruct.segment :=
  match StructField.field_type f with
  | CHAR => [PyStruct.Bytes (width f)]
  | c => [PyStruct.Scalar c]
  end.

Definition field_padding (p : platform) (aligned : bool) (size : nat)
    (f : StructField.t) : nat :=
  if aligned
  then PyStruct.padding_to (PyStruct.alignment p (StructField.field_type f)) size
  else 0%nat.

(** What the loop of [Struct.__init__] leaves of [kwargs], and the
    values it produces from [xs]. *)
Fixpoint leftover (items : list (string * nat)) (kwargs : dict.t pyval)
  : dict.t pyval :=
  match items with
  | [] => kwargs
  | (name, _) :: rest =>
      match dict.get name kwargs with
      | Some _ => leftover rest (dict.pop name kwargs)
      | None => leftover rest kwargs
      end
  end.

Fixpoint assign (items : list (string * nat)) (kwargs : dict.t pyval)
    (xs : list pyval) : list pyval :=
  match items with
  | [] => xs
  | (name, index) :: rest =>
      match dict.get name kwargs with
      | Some v => assign rest (dict.pop name kwargs) (<[index := v]> xs)
      | None => assign rest kwargs xs
      end
  end.

(** The keyword arguments that name no field of the class. *)
Definition unexpected (cls : StructClass) (kwargs : dict.t pyval) : dict.t pyval :=
  List.filter
    (fun kv => match dict.get kv.1 (_NAME_INDEX_MAP cls) with
               | None => true
               | Some _ => false
               end)
    kwargs.

(** ** Example record types *)
Module Examples.
Import Init.Byte.

(** [b"none"] and [b"abcd"] *)
Definition b_none : list byte := [x6e; x6f; x6e; x65].
Definition b_abcd : list byte := [x61; x62; x63; x64].

(** The MRO of a direct subclass of [Struct], after the class itself:
    [Struct], then [object], which has no descriptor. *)
Definition Struct_mro : list namespace := [Struct_body; []].

(** [class Packet(Struct)] with [id = uint32_t(0)], [flag = uint8_t(1)]
    and [tag = char(4, b"none")], the first descriptors created. *)
Definition Packet_body : result namespace :=
  '(id, count_) ← uint32_t (PyInt 0) 0%nat;
  '(flag, count_) ← uint8_t (PyInt 1) count_;
  '(tag, count_) ← char 4 (PyBytes b_none) count_;
  Ok [("id", AttrField id); ("flag", AttrField flag); ("tag", AttrField tag)]%string.

Definition Packet (p : platform) : M StructClass :=
  body ← lift Packet_body;
  MetaStruct.__new__ p Struct_mro body.

(** The bytes [01 00 00 00 00 61 62 63 64]. *)
Definition packet_bytes : list byte :=
  [x01; x00; x00; x00; x00; x61; x62; x63; x64].

(** [Packet(id=1, flag=0, tag=b"abcd").pack()], then a second record
    unpacks the nine bytes and its fields are read. *)
Definition packet_scenario (p : platform) : M (list byte * list pyval) :=
  cls ← Packet p;
  r ← Struct.__init__ cls
        [("id", PyInt 1); ("flag", PyInt 0); ("tag", PyBytes b_abcd)]%string;
  bs ← Struct.pack r;
  r' ← Struct.__init__ cls [];
  _ ← Struct.unpack r' packet_bytes;
  id ← Struct.get_field_value r' "id";
  flag ← Struct.get_field_value r' "flag";
  tag ← Struct.get_field_value r' "tag";
  mret (bs, [id; flag; tag]).

(** A record is unpacked, then one of its fields is set. *)
Definition set_after_unpack (p : platform) : M unit :=
  cls ← Packet p;
  r ← Struct.__init__ cls [];
  _ ← Struct.unpack r packet_bytes;
  Struct.set_field_value r "flag" (PyInt 1).

(** [class Base(Struct)] with [a = uint8_t()] and [b = uint8_t()];
    [class Derived(Base)] with [a = uint16_t()], created in this
    order. *)
Definition Base_Derived_bodies : result (namespace * namespace) :=
  '(a, count_) ← uint8_t PyNone 0%nat;
  '(b, count_) ← uint8_t PyNone count_;
  '(a', count_) ← uint16_t PyNone count_;
  Ok ([("a", AttrField a); ("b", AttrField b)]%string,
      [("a", AttrField a')]%string).

Definition Base_Derived (p : platform) : M (StructClass * StructClass) :=
  '(base, derived) ← lift Base_Derived_bodies;
  Base ← MetaStruct.__new__ p Struct_mro base;
  Derived ← MetaStruct.__new__ p (type_new base :: Struct_mro) derived;
  mret (Base, Derived).

(** [class Pair(Struct)] with [a = int8_t(0)] and [b = int32_t(0)],
    under the byte order [o]. *)
Definition Pair_body (o : byte_order) : result namespace :=
  '(a, count_) ← int8_t (PyInt 0) 0%nat;
  '(b, count_) ← int32_t (PyInt 0) count_;
  Ok [("BYTE_ORDER", AttrByteOrder o);
      ("a", AttrField a); ("b", AttrField b)]%string.

Definition Pair (p : platform) (o : byte_order) : M StructClass :=
  body ← lift (Pair_body o);
  MetaStruct.__new__ p Struct_mro body.

(** A little-endian [Pair], whose size is 5, unpacks eight bytes
    under the native byte order; returns [sizeof()] and the fields. *)
Definition eight_bytes : list byte :=
  [x01; x00; x00; x00; x02; x00; x00; x00].

Definition unpack_native (p : platform) : M (nat * list pyval) :=
  cls ← Pair p BYTE_ORDER_LITTLE_ENDIAN;
  r ← Struct.__init__ cls [];
  n ← Struct.sizeof r;
  _ ← Struct.unpack_endian p r eight_bytes BYTE_ORDER_NATIVE;
  a ← Struct.get_field_value r "a";
  b ← Struct.get_field_value r "b";
  mret (n, [a; b]).

(** A [Pair] declared with the native byte order is packed; returns
    the number of bytes and [sizeof()]. *)
Definition pack_native (p : platform) : M (nat * nat) :=
  cls ← Pair p BYTE_ORDER_NATIVE;
  r ← Struct.__init__ cls [("a", PyInt 1); ("b", PyInt 2)]%string;
  bs ← Struct.pack r;
  n ← Struct.sizeof r;
  mret (length bs, n).

(** Reading and writing a name that is not a field of [Packet]. *)
Definition get_unknown (p : platform) : M pyval :=
  cls ← Packet p;
  r ← Struct.__init__ cls [];
  Struct.get_field_value r "size".

Definition set_unknown (p : platform) : M unit :=
  cls ← Packet p;
  r ← Struct.__init__ cls [];
  Struct.set_field_value r "size" (PyInt 9).

(** The values behind the programs above, for the classes on [lp64_le]
    in an empty store. *)
Definition body_of {A} (r : result (list A)) : list A :=
  match r with Ok body => body | Raise _ => [] end.

Definition Packet_attrs : namespace := body_of Packet_body.

Definition Packet_fields : list StructField.t :=
  MetaStruct.field_list (type_new Packet_attrs :: Struct_mro).

Definition Packet_cls : StructClass :=
  compiled lp64_le BYTE_ORDER_LITTLE_ENDIAN Packet_fields 0.

Definition Packet_defaults : heap := [ObjList [PyInt 0; PyInt 1; PyBytes b_none]].

Definition abcd_values : list pyval := [PyInt 1; PyInt 0; PyBytes b_abcd].

(** The store after [Packet(id=1, flag=0, tag=b"abcd")], the record
    being at location 2. *)
Definition Packet_store : heap :=
  Packet_defaults ++ [ObjList abcd_values; ObjStruct Packet_cls (PyList 1)].

Definition Base_attrs : namespace := body_of (fst <$> Base_Derived_bodies).
Definition Derived_attrs : namespace := body_of (snd <$> Base_Derived_bodies).

Definition Pair_attrs (o : byte_order) : namespace := body_of (Pair_body o).

Definition Pair_fields (o : byte_order) : list StructField.t :=
  MetaStruct.field_list (type_new (Pair_attrs o) :: Struct_mro).
End Examples.

(** The order [sorted] puts the fields in. *)
Definition count_le (f g : StructField.t) : Prop :=
  (StructField.count f <= StructField.count g)%nat.

(** A dictionary of descriptors that binds each under the name the
    descriptor carries. *)
Definition named (d : dict.t StructField.t) : Prop :=
  forall k f, (k, f) ∈ d -> StructField.name f = k.

(** ** [StructField]: the descriptor interface

    [__get__] and [__set__] call the methods of [Struct], so they come
    after it.  [instance] is [None] when the attribute is read on the
    class.  [not instance] takes the truth value of the instance: [Struct]
    defines [__len__] and no [__bool__], so an instance is false exactly
    when its [__len__()] is zero. *)
Module Descriptor.
Definition __get__ (self : StructField.t) (instance : option loc)
  : M (StructField.t + pyval) :=
  match instance with
  | None => mret (inl self)
  | Some instance =>
      n ← Struct.__len__ instance;
      if (n =? 0)%nat then mret (inl self)
      else
        v ← Struct.get_field_value instance (StructField.name self);
        mret (inr v)
  end.

Definition __set__ (self : StructField.t) (instance : loc) (value : pyval)
  : M unit :=
  Struct.set_field_value instance (StructField.name self) value.
End Descriptor.

(** ** File objects

    What [FileHelper] uses of the file object [fp]: the attribute
    [mode], [read(size)] and [write(b)].  A call returns or raises, and
    leaves the file object in a new state.

    The methods of [FileHelper] raise: an exception of a method of the
    record ([Exn]); the library's [StructException] with its third
    message, ['File must be opened in binary mode']; what the file
    object raises, which for the files below is
    [io.UnsupportedOperation], the error of a read or a write that the
    mode of the file does not allow. *)
Inductive file_exn :=
| Exn (e : exn)
| File_must_be_opened_in_binary_mode
| UnsupportedOperation.

Inductive file_result (A : Type) :=
| Returns (a : A)
| Raises (e : file_exn).
Arguments Returns {A} a.
Arguments Raises {A} e.

Module io.
Class File (F : Type) := {
  mode : F -> string;
  read : F -> nat -> file_result (list byte) * F;
  write : F -> list byte -> file_result nat * F
}.
End io.

(** [c in s] for a one-character string [c]. *)
Fixpoint contains (c : ascii) (s : string) : bool :=
  match s with
  | EmptyString => false
  | String c' s' => Ascii.eqb c c' || contains c s'
  end.

(** ** [FileHelper]: records read from and written to a file *)
Module FileHelper.
Section Methods.
Context {F : Type} `{!io.File F}.

(** The helper keeps the file object it was given. *)
Record t := { fp : F }.

(** The methods run on the helper and the store. *)
Definition FM (A : Type) : Type := t -> heap -> file_result A * t * heap.

#[global] Instance FM_ret : MRet FM := fun A a self h => (Returns a, self, h).
#[global] Instance FM_bind : MBind FM :=
  fun A B f m self h =>
    match m self h with
    | (Returns a, self', h') => f a self' h'
    | (Raises e, self', h') => (Raises e, self', h')
    end.

(** A method of the record, called from a method of the helper. *)
Definition of_record {A} (m : M A) : FM A :=
  fun self h =>
    match m h with
    | (Ok a, h') => (Returns a, self, h')
    | (Raise e, h') => (Raises (Exn e), self, h')
    end.

(** [self.fp.read(size)] and [self.fp.write(b)] *)
Definition fp_read (size : nat) : FM (list byte) :=
  fun self h =>
    let '(r, fp') := io.read (fp self) size in (r, {| fp := fp' |}, h).

Definition fp_write (b : list byte) : FM nat :=
  fun self h =>
    let '(r, fp') := io.write (fp self) b in (r, {| fp := fp' |}, h).

Definition __init__ (fp : F) : file_result t :=
  if negb (contains "b" (io.mode fp))
  then Raises File_must_be_opened_in_binary_mode
  else Returns {| fp := fp |}.

Definition read_into (struct_obj : loc) : FM bool :=
  size ← of_record (Struct.sizeof struct_obj);
  bytes_ ← fp_read size;
  if (length bytes_ <? size)%nat then mret false
  else
    _ ← of_record (Struct.unpack struct_obj bytes_);
    mret true.

Definition write (struct_obj : loc) : FM nat :=
  bytes_ ← of_record (Struct.pack struct_obj);
  fp_write bytes_.
End Methods.
Arguments t F : clear implicits.
End FileHelper.

(** ** Binary files

    The file object [open(path, mode)] returns for a binary [mode]: the
    bytes of the file and the position of the next read or write.
    [opened] is the mode as the object reports it. *)
Module BinaryFile.
Inductive open_mode := rb | rb_plus | wb | ab | ab_plus | xb | xb_plus.

Record t := {
  opened : open_mode;
  data : list byte;
  pos : nat
}.

Definition mode (f : t) : string :=
  match opened f with
  | rb => "rb" | rb_plus => "rb+"
  | wb => "wb"
  | ab => "ab" | ab_plus => "ab+"
  | xb => "xb" | xb_plus => "xb+"
  end.

Definition readable (f : t) : bool :=
  match opened f with
  | rb | rb_plus | ab_plus | xb_plus => true
  | wb | ab | xb => false
  end.

Definition writable (f : t) : bool :=
  match opened f with
  | rb => false
  | _ => true
  end.

Definition appending (f : t) : bool :=
  match opened f with
  | ab | ab_plus => true
  | _ => false
  end.

(** [read(size)]: the next [size] bytes, fewer at the end of the
    file. *)
Definition read (f : t) (size : nat) : file_result (list byte) * t :=
  if readable f then
    let b := take size (drop (pos f) (data f)) in
    (Returns b,
     {| opened := opened f; data := data f; pos := (pos f + length b)%nat |})
  else (Raises UnsupportedOperation, f).

(** [write(b)]: all of [b] is written, over the bytes at the position
    or, in an append mode, at the end of the file. *)
Definition write (f : t) (b : list byte) : file_result nat * t :=
  if writable f then
    let start := if appending f then length (data f) else pos f in
    (Returns (length b),
     {| opened := opened f;
        data := take start (data f)
                  ++ replicate (start - length (data f)) Byte.x00
                  ++ b ++ drop (start + length b) (data f);
        pos := (start + length b)%nat |})
  else (Raises UnsupportedOperation, f).

#[global] Instance File : io.File t :=
  {| io.mode := mode; io.read := read; io.write := write |}.
End BinaryFile.

(** ** Class bodies made of field declarations

    The body [name = StructField(field_type, default, str_len)], ...,
    run in order: each descriptor is constructed, then bound to its
    name in the namespace [ns]. *)
Fixpoint declare (decls : list (string * (type_code * pyval * option Z)))
    (ns : namespace) (count_ : nat) : result (namespace * nat) :=
  match decls with
  | [] => Ok (ns, count_)
  | (name, (field_type, default, str_len)) :: rest =>
      '(f, count_) ← StructField.__init__ field_type default str_len count_;
      declare rest (dict.set ns name (AttrField f)) count_
  end.

(** The descriptors such a body declares: they take the counters from
    [count_] on and carry the names they are bound to. *)
Fixpoint declared (decls : list (string * (type_code * pyval * option Z)))
    (count_ : nat) : list StructField.t :=
  match decls with
  | [] => []
  | (name, (field_type, default, str_len)) :: rest =>
      {| StructField.field_type := field_type;
         StructField.default := default;
         StructField.str_len := str_len;
         StructField.count := count_;
         StructField.name := name |} :: declared rest (S count_)
  end.

(** Whether the body declares a field of the name of [f]. *)
Definition declares (decls : list (string * (type_code * pyval * option Z)))
    (f : StructField.t) : bool :=
  existsb (String.eqb (StructField.name f)) (map fst decls).

(** Constructed strictly earlier. *)
Definition count_lt (f g : StructField.t) : Prop :=
  (StructField.count f < StructField.count g)%nat.

(** A descriptor as [StructField.__init__] makes them, up to the name
    bound later. *)
Definition constructed (f : StructField.t) : Prop :=
  StructField.__init__ (StructField.field_type f) (StructField.default f)
    (StructField.str_len f) (StructField.count f) =
  Ok (StructField.__set_name__ f EmptyString, S (StructField.count f)).

(** ** Client code: calls of the methods of one record

    The exception a call raises is caught; the store is what the call
    left. *)
Inductive call :=
| Call_get_field_value (name : string)
| Call_set_field_value (name : string) (value : pyval)
| Call_pack
| Call_pack_endian (byte_order : byte_order)
| Call_unpack (bytes_ : list byte)
| Call_unpack_endian (bytes_ : list byte) (byte_order : byte_order)
| Call_sizeof.

Definition run_call (p : platform) (self : loc) (c : call) (h : heap) : heap :=
  match c with
  | Call_get_field_value name => (Struct.get_field_value self name h).2
  | Call_set_field_value name value =>
      (Struct.set_field_value self name value h).2
  | Call_pack => (Struct.pack self h).2
  | Call_pack_endian o => (Struct.pack_endian p self o h).2
  | Call_unpack b => (Struct.unpack self b h).2
  | Call_unpack_endian b o => (Struct.unpack_endian p self b o h).2
  | Call_sizeof => (Struct.sizeof self h).2
  end.

Definition run_calls (p : platform) (self : loc) (cs : list call) (h : heap)
  : heap :=
  fold_left (fun h c => run_call p self c h) cs h.

(** The state of a record that the methods keep: the record is of the
    class [cls] and its values are [n], in a list that is not the
    defaults list of the class or in a tuple; the defaults list holds
    [ds]. *)
Definition intact (cls : StructClass) (n : nat) (ds : list pyval) (self : loc)
    (h : heap) : Prop :=
  h !! _DEFAULT_VALUES cls = Some (ObjList ds) /\
  ((exists l xs,
       h !! self = Some (ObjStruct cls (PyList l)) /\
       h !! l = Some (ObjList xs) /\
       length xs = n /\ l <> _DEFAULT_VALUES cls) \/
   (exists xs,
       h !! self = Some (ObjStruct cls (PyTuple xs)) /\ length xs = n)).

(** ** What [pack] accepts and what a round trip keeps *)

(** The values [pack] takes for a field: an integer in the range of an
    integer type; for the float types a float, or an integer that
    converts to one (for [FLOAT32_T] outside the native mode, one that
    single precision can hold); any byte string for [CHAR]. *)
Definition packable_float32 (native : bool) (x : Z) : bool :=
  native || negb (ieee.overflows x).

Definition packable (native : bool) (f : StructField.t) (v : pyval) : bool :=
  match StructField.field_type f, v with
  | CHAR, PyBytes _ => true
  | FLOAT32_T, PyFloat x => packable_float32 native x
  | FLOAT32_T, PyInt z =>
      match ieee.of_int z with
      | Some x => packable_float32 native x
      | None => false
      end
  | FLOAT64_T, PyFloat _ => true
  | FLOAT64_T, PyInt z =>
      match ieee.of_int z with Some _ => true | None => false end
  | (CHAR | FLOAT32_T | FLOAT64_T), _ => false
  | c, PyInt z =>
      match PyStruct.int_range c with
      | Some (lo, hi) => (lo <=? z) && (z <=? hi)
      | None => false
      end
  | _, _ => false
  end.



(** ** More example records *)
Module Samples.
Import Init.Byte.

(** [Packet(id=1)] whose [flag] was set to [None] and whose [tag] to the
    string ["abcd"], the record being at location 2. *)
Definition unset_values : list pyval := [PyInt 1; PyNone; PyStr "abcd"].

Definition unset_store : heap :=
  Examples.Packet_defaults
    ++ [ObjList unset_values; ObjStruct Examples.Packet_cls (PyList 1)].

(** The descriptor [Packet.flag]. *)
Definition Packet_flag : StructField.t :=
  {| StructField.field_type := UINT8_T;
     StructField.default := PyInt 1;
     StructField.str_len := None;
     StructField.count := 1;
     StructField.name := "flag" |}.

(** The declarations of the body of [Packet], and of the body of
    [Derived]. *)
Definition Packet_decls : list (string * (type_code * pyval * option Z)) :=
  [("id", (UINT32_T, PyInt 0, None));
   ("flag", (UINT8_T, PyInt 1, None));
   ("tag", (CHAR, PyBytes Examples.b_none, Some 4))]%string.

Definition Derived_decls : list (string * (type_code * pyval * option Z)) :=
  [("a", (UINT16_T, PyNone, None))]%string.









(** [class Bad(Struct)] with [tag = char(-1)]. *)
Definition Bad_body : result namespace :=
  '(tag, count_) ← char (-1) PyNone 0%nat;
  Ok [("tag", AttrField tag)]%string.

Definition Bad_attrs : namespace := Examples.body_of Bad_body.

(** Client code on a record: it unpacks nine bytes, assigns a field,
    unpacks eight bytes under the native order, reads an unknown name
    and packs. *)
Definition some_calls : list call :=
  [Call_unpack Examples.packet_bytes;
   Call_set_field_value "flag" (PyInt 1);
   Call_unpack_endian Examples.eight_bytes BYTE_ORDER_NATIVE;
   Call_get_field_value "size";
   Call_pack].

(** A file of ten bytes opened for reading, at its start and after
    nine bytes. *)
Definition ten_bytes (pos : nat) : BinaryFile.t :=
  {| BinaryFile.opened := BinaryFile.rb;
     BinaryFile.data := Examples.packet_bytes ++ [x01];
     BinaryFile.pos := pos |}.

(** An empty file opened with [open(path, "w+b")], whose mode reads
    ["rb+"], and a file of the bytes [b] at its start. *)
Definition empty_file : BinaryFile.t :=
  {| BinaryFile.opened := BinaryFile.rb_plus;
     BinaryFile.data := [];
     BinaryFile.pos := 0 |}.

End Samples.

(** * Properties *)

(** ** Dictionaries *)
Section DictFacts.
Context {V : Type}.
Implicit Types (d : dict.t V) (k : string) (v : V).

Lemma dict_get_set d k k' v :
  dict.get k (dict.set d k' v) =
  if String.eqb k k' then Some v else dict.get k d.
Proof.
  induction d as [|[k0 v0] d IH]; simpl.
  - destruct (String.eqb k k'); reflexivity.
  - destruct (String.eqb_spec k' k0) as [->|Hne]; simpl.
    + destruct (String.eqb k k0); reflexivity.
    + rewrite IH. destruct (String.eqb_spec k k0) as [->|]; [|reflexivity].
      destruct (String.eqb_spec k0 k') as [<-|]; [contradiction|reflexivity].
Qed.

Lemma dict_get_None d k : dict.get k d = None <-> k ∉ dict.keys d.
Proof.
  unfold dict.keys. induction d as [|[k0 v0] d IH]; simpl.
  - split; [intros _|reflexivity]. apply not_elem_of_nil.
  - rewrite not_elem_of_cons, <- IH.
    destruct (String.eqb_spec k k0); split; intros; try discriminate; intuition.
Qed.

Lemma dict_get_elem d k v : dict.get k d = Some v -> (k, v) ∈ d.
Proof.
  induction d as [|[k0 v0] d IH]; simpl; [discriminate|].
  destruct (String.eqb_spec k k0) as [->|].
  - intros [= ->]. left.
  - intros. right. auto.
Qed.

Lemma dict_elem_get d k v :
  NoDup (dict.keys d) -> (k, v) ∈ d -> dict.get k d = Some v.
Proof.
  unfold dict.keys. induction d as [|[k0 v0] d IH]; simpl.
  - intros _ H. inversion H.
  - intros Hnd Hin. apply NoDup_cons in Hnd as [Hk0 Hnd].
    apply elem_of_cons in Hin as [[= -> ->]|Hin].
    + rewrite String.eqb_refl. reflexivity.
    + destruct (String.eqb_spec k k0) as [->|]; [|auto].
      exfalso. apply Hk0. apply (list_elem_of_fmap_2 fst) in Hin. exact Hin.
Qed.

Lemma dict_keys_set d k v x :
  x ∈ dict.keys (dict.set d k v) <-> x = k \/ x ∈ dict.keys d.
Proof.
  unfold dict.keys. induction d as [|[k0 v0] d IH]; simpl.
  - rewrite list_elem_of_singleton. rewrite elem_of_nil. tauto.
  - destruct (String.eqb_spec k k0) as [->|Hne]; simpl.
    + rewrite !elem_of_cons. tauto.
    + rewrite !elem_of_cons, IH. tauto.
Qed.

Lemma dict_NoDup_set d k v :
  NoDup (dict.keys d) -> NoDup (dict.keys (dict.set d k v)).
Proof.
  unfold dict.keys. induction d as [|[k0 v0] d IH]; simpl; intros Hnd.
  - apply NoDup_singleton.
  - apply NoDup_cons in Hnd as [Hk0 Hnd].
    destruct (String.eqb_spec k k0) as [->|Hne]; simpl.
    + apply NoDup_cons. auto.
    + apply NoDup_cons. split; [|auto].
      intros Hin. apply dict_keys_set in Hin as [->|Hin]; auto.
Qed.

Lemma dict_get_pop d k k' :
  NoDup (dict.keys d) ->
  dict.get k (dict.pop k' d) = if String.eqb k k' then None else dict.get k d.
Proof.
  unfold dict.keys. induction d as [|[k0 v0] d IH]; simpl; intros Hnd.
  - destruct (String.eqb k k'); reflexivity.
  - apply NoDup_cons in Hnd as [Hk0 Hnd].
    destruct (String.eqb_spec k' k0) as [->|Hne].
    + destruct (String.eqb_spec k k0) as [Heq|]; [subst k|reflexivity].
      apply dict_get_None. exact Hk0.
    + simpl. rewrite IH by exact Hnd.
      destruct (String.eqb_spec k k0) as [Heq|]; [subst k|reflexivity].
      destruct (String.eqb_spec k0 k') as [Heq|]; [congruence|reflexivity].
Qed.

End DictFacts.

(** ** Format strings *)

Lemma append_assoc (a b c : string) :
  String.append (String.append a b) c = String.append a (String.append b c).
Proof. induction a; simpl; congruence. Qed.

Lemma append_empty_r (a : string) : String.append a EmptyString = a.
Proof. induction a; simpl; congruence. Qed.

(** Reading the digits of [d] accumulates as [Nat.of_uint_acc] does. *)
Lemma prepare_digits (d : Decimal.uint) (s : string) (acc : nat) :
  PyStruct.prepare (String.append (NilEmpty.string_of_uint d) s) (Some acc) =
  PyStruct.prepare s (Some (Nat.of_uint_acc d acc)).
Proof.
  revert acc.
  induction d; intros acc; try reflexivity;
    cbn [NilEmpty.string_of_uint String.append PyStruct.prepare];
    match goal with
    | |- context [PyStruct.is_digit ?c] =>
        change (PyStruct.is_digit c) with true; cbv iota
    end;
    rewrite IHd; cbn [Nat.of_uint_acc]; rewrite Nat.tail_mul_spec;
    do 3 f_equal; cbv [PyStruct.digit_value default id];
    match goal with
    | |- context [nat_of_ascii ?c] =>
        let n := eval vm_compute in (nat_of_ascii c) in
        change (nat_of_ascii c) with n
    end; lia.
Qed.

Lemma of_lu_N_nat (d : Decimal.uint) :
  N.to_nat (DecimalPos.Unsigned.of_lu d) = DecimalNat.Unsigned.of_lu d.
Proof.
  induction d; simpl DecimalPos.Unsigned.of_lu; simpl DecimalNat.Unsigned.of_lu;
    rewrite <- ?IHd; lia.
Qed.

Lemma of_uint_to_uint (p : positive) :
  Nat.of_uint (Pos.to_uint p) = Pos.to_nat p.
Proof.
  rewrite DecimalNat.Unsigned.of_uint_alt, <- of_lu_N_nat.
  rewrite <- DecimalPos.Unsigned.of_uint_alt, DecimalPos.Unsigned.of_to.
  reflexivity.
Qed.

(** [str n] for a natural [n] is read back as the repeat count [n]. *)
Lemma prepare_str (n : Z) (s : string) :
  0 <= n ->
  PyStruct.prepare (String.append (str (Some n)) s) None =
  PyStruct.prepare s (Some (Z.to_nat n)).
Proof.
  intros Hn. destruct n as [|p|p]; [reflexivity| |lia].
  change (Z.to_nat (Z.pos p)) with (Pos.to_nat p).
  unfold str, Z.to_int, NilZero.string_of_int, NilZero.string_of_uint.
  pose proof (DecimalPos.Unsigned.to_uint_nonnil p) as Hnil.
  pose proof (of_uint_to_uint p) as Hval. unfold Nat.of_uint in Hval.
  destruct (Pos.to_uint p) as [|d|d|d|d|d|d|d|d|d|d]; [contradiction|..];
    cbn [NilEmpty.string_of_uint String.append PyStruct.prepare];
    match goal with
    | |- context [PyStruct.is_digit ?c] =>
        change (PyStruct.is_digit c) with true; cbv iota
    end;
    rewrite prepare_digits; rewrite <- Hval;
    cbn [Nat.of_uint_acc]; rewrite Nat.tail_mul_spec;
    do 3 f_equal; cbv [PyStruct.digit_value default id];
    match goal with
    | |- context [nat_of_ascii ?c] =>
        let n := eval vm_compute in (nat_of_ascii c) in
        change (nat_of_ascii c) with n
    end; lia.
Qed.

Lemma getentry_char (c : type_code) :
  PyStruct.getentry (type_code_char c) = Some c.
Proof. destruct c; reflexivity. Qed.

Lemma whichtable_char (o : byte_order) (s : string) :
  PyStruct.whichtable (String (byte_order_char o) s) = (o, s).
Proof. destruct o; reflexivity. Qed.

Lemma countable_dec (f : StructField.t) : countable f \/ ~ countable f.
Proof.
  unfold countable.
  destruct (StructField.field_type f) eqn:Ht;
    try (left; intros; discriminate).
  destruct (StructField.str_len f) as [n|].
  - destruct (Z_le_gt_dec 0 n) as [Hn|Hn].
    + left. intros _. exists n. auto.
    + right. intros H. destruct (H eq_refl) as (m & [= <-] & Hm). lia.
  - right. intros H. destruct (H eq_refl) as (m & [=] & _).
Qed.

(** One field of the format, when its length is a repeat count... *)
Lemma prepare_field (f : StructField.t) (s : string) :
  countable f ->
  PyStruct.prepare (String.append (fmt_of_field f) s) None =
  (rest ← PyStruct.prepare s None; Ok (code_of f :: rest)).
Proof.
  unfold countable, fmt_of_field, code_of. intros Hf.
  destruct (StructField.field_type f); try reflexivity.
  destruct (Hf eq_refl) as (n & -> & Hn).
  rewrite append_assoc, prepare_str by exact Hn. reflexivity.
Qed.

(** ... and when it is not: the format is rejected. *)
Lemma prepare_field_bad (f : StructField.t) (s : string) :
  ~ countable f ->
  PyStruct.prepare (String.append (fmt_of_field f) s) None = Raise struct_error.
Proof.
  unfold countable, fmt_of_field. intros Hf.
  destruct (StructField.field_type f); try (exfalso; apply Hf; discriminate).
  destruct (StructField.str_len f) as [[|n|n]|]; try reflexivity;
    exfalso; apply Hf; intros _; eexists; split; try reflexivity; lia.
Qed.

Lemma prepare_fmt_of (fl : list StructField.t) :
  Forall countable fl ->
  PyStruct.prepare (fmt_of fl) None = Ok (map code_of fl).
Proof.
  induction 1 as [|f fl Hf _ IH]; [reflexivity|].
  simpl fmt_of. rewrite prepare_field, IH by exact Hf. reflexivity.
Qed.

Lemma prepare_fmt_of_inv (fl : list StructField.t) items :
  PyStruct.prepare (fmt_of fl) None = Ok items ->
  Forall countable fl /\ items = map code_of fl.
Proof.
  revert items. induction fl as [|f fl IH]; intros items; simpl fmt_of.
  - intros [= <-]. auto.
  - destruct (countable_dec f) as [Hf|Hf].
    + rewrite prepare_field by exact Hf.
      destruct (PyStruct.prepare (fmt_of fl) None) as [rest|e] eqn:Hrest;
        [|discriminate].
      intros [= <-]. destruct (IH rest eq_refl) as [Hfl ->]. auto.
    + rewrite prepare_field_bad by exact Hf. discriminate.
Qed.

(** [struct.Struct] on the format [MetaStruct] builds. *)
Lemma Struct_fmt_of (p : platform) (o : byte_order) (fl : list StructField.t) :
  Forall countable fl ->
  PyStruct.Struct p (String (byte_order_char o) (fmt_of fl)) =
  Ok (_PACKER (compiled p o fl 0%nat)).
Proof.
  intros Hfl. unfold PyStruct.Struct. rewrite whichtable_char.
  rewrite prepare_fmt_of by exact Hfl. reflexivity.
Qed.

Lemma Struct_fmt_of_inv (p : platform) (o : byte_order) (fl : list StructField.t) s :
  PyStruct.Struct p (String (byte_order_char o) (fmt_of fl)) = Ok s ->
  Forall countable fl /\ s = _PACKER (compiled p o fl 0%nat).
Proof.
  unfold PyStruct.Struct. rewrite whichtable_char.
  destruct (PyStruct.prepare (fmt_of fl) None) as [items|e] eqn:Hitems;
    [|discriminate].
  apply prepare_fmt_of_inv in Hitems as [Hfl ->]. intros [= <-]. auto.
Qed.

(** ** Packing and unpacking one value *)

Lemma ordered_involutive (le : bool) (bs : list byte) :
  PyStruct.ordered le (PyStruct.ordered le bs) = bs.
Proof. destruct le; simpl; [reflexivity|apply rev_involutive]. Qed.

Lemma length_ordered (le : bool) (bs : list byte) :
  length (PyStruct.ordered le bs) = length bs.
Proof. destruct le; simpl; [reflexivity|apply length_rev]. Qed.

Lemma length_ordered_split (le : bool) (n : nat) (z : Z) :
  length (PyStruct.ordered le (le_split n z)) = n.
Proof. rewrite length_ordered. apply length_le_split. Qed.

Lemma combine_ordered_split (le : bool) (n : nat) (z : Z) :
  le_combine (PyStruct.ordered le (PyStruct.ordered le (le_split n z))) =
  z mod 2 ^ (Z.of_nat n * 8).
Proof. rewrite ordered_involutive. apply le_combine_split. Qed.

Lemma pack_scalar_length (native le : bool) (c : type_code) (v : pyval) bs :
  PyStruct.pack_scalar native le c v = Ok bs ->
  length bs = PyStruct.itemsize c.
Proof.
  unfold PyStruct.pack_scalar, PyStruct.pack_float32.
  destruct c, v; simpl; try discriminate;
    repeat match goal with
      | |- context [match ?x with _ => _ end] => destruct x; try discriminate
      end;
    intros [= <-]; apply length_ordered_split.
Qed.

Lemma pack_bytes_length (n : nat) (v : pyval) bs :
  PyStruct.pack_bytes n v = Ok bs -> length bs = n.
Proof.
  destruct v; simpl; try discriminate. intros [= <-].
  rewrite length_take, length_app, length_replicate. lia.
Qed.

Lemma pack_bytes_exact (b : list byte) :
  PyStruct.pack_bytes (length b) (PyBytes b) = Ok b.
Proof. simpl. rewrite take_app_length. reflexivity. Qed.

Lemma signed_wrap (m z : Z) :
  0 < m -> - m <= z <= m - 1 ->
  (if z mod (2 * m) <? m then z mod (2 * m) else z mod (2 * m) - 2 * m) = z.
Proof.
  intros Hm Hz. destruct (Z_lt_ge_dec z 0) as [Hneg|Hpos].
  - replace (z mod (2 * m)) with (z + 2 * m)
      by (apply Z.mod_unique with (q := -1); lia).
    destruct (Z.ltb_spec (z + 2 * m) m); lia.
  - rewrite Z.mod_small by lia. destruct (Z.ltb_spec z m); lia.
Qed.

Ltac int_roundtrip :=
  match goal with
  | Hv : (?lo <=? ?z) && (?z <=? ?hi) = true |- _ =>
      rewrite Hv; apply andb_prop in Hv as [Hlo Hhi];
      apply Z.leb_le in Hlo, Hhi;
      eexists; split; [reflexivity|]; split;
      [apply length_ordered_split|];
      rewrite combine_ordered_split; simpl PyStruct.itemsize; f_equal;
      first
        [ apply Z.mod_small;
          match goal with
          | |- _ <= _ < ?m => let m' := eval vm_compute in m in change m with m'
          end; lia
        | match goal with
          | |- context [2 ^ (8 * Z.of_nat ?n - 1)] =>
              change (2 ^ (Z.of_nat n * 8)) with (2 * 2 ^ (8 * Z.of_nat n - 1));
              apply signed_wrap;
              [ reflexivity
              | match goal with
                | |- _ <= _ <= ?m - 1 =>
                    let m' := eval vm_compute in m in change m with m'
                end; lia ]
          end ]
  end.

(** A valid value of a scalar field packs into [itemsize] bytes that
    unpack to the same value. *)
Lemma pack_unpack_scalar (native le : bool) (f : StructField.t) (v : pyval) :
  StructField.field_type f <> CHAR ->
  valid_value f v = true ->
  exists bs,
    PyStruct.pack_scalar native le (StructField.field_type f) v = Ok bs /\
    length bs = PyStruct.itemsize (StructField.field_type f) /\
    PyStruct.unpack_scalar le (StructField.field_type f) bs = v.
Proof.
  unfold valid_value. intros Hc Hv.
  destruct (StructField.field_type f); try contradiction;
    destruct v as [|z|x|b|s]; try discriminate;
    unfold PyStruct.pack_scalar, PyStruct.pack_float32, PyStruct.unpack_scalar;
    simpl PyStruct.int_range in *; cbv iota beta in *;
    try int_roundtrip.
  - (* FLOAT32_T *)
    destruct (ieee.narrow x) as [y|] eqn:Hy; [|discriminate].
    apply Z.eqb_eq in Hv.
    unfold ieee.narrow in Hy.
    destruct (ieee.overflows x); [discriminate|]. injection Hy as <-.
    exists (PyStruct.ordered le (le_split 4 (ieee.cast x))).
    split; [destruct native; reflexivity|].
    split; [apply length_ordered_split|].
    rewrite combine_ordered_split. f_equal.
    unfold ieee.cast in *.
    change (Z.of_nat 4 * 8) with 32. rewrite Z.mod_mod by lia. exact Hv.
  - (* FLOAT64_T *)
    apply andb_prop in Hv as [Hlo Hhi].
    apply Z.leb_le in Hlo. apply Z.ltb_lt in Hhi.
    eexists; split; [reflexivity|]; split; [apply length_ordered_split|].
    rewrite combine_ordered_split. f_equal.
    change (Z.of_nat 8 * 8) with 64. apply Z.mod_small. lia.
Qed.

(** ** Packing and unpacking a layout *)

Lemma segments_size_app (a b : list PyStruct.segment) :
  PyStruct.segments_size (a ++ b) = (PyStruct.segments_size a + PyStruct.segments_size b)%nat.
Proof. unfold PyStruct.segments_size. induction a; simpl; lia. Qed.

Lemma result_bind_Ok {A B} (m : result A) (f : A -> result B) (b : B) :
  m ≫= f = Ok b -> exists a, m = Ok a /\ f a = Ok b.
Proof. destruct m; simpl; [eauto|discriminate]. Qed.

Lemma pack_segments_length (native le : bool) segs : forall vals bs,
  PyStruct.pack_segments native le segs vals = Ok bs ->
  length bs = PyStruct.segments_size segs.
Proof.
  induction segs as [|[n|c|n] segs IH]; intros vals bs; simpl.
  - intros [= <-]. reflexivity.
  - intros H. apply result_bind_Ok in H as (rest & Hrest & [= <-]).
    rewrite length_app, length_replicate. rewrite (IH _ _ Hrest). reflexivity.
  - destruct vals as [|v vals]; [discriminate|]. intros H.
    apply result_bind_Ok in H as (b & Hb & H).
    apply result_bind_Ok in H as (rest & Hrest & [= <-]).
    rewrite length_app. rewrite (IH _ _ Hrest).
    rewrite (pack_scalar_length _ _ _ _ _ Hb). reflexivity.
  - destruct vals as [|v vals]; [discriminate|]. intros H.
    apply result_bind_Ok in H as (b & Hb & H).
    apply result_bind_Ok in H as (rest & Hrest & [= <-]).
    rewrite length_app. rewrite (IH _ _ Hrest).
    rewrite (pack_bytes_length _ _ _ Hb). reflexivity.
Qed.

Lemma layout_cons p aligned size f fl :
  PyStruct.layout p aligned size (map code_of (f :: fl)) =
  (if aligned then [PyStruct.Padding (field_padding p aligned size f)] else [])
    ++ field_segments f
    ++ PyStruct.layout p aligned
         (size + field_padding p aligned size f + width f) (map code_of fl).
Proof.
  unfold field_padding, field_segments, width, code_of. simpl.
  destruct (StructField.field_type f); simpl;
    rewrite ?Nat.mul_1_r; reflexivity.
Qed.

Lemma field_segments_size f : PyStruct.segments_size (field_segments f) = width f.
Proof.
  unfold field_segments, width.
  destruct (StructField.field_type f); simpl; lia.
Qed.

(** Without alignment the size is the sum of the widths; with it,
    padding can only add to the sum. *)
Lemma layout_size p aligned fl : forall size,
  (total_width fl
     <= PyStruct.segments_size (PyStruct.layout p aligned size (map code_of fl)))%nat /\
  (aligned = false ->
   PyStruct.segments_size (PyStruct.layout p aligned size (map code_of fl)) = total_width fl).
Proof.
  induction fl as [|f fl IH]; intros size.
  - simpl. split; [lia|reflexivity].
  - rewrite layout_cons, !segments_size_app, field_segments_size.
    destruct (IH (size + field_padding p aligned size f + width f)%nat) as [IH1 IH2].
    simpl total_width. split; [lia|].
    intros Ha. rewrite (IH2 Ha). subst aligned. reflexivity.
Qed.

Lemma layout_nvalues p aligned fl : forall size,
  PyStruct.nvalues (PyStruct.layout p aligned size (map code_of fl)) = length fl.
Proof.
  induction fl as [|f fl IH]; intros size; [reflexivity|].
  rewrite layout_cons. unfold field_segments.
  destruct aligned, (StructField.field_type f); simpl; rewrite IH; reflexivity.
Qed.

(** Valid values pack, and the packed bytes unpack to the same values. *)
Lemma layout_roundtrip p aligned native le fl vs :
  valid_values fl vs ->
  forall size, exists bs,
    PyStruct.pack_segments native le
      (PyStruct.layout p aligned size (map code_of fl)) vs = Ok bs /\
    PyStruct.unpack_segments le (PyStruct.layout p aligned size (map code_of fl)) bs = vs.
Proof.
  induction 1 as [|f v fl vs Hv _ IH]; intros size.
  - exists []. split; reflexivity.
  - rewrite layout_cons.
    destruct (IH (size + field_padding p aligned size f + width f)%nat)
      as (rest & Hpack & Hunpack).
    set (pad := field_padding p aligned size f) in *.
    assert (exists bs,
      PyStruct.pack_segments native le
        (field_segments f ++ PyStruct.layout p aligned (size + pad + width f) (map code_of fl))
        (v :: vs) = Ok (bs ++ rest) /\
      PyStruct.unpack_segments le
        (field_segments f ++ PyStruct.layout p aligned (size + pad + width f) (map code_of fl))
        (bs ++ rest) = v :: vs) as (bs & Hp & Hu).
    { unfold field_segments.
      destruct (StructField.field_type f) eqn:Ht;
        try (destruct (pack_unpack_scalar native le f v) as (bs & Hb & Hlen & Hub);
             [rewrite Ht; discriminate|exact Hv|];
             rewrite Ht in Hb, Hlen, Hub;
             exists bs; cbn [app PyStruct.pack_segments PyStruct.unpack_segments];
             rewrite Hb, Hpack; cbn [mbind result_bind];
             rewrite take_app_length', drop_app_length', Hub, Hunpack by (symmetry; exact Hlen);
             split; reflexivity).
      unfold valid_value in Hv. rewrite Ht in Hv.
      destruct v as [| | |b|]; try discriminate.
      apply Nat.eqb_eq in Hv. symmetry in Hv.
      exists b.
      cbn [app PyStruct.pack_segments PyStruct.unpack_segments PyStruct.pack_bytes].
      rewrite Hpack. cbn [mbind result_bind].
      rewrite !take_app_length', drop_app_length', Hunpack by exact Hv.
      split; reflexivity. }
    destruct aligned.
    + exists (replicate pad Byte.x00 ++ bs ++ rest).
      cbn [app PyStruct.pack_segments PyStruct.unpack_segments].
      rewrite Hp. cbn [mbind result_bind].
      rewrite drop_app_length' by (symmetry; apply length_replicate).
      split; [reflexivity|exact Hu].
    + exists (bs ++ rest). cbn [app]. split; assumption.
Qed.

(** ** The store *)

Lemma load_Some (h : heap) l o : h !! l = Some o -> load l h = (Ok o, h).
Proof. unfold load. intros ->. reflexivity. Qed.

Lemma list_items_Some (h : heap) l xs :
  h !! l = Some (ObjList xs) -> list_items l h = (Ok xs, h).
Proof.
  intros H. unfold list_items, mbind, M_bind. rewrite (load_Some _ _ _ H).
  reflexivity.
Qed.

Lemma instance_Some (h : heap) self cls s :
  h !! self = Some (ObjStruct cls s) -> instance self h = (Ok (cls, s), h).
Proof.
  intros H. unfold instance, mbind, M_bind. rewrite (load_Some _ _ _ H).
  reflexivity.
Qed.

Lemma list_append_Some (h : heap) l xs v :
  h !! l = Some (ObjList xs) ->
  list_append l v h = (Ok tt, <[l := ObjList (xs ++ [v])]> h).
Proof.
  intros H. unfold list_append, mbind, M_bind. rewrite (list_items_Some _ _ _ H).
  reflexivity.
Qed.

Lemma list_setitem_Some (h : heap) l xs i v :
  h !! l = Some (ObjList xs) -> (i < length xs)%nat ->
  list_setitem l i v h = (Ok tt, <[l := ObjList (<[i := v]> xs)]> h).
Proof.
  intros H Hi. unfold list_setitem, mbind, M_bind.
  rewrite (list_items_Some _ _ _ H).
  apply Nat.ltb_lt in Hi. rewrite Hi. reflexivity.
Qed.

Lemma insert_snoc (h : heap) (o o' : object) :
  <[length h := o']> (h ++ [o]) = h ++ [o'].
Proof.
  rewrite insert_app_r_alt by reflexivity. rewrite Nat.sub_diag. reflexivity.
Qed.

Lemma lookup_snoc (h : heap) (o : object) : (h ++ [o]) !! length h = Some o.
Proof. apply list_lookup_middle. reflexivity. Qed.

(** ** Compiling a class *)

Lemma compile_spec d fl : forall index fmt nim (h : heap) ds,
  h !! d = Some (ObjList ds) ->
  MetaStruct.compile d index fl fmt nim h =
  (Ok (String.append fmt (fmt_of fl), index_map index fl nim),
   <[d := ObjList (ds ++ map StructField.default fl)]> h).
Proof.
  induction fl as [|f fl IH]; intros index fmt nim h ds Hd.
  - cbn [MetaStruct.compile fmt_of foldr index_map map]. unfold mret, M_ret.
    rewrite append_empty_r, app_nil_r, list_insert_id by exact Hd.
    reflexivity.
  - cbn [MetaStruct.compile]. unfold mbind at 1, M_bind at 1.
    rewrite (list_append_Some _ _ _ _ Hd).
    erewrite IH; cycle 1.
    { apply list_lookup_insert_eq. eapply lookup_lt_Some, Hd. }
    rewrite list_insert_insert_eq, <- app_assoc.
    cbn [fmt_of foldr index_map map app].
    f_equal. f_equal. f_equal.
    unfold fmt_of_field.
    destruct (StructField.field_type f); simpl; rewrite ?append_assoc; reflexivity.
Qed.

(** [MetaStruct.__new__] succeeds exactly when the byte order is a
    string and every [CHAR] length is a repeat count; the class is then
    [compiled], with its defaults in a new list at the end of the
    store. *)
Lemma new_spec p bases attrs (h : heap) :
  let mro := type_new attrs :: bases in
  let fl := MetaStruct.field_list mro in
  let h' := h ++ [ObjList (map StructField.default fl)] in
  MetaStruct.__new__ p bases attrs h =
  match MetaStruct.getattr_BYTE_ORDER mro with
  | Ok o =>
      match PyStruct.Struct p (String (byte_order_char o) (fmt_of fl)) with
      | Ok _ => (Ok (compiled p o fl (length h)), h')
      | Raise e => (Raise e, h')
      end
  | Raise e => (Raise e, h')
  end.
Proof.
  intros mro fl h'. unfold MetaStruct.__new__.
  unfold mbind at 1, M_bind at 1. unfold alloc at 1.
  unfold mbind at 1, M_bind at 1. fold mro. fold fl.
  rewrite (compile_spec _ _ _ _ _ _ []) by apply lookup_snoc.
  rewrite insert_snoc. cbn [app]. fold h'.
  unfold mbind at 1, M_bind at 1, lift at 1.
  destruct (MetaStruct.getattr_BYTE_ORDER mro) as [o|e]; [|reflexivity].
  unfold mbind at 1, M_bind at 1, lift at 1. cbn [String.append].
  destruct (PyStruct.Struct p _) as [s|e] eqn:Hs; [|reflexivity].
  apply Struct_fmt_of_inv in Hs as [_ ->]. reflexivity.
Qed.

Lemma new_Ok p bases attrs (h : heap) cls h' :
  MetaStruct.__new__ p bases attrs h = (Ok cls, h') ->
  let fl := MetaStruct.field_list (type_new attrs :: bases) in
  exists o,
    MetaStruct.getattr_BYTE_ORDER (type_new attrs :: bases) = Ok o /\
    Forall countable fl /\
    cls = compiled p o fl (length h) /\
    h' = h ++ [ObjList (map StructField.default fl)].
Proof.
  rewrite new_spec. intros H fl. fold fl in H.
  destruct (MetaStruct.getattr_BYTE_ORDER _) as [o|e]; [|discriminate].
  destruct (PyStruct.Struct p _) as [s|e] eqn:Hs; [|discriminate].
  apply Struct_fmt_of_inv in Hs as [Hfl _].
  injection H as <- <-. exists o. auto.
Qed.

(** ** The name -> index map *)

Lemma index_map_other fl : forall i nim k,
  k ∉ map StructField.name fl ->
  dict.get k (index_map i fl nim) = dict.get k nim.
Proof.
  induction fl as [|f fl IH]; intros i nim k Hk; [reflexivity|].
  cbn [map] in Hk. apply not_elem_of_cons in Hk as [Hne Hk].
  cbn [index_map]. rewrite IH by exact Hk. rewrite dict_get_set.
  destruct (String.eqb_spec k (StructField.name f)); [contradiction|reflexivity].
Qed.

(** Every entry of the map is either an old one or the index of a field
    of that name. *)
Lemma index_map_get fl : forall i nim k j,
  dict.get k (index_map i fl nim) = Some j ->
  dict.get k nim = Some j \/
  exists f, fl !! (j - i)%nat = Some f /\ StructField.name f = k /\ (i <= j)%nat.
Proof.
  induction fl as [|f fl IH]; intros i nim k j; cbn [index_map]; [auto|].
  intros H. apply IH in H as [H|(f' & Hf' & Hname & Hle)].
  - rewrite dict_get_set in H.
    destruct (String.eqb_spec k (StructField.name f)) as [Heq|_]; [|auto].
    injection H as <-. right. exists f. rewrite Nat.sub_diag. auto.
  - right. exists f'. replace (j - i)%nat with (S (j - S i)) by lia.
    split; [exact Hf'|]. split; [exact Hname|lia].
Qed.

Lemma index_map_None fl : forall i nim k,
  dict.get k (index_map i fl nim) = None <->
  (k ∉ map StructField.name fl) /\ dict.get k nim = None.
Proof.
  induction fl as [|f fl IH]; intros i nim k; cbn [index_map map].
  - rewrite elem_of_nil. tauto.
  - rewrite IH, dict_get_set, not_elem_of_cons.
    destruct (String.eqb_spec k (StructField.name f)); split; intros H0;
      try tauto; destruct H0 as [? ?]; try discriminate; tauto.
Qed.

(** With distinct names, a field is mapped to its position. *)
Lemma index_map_lookup fl : forall i nim n f,
  NoDup (map StructField.name fl) ->
  fl !! n = Some f ->
  dict.get (StructField.name f) (index_map i fl nim) = Some (i + n)%nat.
Proof.
  induction fl as [|g fl IH]; intros i nim n f Hnd Hf; [discriminate|].
  cbn [map] in Hnd. apply NoDup_cons in Hnd as [Hg Hnd]. cbn [index_map].
  destruct n as [|n]; simpl in Hf.
  - injection Hf as ->. rewrite index_map_other by exact Hg.
    rewrite dict_get_set, String.eqb_refl. f_equal. lia.
  - rewrite (IH _ _ n f Hnd Hf). f_equal. lia.
Qed.

Lemma index_map_NoDup fl : forall i nim,
  NoDup (dict.keys nim) -> NoDup (dict.keys (index_map i fl nim)).
Proof.
  induction fl as [|f fl IH]; intros i nim Hnd; [exact Hnd|].
  cbn [index_map]. apply IH, dict_NoDup_set, Hnd.
Qed.

(** The indices of the compiled map are positions of the field list... *)
Lemma index_map_range fl k j :
  dict.get k (index_map 0 fl []) = Some j ->
  exists f, fl !! j = Some f /\ StructField.name f = k.
Proof.
  intros H. apply index_map_get in H as [H|(f & Hf & Hk & _)]; [discriminate|].
  rewrite Nat.sub_0_r in Hf. eauto.
Qed.

(** ... and no two names share one. *)
Lemma index_map_values_NoDup fl :
  NoDup (dict.values (index_map 0 fl [])).
Proof.
  assert (Hkeys : NoDup (dict.keys (index_map 0 fl []))).
  { apply index_map_NoDup. constructor. }
  assert (Hinj : forall k1 k2 j,
             (k1, j) ∈ index_map 0 fl [] -> (k2, j) ∈ index_map 0 fl [] -> k1 = k2).
  { intros k1 k2 j H1 H2.
    apply (dict_elem_get _ _ _ Hkeys), index_map_range in H1 as (f1 & Hf1 & <-).
    apply (dict_elem_get _ _ _ Hkeys), index_map_range in H2 as (f2 & Hf2 & <-).
    congruence. }
  revert Hkeys Hinj. generalize (index_map 0 fl []). clear fl.
  unfold dict.keys, dict.values. intros d.
  induction d as [|[k j] d IH]; intros Hkeys Hinj; cbn [map]; [constructor|].
  cbn [map] in Hkeys. apply NoDup_cons in Hkeys as [Hk Hkeys].
  apply NoDup_cons. split.
  - intros Hj. apply list_elem_of_fmap in Hj as ([k' j'] & Hj' & Hin).
    simpl in Hj'. subst j'.
    apply Hk. rewrite (Hinj k k' j); [|left|right; exact Hin].
    apply (list_elem_of_fmap_2 fst) in Hin. exact Hin.
  - apply IH; [exact Hkeys|].
    intros k1 k2 j' H1 H2. apply (Hinj k1 k2 j'); right; assumption.
Qed.

(** ** The loop of the constructor *)

Lemma values_setitem_list (h : heap) self cls l xs i v :
  h !! self = Some (ObjStruct cls (PyList l)) ->
  h !! l = Some (ObjList xs) ->
  (i < length xs)%nat ->
  Struct.values_setitem self i v h =
  (Ok tt, <[l := ObjList (<[i := v]> xs)]> h).
Proof.
  intros Hself Hl Hi. unfold Struct.values_setitem, mbind, M_bind.
  rewrite (instance_Some _ _ _ _ Hself). cbn [seq_setitem].
  apply list_setitem_Some; assumption.
Qed.

Lemma assign_length items : forall kwargs xs,
  length (assign items kwargs xs) = length xs.
Proof.
  induction items as [|[name index] items IH]; intros kwargs xs; [reflexivity|].
  cbn [assign]. destruct (dict.get name kwargs); rewrite IH, ?length_insert;
    reflexivity.
Qed.

Lemma init_kwargs_run self cls l items : forall kwargs (h : heap) xs,
  h !! self = Some (ObjStruct cls (PyList l)) ->
  h !! l = Some (ObjList xs) ->
  Forall (fun it => (it.2 < length xs)%nat) items ->
  Struct.init_kwargs self items kwargs h =
  (Ok (leftover items kwargs), <[l := ObjList (assign items kwargs xs)]> h).
Proof.
  induction items as [|[name index] items IH]; intros kwargs h xs Hself Hl Hitems.
  - cbn [Struct.init_kwargs leftover assign]. unfold mret, M_ret.
    rewrite list_insert_id by exact Hl. reflexivity.
  - apply Forall_cons in Hitems as [Hindex Hitems]. simpl in Hindex.
    cbn [Struct.init_kwargs leftover assign].
    destruct (dict.get name kwargs) as [v|]; [|apply IH; assumption].
    unfold mbind, M_bind.
    rewrite (values_setitem_list _ _ _ _ _ _ _ Hself Hl Hindex).
    assert (Hne : l <> self) by (intros ->; congruence).
    erewrite IH; cycle 1.
    + rewrite list_lookup_insert_ne by exact Hne. exact Hself.
    + apply list_lookup_insert_eq. eapply lookup_lt_Some, Hl.
    + rewrite length_insert. exact Hitems.
    + rewrite list_insert_insert_eq. reflexivity.
Qed.

Lemma dict_pop_absent {V} (d : dict.t V) k :
  dict.get k d = None -> dict.pop k d = d.
Proof.
  induction d as [|[k0 v0] d IH]; simpl; [reflexivity|].
  destruct (String.eqb k k0); [discriminate|]. intros H. rewrite IH by exact H.
  reflexivity.
Qed.

Lemma dict_keys_pop {V} (d : dict.t V) k x :
  x ∈ dict.keys (dict.pop k d) -> x ∈ dict.keys d.
Proof.
  unfold dict.keys. induction d as [|[k0 v0] d IH]; simpl; [auto|].
  destruct (String.eqb k k0); simpl; rewrite !elem_of_cons; auto.
  intros [->|H]; auto.
Qed.

Lemma dict_NoDup_pop {V} (d : dict.t V) k :
  NoDup (dict.keys d) -> NoDup (dict.keys (dict.pop k d)).
Proof.
  unfold dict.keys. induction d as [|[k0 v0] d IH]; simpl; intros Hnd; [constructor|].
  apply NoDup_cons in Hnd as [Hk0 Hnd].
  destruct (String.eqb_spec k k0); [exact Hnd|]. simpl.
  apply NoDup_cons. split; [|auto].
  intros Hin. apply Hk0. eapply dict_keys_pop, Hin.
Qed.

Lemma filter_pop {V} (P : string * V -> bool) (d : dict.t V) k :
  NoDup (dict.keys d) ->
  List.filter P (dict.pop k d) =
  List.filter (fun kv => negb (String.eqb kv.1 k) && P kv) d.
Proof.
  unfold dict.keys. induction d as [|[k0 v0] d IH]; simpl; intros Hnd; [reflexivity|].
  apply NoDup_cons in Hnd as [Hk0 Hnd].
  destruct (String.eqb_spec k k0) as [Heq|Hne].
  - subst k0. rewrite String.eqb_refl. simpl.
    apply List.filter_ext_in. intros [k' v'] Hin. simpl.
    destruct (String.eqb_spec k' k) as [->|]; [|reflexivity].
    exfalso. apply Hk0. apply (in_map fst) in Hin. apply list_elem_of_In. exact Hin.
  - simpl. destruct (String.eqb_spec k0 k); [congruence|]. simpl.
    rewrite IH by exact Hnd. reflexivity.
Qed.

(** What is left of [kwargs] are the entries whose key is not in the
    map. *)
Lemma leftover_filter items : forall kwargs,
  NoDup (dict.keys kwargs) ->
  leftover items kwargs =
  List.filter
    (fun kv => match dict.get kv.1 items with None => true | Some _ => false end)
    kwargs.
Proof.
  induction items as [|[name index] items IH]; intros kwargs Hnd.
  - cbn [leftover]. symmetry. induction kwargs as [|kv kwargs IHk]; [reflexivity|].
    simpl. f_equal. apply IHk. unfold dict.keys in *. cbn [map] in Hnd.
    apply NoDup_cons in Hnd as [_ Hnd]. exact Hnd.
  - cbn [leftover].
    assert (Hpop : leftover items (dict.pop name kwargs) =
                   List.filter
                     (fun kv => match dict.get kv.1 ((name, index) :: items) with
                                | None => true
                                | Some _ => false
                                end) kwargs).
    { rewrite IH by (apply dict_NoDup_pop; exact Hnd).
      rewrite filter_pop by exact Hnd.
      apply List.filter_ext. intros [k v]. simpl.
      destruct (String.eqb k name); reflexivity. }
    destruct (dict.get name kwargs) eqn:Hget; [exact Hpop|].
    rewrite <- Hpop, dict_pop_absent by exact Hget. reflexivity.
Qed.

(** A position that no item names keeps its value. *)
Lemma assign_other items : forall kwargs xs i,
  i ∉ map snd items -> assign items kwargs xs !! i = xs !! i.
Proof.
  induction items as [|[name index] items IH]; intros kwargs xs i Hi; [reflexivity|].
  cbn [map] in Hi. apply not_elem_of_cons in Hi as [Hne Hi]. simpl in Hne.
  cbn [assign]. destruct (dict.get name kwargs); rewrite IH by exact Hi;
    [|reflexivity].
  apply list_lookup_insert_ne. congruence.
Qed.

(** The position of an item holds the keyword argument of that name, if
    there is one. *)
Lemma assign_item items : forall kwargs xs name index,
  NoDup (map fst items) -> NoDup (map snd items) ->
  NoDup (dict.keys kwargs) ->
  (name, index) ∈ items ->
  (index < length xs)%nat ->
  assign items kwargs xs !! index =
  match dict.get name kwargs with
  | Some v => Some v
  | None => xs !! index
  end.
Proof.
  induction items as [|[name0 index0] items IH];
    intros kwargs xs name index Hk Hv Hkw Hin Hlt.
  - inversion Hin.
  - cbn [map] in Hk, Hv. simpl in Hk, Hv.
    apply NoDup_cons in Hk as [Hk0 Hk]. apply NoDup_cons in Hv as [Hv0 Hv].
    cbn [assign]. apply elem_of_cons in Hin as [[= -> ->]|Hin].
    + destruct (dict.get name0 kwargs) as [v|]; rewrite assign_other by exact Hv0;
        [|reflexivity].
      apply list_lookup_insert_eq. exact Hlt.
    + assert (Hname : name <> name0).
      { intros ->. apply Hk0. apply (list_elem_of_fmap_2 fst) in Hin. exact Hin. }
      assert (Hindex : index0 <> index).
      { intros ->. apply Hv0. apply (list_elem_of_fmap_2 snd) in Hin. exact Hin. }
      destruct (dict.get name0 kwargs) as [v|].
      * rewrite (IH _ _ name index Hk Hv) by
          (try apply dict_NoDup_pop; try rewrite length_insert; assumption).
        rewrite dict_get_pop by exact Hkw.
        destruct (String.eqb_spec name name0); [contradiction|].
        rewrite list_lookup_insert_ne by exact Hindex. reflexivity.
      * apply IH; assumption.
Qed.

(** ** Records in the store *)

Lemma record_inv (h : heap) self cls vs :
  record h self = Some (cls, vs) ->
  exists s, h !! self = Some (ObjStruct cls s) /\ seq_items s h = (Ok vs, h).
Proof.
  unfold record. destruct (h !! self) as [[|cls' [l|xs]]|] eqn:Hself;
    try discriminate.
  - destruct (h !! l) as [[xs|]|] eqn:Hl; try discriminate.
    intros [= <- <-]. exists (PyList l). split; [reflexivity|].
    apply list_items_Some. exact Hl.
  - intros [= <- <-]. exists (PyTuple xs). split; reflexivity.
Qed.

Lemma record_tuple (h : heap) self cls s vs :
  h !! self = Some (ObjStruct cls s) ->
  record (<[self := ObjStruct cls (PyTuple vs)]> h) self = Some (cls, vs).
Proof.
  intros Hself. unfold record.
  rewrite list_lookup_insert_eq by (eapply lookup_lt_Some, Hself). reflexivity.
Qed.

Lemma set_values_Some (h : heap) self cls s s' :
  h !! self = Some (ObjStruct cls s) ->
  set_values self s' h = (Ok tt, <[self := ObjStruct cls s']> h).
Proof.
  intros Hself. unfold set_values, mbind, M_bind.
  rewrite (instance_Some _ _ _ _ Hself). reflexivity.
Qed.

(** ** The compiled packer *)

Lemma unpack_segments_length le segs : forall bs,
  length (PyStruct.unpack_segments le segs bs) = PyStruct.nvalues segs.
Proof.
  induction segs as [|[n|c|n] segs IH]; intros bs; simpl; rewrite ?IH; reflexivity.
Qed.

Lemma packer_nvalues p o fl d :
  PyStruct.nvalues (PyStruct.segments (_PACKER (compiled p o fl d))) = length fl.
Proof. apply layout_nvalues. Qed.

(** Valid values pack, and the bytes unpack to the same values. *)
Lemma packer_roundtrip p o fl d vs :
  valid_values fl vs ->
  exists bs,
    PyStruct.pack (_PACKER (compiled p o fl d)) vs = Ok bs /\
    PyStruct.unpack (_PACKER (compiled p o fl d)) bs = Ok vs.
Proof.
  intros Hvs.
  destruct (layout_roundtrip p (PyStruct.is_aligned o) (PyStruct.is_aligned o)
              (PyStruct.is_little_endian p o) fl vs Hvs 0%nat) as (bs & Hpack & Hunpack).
  exists bs. unfold PyStruct.pack, PyStruct.unpack.
  rewrite packer_nvalues. rewrite <- (Forall2_length _ _ _ Hvs), Nat.eqb_refl.
  cbn [compiled _PACKER PyStruct.segments PyStruct.native PyStruct.little_endian
       PyStruct.size].
  rewrite Hpack. split; [reflexivity|].
  rewrite (pack_segments_length _ _ _ _ _ Hpack), Nat.eqb_refl, Hunpack.
  reflexivity.
Qed.

(** The outcome of [unpack]: an error on a size mismatch, else as many
    values as the class has fields. *)
Lemma packer_unpack p o fl d bs :
  (length bs <> PyStruct.size (_PACKER (compiled p o fl d)) ->
   PyStruct.unpack (_PACKER (compiled p o fl d)) bs = Raise struct_error) /\
  (length bs = PyStruct.size (_PACKER (compiled p o fl d)) ->
   exists vs, PyStruct.unpack (_PACKER (compiled p o fl d)) bs = Ok vs /\
              length vs = length fl).
Proof.
  unfold PyStruct.unpack. split; intros Hlen.
  - apply Nat.eqb_neq in Hlen. rewrite Hlen. reflexivity.
  - rewrite Hlen, Nat.eqb_refl. eexists. split; [reflexivity|].
    rewrite unpack_segments_length. apply packer_nvalues.
Qed.

Lemma packer_size p o fl d :
  (total_width fl <= PyStruct.size (_PACKER (compiled p o fl d)))%nat /\
  (o <> BYTE_ORDER_NATIVE ->
   PyStruct.size (_PACKER (compiled p o fl d)) = total_width fl).
Proof.
  destruct (layout_size p (PyStruct.is_aligned o) fl 0) as [Hle Heq].
  split; [exact Hle|].
  intros Ho. apply Heq. destruct o; try reflexivity. contradiction.
Qed.

(** ** Running the methods *)

Lemma pack_run (h : heap) self cls s vs :
  h !! self = Some (ObjStruct cls s) ->
  seq_items s h = (Ok vs, h) ->
  Struct.pack self h = (PyStruct.pack (_PACKER cls) vs, h).
Proof.
  intros Hself Hvs. unfold Struct.pack, mbind, M_bind.
  rewrite (instance_Some _ _ _ _ Hself), Hvs. reflexivity.
Qed.

Lemma pack_endian_run p (h : heap) self cls s vs o :
  h !! self = Some (ObjStruct cls s) ->
  seq_items s h = (Ok vs, h) ->
  Struct.pack_endian p self o h =
  (st ← PyStruct.Struct p (String (byte_order_char o) (_BASE_STRUCT_FORMAT cls));
   PyStruct.pack st vs, h).
Proof.
  intros Hself Hvs. unfold Struct.pack_endian. unfold mbind at 1 2, M_bind.
  rewrite (instance_Some _ _ _ _ Hself), Hvs. reflexivity.
Qed.

Lemma unpack_run (h : heap) self cls s bs :
  h !! self = Some (ObjStruct cls s) ->
  Struct.unpack self bs h =
  match PyStruct.unpack (_PACKER cls) bs with
  | Ok vs => (Ok tt, <[self := ObjStruct cls (PyTuple vs)]> h)
  | Raise e => (Raise e, h)
  end.
Proof.
  intros Hself. unfold Struct.unpack, mbind, M_bind.
  rewrite (instance_Some _ _ _ _ Hself). unfold lift.
  destruct (PyStruct.unpack (_PACKER cls) bs); [|reflexivity].
  apply (set_values_Some _ _ _ _ _ Hself).
Qed.

Lemma unpack_endian_run p (h : heap) self cls s bs o :
  h !! self = Some (ObjStruct cls s) ->
  Struct.unpack_endian p self bs o h =
  match (st ← PyStruct.Struct p
                 (String (byte_order_char o) (_BASE_STRUCT_FORMAT cls));
         PyStruct.unpack st bs) with
  | Ok vs => (Ok tt, <[self := ObjStruct cls (PyTuple vs)]> h)
  | Raise e => (Raise e, h)
  end.
Proof.
  intros Hself. unfold Struct.unpack_endian. unfold mbind at 1 2, M_bind.
  rewrite (instance_Some _ _ _ _ Hself). unfold lift.
  destruct (_ ≫= _); [|reflexivity].
  apply (set_values_Some _ _ _ _ _ Hself).
Qed.

Lemma sizeof_run (h : heap) self cls s :
  h !! self = Some (ObjStruct cls s) ->
  Struct.sizeof self h = (Ok (PyStruct.size (_PACKER cls)), h).
Proof.
  intros Hself. unfold Struct.sizeof, Struct.__len__, mbind, M_bind.
  rewrite (instance_Some _ _ _ _ Hself). reflexivity.
Qed.

(** ** Setting and getting a field *)

(** While [values] is the list [__init__] made, setting a known field
    writes its position and reading it back returns the value. *)
Lemma set_get_list (h : heap) self cls l xs name index v :
  h !! self = Some (ObjStruct cls (PyList l)) ->
  h !! l = Some (ObjList xs) ->
  dict.get name (_NAME_INDEX_MAP cls) = Some index ->
  (index < length xs)%nat ->
  let h' := <[l := ObjList (<[index := v]> xs)]> h in
  Struct.set_field_value self name v h = (Ok tt, h') /\
  Struct.get_field_value self name h' = (Ok v, h').
Proof.
  intros Hself Hl Hget Hindex h'.
  assert (Hne : l <> self) by (intros ->; congruence).
  assert (Hself' : h' !! self = Some (ObjStruct cls (PyList l))).
  { unfold h'. rewrite list_lookup_insert_ne by exact Hne. exact Hself. }
  assert (Hl' : h' !! l = Some (ObjList (<[index := v]> xs))).
  { apply list_lookup_insert_eq. eapply lookup_lt_Some, Hl. }
  unfold Struct.get_field_value, Struct.set_field_value, Struct.name_index.
  unfold mbind at 1 3, M_bind.
  rewrite (instance_Some _ _ _ _ Hself), (instance_Some _ _ _ _ Hself').
  unfold mbind at 1 2, M_bind. rewrite Hget. unfold mret, M_ret.
  cbn [seq_setitem]. rewrite (list_setitem_Some _ _ _ _ _ Hl Hindex).
  split; [reflexivity|].
  unfold seq_getitem, mbind, M_bind. cbn [seq_items].
  rewrite (list_items_Some _ _ _ Hl').
  rewrite list_lookup_insert_eq by exact Hindex. reflexivity.
Qed.

(** Once [unpack] has rebound [values] to a tuple, setting any known
    field raises [TypeError] and changes nothing. *)
Lemma set_on_tuple (h : heap) self cls xs name index v :
  h !! self = Some (ObjStruct cls (PyTuple xs)) ->
  dict.get name (_NAME_INDEX_MAP cls) = Some index ->
  Struct.set_field_value self name v h = (Raise TypeError, h).
Proof.
  intros Hself Hget.
  unfold Struct.set_field_value, Struct.name_index. unfold mbind at 1, M_bind.
  rewrite (instance_Some _ _ _ _ Hself). unfold mbind, M_bind. rewrite Hget.
  reflexivity.
Qed.

(** ** Running the constructor *)

Lemma assign_no_kwargs items xs : assign items [] xs = xs.
Proof. induction items as [|[name index] items IH]; [reflexivity|exact IH]. Qed.

Lemma leftover_no_kwargs items : leftover items [] = [].
Proof. induction items as [|[name index] items IH]; [reflexivity|exact IH]. Qed.

Lemma insert_snoc2 (h : heap) (o o' o2 : object) :
  <[length h := o']> ((h ++ [o]) ++ [o2]) = h ++ [o'; o2].
Proof.
  rewrite <- app_assoc. cbn [app].
  rewrite insert_app_r_alt by reflexivity. rewrite Nat.sub_diag. reflexivity.
Qed.

Lemma bind_Ok {A B} (m : M A) (f : A -> M B) (h h' : heap) (a : A) :
  m h = (Ok a, h') -> (m ≫= f) h = f a h'.
Proof. unfold mbind, M_bind. intros ->. reflexivity. Qed.

Lemma bind_Raise {A B} (m : M A) (f : A -> M B) (h h' : heap) (e : exn) :
  m h = (Raise e, h') -> (m ≫= f) h = (Raise e, h').
Proof. unfold mbind, M_bind. intros ->. reflexivity. Qed.

Lemma list_copy_Some (h : heap) l xs :
  h !! l = Some (ObjList xs) ->
  list_copy l h = (Ok (length h), h ++ [ObjList xs]).
Proof.
  intros Hl. unfold list_copy.
  rewrite (bind_Ok _ _ _ _ _ (list_items_Some _ _ _ Hl)). reflexivity.
Qed.

(** [__init__] on a class whose map holds only positions of the
    defaults list: the new list is allocated at the end of the store,
    then the instance; the result tells whether a keyword was left. *)
Lemma init_run cls kwargs (h : heap) ds :
  h !! _DEFAULT_VALUES cls = Some (ObjList ds) ->
  Forall (fun it => (it.2 < length ds)%nat) (_NAME_INDEX_MAP cls) ->
  Struct.__init__ cls kwargs h =
  (match leftover (_NAME_INDEX_MAP cls) kwargs with
   | [] => Ok (S (length h))
   | rest => Raise (StructException (Unexpected_kwargs rest))
   end,
   h ++ [ObjList (assign (_NAME_INDEX_MAP cls) kwargs ds);
         ObjStruct cls (PyList (length h))]).
Proof.
  intros Hd Hrange. unfold Struct.__init__.
  rewrite (bind_Ok _ _ _ _ _ (list_copy_Some _ _ _ Hd)).
  erewrite bind_Ok by reflexivity.
  rewrite length_app, Nat.add_1_r. cbn [length].
  destruct kwargs as [|kv kwargs].
  { cbn [dict.is_empty]. rewrite assign_no_kwargs, leftover_no_kwargs.
    rewrite <- app_assoc. reflexivity. }
  cbn [dict.is_empty]. unfold dict.items.
  erewrite bind_Ok; cycle 1.
  { apply (init_kwargs_run (S (length h)) cls (length h)).
    - apply list_lookup_middle. rewrite length_app. simpl. lia.
    - apply lookup_app_l_Some, lookup_snoc.
    - exact Hrange. }
  rewrite insert_snoc2.
  destruct (leftover _ _); reflexivity.
Qed.

Lemma compiled_index_range p o fl d :
  Forall (fun it => (it.2 < length (map StructField.default fl))%nat)
    (_NAME_INDEX_MAP (compiled p o fl d)).
Proof.
  apply Forall_forall. intros [name index] Hin. simpl.
  apply dict_elem_get in Hin; [|apply index_map_NoDup; constructor].
  apply index_map_range in Hin as (f & Hf & _).
  rewrite length_map. eapply lookup_lt_Some, Hf.
Qed.

(** ** What the methods leave alone *)

Lemma list_setitem_run (h : heap) l xs i v :
  h !! l = Some (ObjList xs) ->
  list_setitem l i v h =
  if (i <? length xs)%nat then (Ok tt, <[l := ObjList (<[i := v]> xs)]> h)
  else (Raise IndexError, h).
Proof.
  intros Hl. unfold list_setitem.
  rewrite (bind_Ok _ _ _ _ _ (list_items_Some _ _ _ Hl)).
  destruct (i <? length xs)%nat; reflexivity.
Qed.

(** The loop of [__init__] writes to the list of the instance only. *)
Lemma init_kwargs_frame self cls l items : forall kwargs (h : heap) xs res h',
  h !! self = Some (ObjStruct cls (PyList l)) ->
  h !! l = Some (ObjList xs) ->
  Struct.init_kwargs self items kwargs h = (res, h') ->
  exists xs', h' = <[l := ObjList xs']> h.
Proof.
  induction items as [|[name index] items IH];
    intros kwargs h xs res h' Hself Hl Hrun.
  - injection Hrun as _ <-. exists xs. symmetry. apply list_insert_id, Hl.
  - cbn [Struct.init_kwargs] in Hrun.
    destruct (dict.get name kwargs) as [v|]; [|eapply IH; eassumption].
    assert (Hset : Struct.values_setitem self index v h =
                   list_setitem l index v h).
    { unfold Struct.values_setitem.
      rewrite (bind_Ok _ _ _ _ _ (instance_Some _ _ _ _ Hself)). reflexivity. }
    rewrite (list_setitem_run _ _ _ _ _ Hl) in Hset.
    destruct (index <? length xs)%nat.
    + rewrite (bind_Ok _ _ _ _ _ Hset) in Hrun.
      assert (Hne : l <> self) by (intros ->; congruence).
      eapply IH in Hrun as (xs' & ->).
      * exists xs'. apply list_insert_insert_eq.
      * rewrite list_lookup_insert_ne by exact Hne. exact Hself.
      * apply list_lookup_insert_eq. eapply lookup_lt_Some, Hl.
    + rewrite (bind_Raise _ _ _ _ _ Hset) in Hrun. injection Hrun as _ <-.
      exists xs. symmetry. apply list_insert_id, Hl.
Qed.

Lemma list_copy_run (h : heap) l :
  list_copy l h =
  match h !! l with
  | Some (ObjList xs) => (Ok (length h), h ++ [ObjList xs])
  | _ => (Raise SystemError, h)
  end.
Proof.
  unfold list_copy, list_items, load, mbind, M_bind.
  destruct (h !! l) as [[xs|cls s]|]; reflexivity.
Qed.

(** A successful construction appends a list and the instance to the
    store and changes nothing else. *)
Lemma init_Ok_shape cls kwargs (h : heap) r h' :
  Struct.__init__ cls kwargs h = (Ok r, h') ->
  r = S (length h) /\
  exists ds vs,
    h !! _DEFAULT_VALUES cls = Some (ObjList ds) /\
    h' = h ++ [ObjList vs; ObjStruct cls (PyList (length h))].
Proof.
  unfold Struct.__init__. intros Hrun.
  destruct (h !! _DEFAULT_VALUES cls) as [[ds|]|] eqn:Hd.
  - rewrite (bind_Ok _ _ _ _ _ (list_copy_Some _ _ _ Hd)) in Hrun.
    erewrite bind_Ok in Hrun by reflexivity.
    rewrite length_app, Nat.add_1_r in Hrun. cbn [length] in Hrun.
    destruct (dict.is_empty kwargs).
    { injection Hrun as <- <-. split; [reflexivity|].
      exists ds, ds. rewrite <- app_assoc. auto. }
    match type of Hrun with
    | (?m ≫= _) ?hh = _ => destruct (m hh) as [[rest|e] h2] eqn:Hloop
    end.
    + rewrite (bind_Ok _ _ _ _ _ Hloop) in Hrun.
      eapply init_kwargs_frame with (l := length h) in Hloop as (xs' & ->);
        [|apply list_lookup_middle; rewrite length_app; simpl; lia
         |apply lookup_app_l_Some, lookup_snoc].
      rewrite insert_snoc2 in Hrun.
      destruct (dict.is_empty rest); [|discriminate].
      injection Hrun as <- <-. split; [reflexivity|]. eauto.
    + rewrite (bind_Raise _ _ _ _ _ Hloop) in Hrun. discriminate.
  - erewrite bind_Raise in Hrun by (rewrite list_copy_run, Hd; reflexivity).
    discriminate.
  - erewrite bind_Raise in Hrun by (rewrite list_copy_run, Hd; reflexivity).
    discriminate.
Qed.

(** [set_field_value] writes to the list of the instance only. *)
Lemma set_field_value_frame (h : heap) self cls l xs name v res h' :
  h !! self = Some (ObjStruct cls (PyList l)) ->
  h !! l = Some (ObjList xs) ->
  Struct.set_field_value self name v h = (res, h') ->
  exists xs', h' = <[l := ObjList xs']> h.
Proof.
  intros Hself Hl. unfold Struct.set_field_value, Struct.name_index.
  rewrite (bind_Ok _ _ _ _ _ (instance_Some _ _ _ _ Hself)).
  destruct (dict.get name (_NAME_INDEX_MAP cls)) as [index|].
  - erewrite bind_Ok by reflexivity. cbn [seq_setitem].
    rewrite (list_setitem_run _ _ _ _ _ Hl).
    destruct (index <? length xs)%nat; intros [= <- <-]; eauto.
    exists xs. symmetry. apply list_insert_id, Hl.
  - erewrite bind_Raise by reflexivity. intros [= <- <-].
    exists xs. symmetry. apply list_insert_id, Hl.
Qed.

(** ** Collecting and ordering the fields *)

Lemma dict_set_elem {V} (d : dict.t V) k v kv :
  kv ∈ dict.set d k v -> kv = (k, v) \/ kv ∈ d.
Proof.
  induction d as [|[k0 v0] d IH]; simpl.
  - rewrite list_elem_of_singleton. auto.
  - destruct (String.eqb_spec k k0) as [->|]; rewrite !elem_of_cons; [tauto|].
    intros [->|Hin]; [tauto|]. apply IH in Hin. tauto.
Qed.

(** A namespace made by [type_new] binds every descriptor under the name
    the descriptor carries. *)
Lemma type_new_named attrs k f :
  (k, AttrField f) ∈ type_new attrs -> StructField.name f = k.
Proof.
  unfold type_new. intros H. apply list_elem_of_fmap in H as ([k' v'] & Heq & _).
  simpl in Heq. destruct v' as [f0|o|]; try discriminate.
  injection Heq as -> ->. reflexivity.
Qed.

Lemma type_new_keys attrs : dict.keys (type_new attrs) = dict.keys attrs.
Proof.
  unfold dict.keys, type_new. rewrite map_map. apply map_ext. intros [k v]. reflexivity.
Qed.

Lemma type_new_get attrs k f :
  dict.get k attrs = Some (AttrField f) ->
  dict.get k (type_new attrs) = Some (AttrField (StructField.__set_name__ f k)).
Proof.
  induction attrs as [|[k0 v0] attrs IH]; simpl; [discriminate|].
  destruct (String.eqb_spec k k0) as [->|]; [|exact IH].
  intros [= ->]. reflexivity.
Qed.


Lemma collect_class_named acc ns :
  named acc ->
  (forall k f, (k, AttrField f) ∈ ns -> StructField.name f = k) ->
  named (MetaStruct.collect_class acc ns).
Proof.
  unfold MetaStruct.collect_class, dict.items. revert acc.
  induction ns as [|[k v] ns IH]; intros acc Hacc Hns; [exact Hacc|].
  cbn [fold_left]. apply IH.
  - destruct v; try exact Hacc.
    intros k' f' Hin. apply dict_set_elem in Hin as [[= -> ->]|Hin].
    + apply Hns. left.
    + apply Hacc, Hin.
  - intros k' f' Hin. apply Hns. right. exact Hin.
Qed.

Lemma collect_class_NoDup acc ns :
  NoDup (dict.keys acc) -> NoDup (dict.keys (MetaStruct.collect_class acc ns)).
Proof.
  unfold MetaStruct.collect_class, dict.items. revert acc.
  induction ns as [|[k v] ns IH]; intros acc Hacc; [exact Hacc|].
  cbn [fold_left]. apply IH. destruct v; try exact Hacc.
  apply dict_NoDup_set, Hacc.
Qed.

(** The binding of a class body replaces what the bases collected. *)
Lemma collect_class_get acc ns k :
  NoDup (dict.keys ns) ->
  dict.get k (MetaStruct.collect_class acc ns) =
  match dict.get k ns with
  | Some (AttrField f) => Some f
  | _ => dict.get k acc
  end.
Proof.
  unfold MetaStruct.collect_class, dict.items, dict.keys. revert acc.
  induction ns as [|[k0 v0] ns IH]; intros acc Hnd; [reflexivity|].
  cbn [map] in Hnd. apply NoDup_cons in Hnd as [Hk0 Hnd]. simpl in Hk0.
  cbn [fold_left dict.get]. rewrite IH by exact Hnd.
  destruct (String.eqb_spec k k0) as [->|Hne].
  - apply dict_get_None in Hk0. rewrite Hk0.
    destruct v0; try reflexivity. rewrite dict_get_set, String.eqb_refl. reflexivity.
  - destruct (dict.get k ns) as [[f| |]|]; try reflexivity;
      destruct v0; try reflexivity; rewrite dict_get_set;
      destruct (String.eqb_spec k k0); try contradiction; reflexivity.
Qed.

Lemma collect_bases_named nss :
  (forall ns k f, ns ∈ nss -> (k, AttrField f) ∈ ns -> StructField.name f = k) ->
  forall acc, named acc -> named (fold_left MetaStruct.collect_class nss acc).
Proof.
  induction nss as [|ns nss IH]; intros Hnss acc Hacc; [exact Hacc|].
  cbn [fold_left]. apply IH.
  - intros ns' k f Hin. apply Hnss. right. exact Hin.
  - apply collect_class_named; [exact Hacc|].
    intros k f. apply Hnss. left.
Qed.

Lemma collect_bases_NoDup nss : forall acc,
  NoDup (dict.keys acc) ->
  NoDup (dict.keys (fold_left MetaStruct.collect_class nss acc)).
Proof.
  induction nss as [|ns nss IH]; intros acc Hacc; [exact Hacc|].
  cbn [fold_left]. apply IH, collect_class_NoDup, Hacc.
Qed.

Lemma collect_cons ns bases :
  MetaStruct.collect (ns :: bases) =
  MetaStruct.collect_class (MetaStruct.collect bases) ns.
Proof.
  unfold MetaStruct.collect. cbn [rev]. rewrite fold_left_app. reflexivity.
Qed.

Lemma collect_named raw :
  named (MetaStruct.collect (map type_new raw)).
Proof.
  unfold MetaStruct.collect. apply collect_bases_named.
  - intros ns k f Hns. apply list_elem_of_In, in_rev, list_elem_of_In in Hns.
    apply list_elem_of_fmap in Hns as (attrs & -> & _). apply type_new_named.
  - intros k f Hin. inversion Hin.
Qed.

Lemma collect_NoDup mro : NoDup (dict.keys (MetaStruct.collect mro)).
Proof. apply collect_bases_NoDup. constructor. Qed.

(** ** Sorting by count *)

Lemma insert_Permutation f l : MetaStruct.insert f l ≡ₚ f :: l.
Proof.
  induction l as [|g l IH]; simpl; [reflexivity|].
  destruct (_ <=? _)%nat; [reflexivity|].
  rewrite IH. apply Permutation_swap.
Qed.

Lemma sorted_Permutation l : MetaStruct.sorted l ≡ₚ l.
Proof.
  induction l as [|f l IH]; simpl; [reflexivity|].
  rewrite insert_Permutation, IH. reflexivity.
Qed.

Lemma insert_StronglySorted f l :
  StronglySorted count_le l -> StronglySorted count_le (MetaStruct.insert f l).
Proof.
  induction 1 as [|g l Hl IH Hg]; simpl.
  - repeat constructor.
  - destruct (Nat.leb_spec (StructField.count f) (StructField.count g)) as [Hle|Hgt].
    + constructor; [constructor; assumption|].
      constructor; [exact Hle|].
      eapply Forall_impl; [exact Hg|]. unfold count_le. simpl. intros; lia.
    + constructor; [exact IH|].
      rewrite insert_Permutation. constructor; [|exact Hg].
      unfold count_le. lia.
Qed.

Lemma sorted_StronglySorted l : StronglySorted count_le (MetaStruct.sorted l).
Proof.
  induction l as [|f l IH]; simpl; [constructor|].
  apply insert_StronglySorted, IH.
Qed.

Lemma StronglySorted_lookup_le (l : list StructField.t) : forall i j f g,
  StronglySorted count_le l ->
  (i < j)%nat -> l !! i = Some f -> l !! j = Some g -> count_le f g.
Proof.
  induction l as [|x l IH]; intros i j f g Hl Hij Hi Hj; [discriminate|].
  apply StronglySorted_inv in Hl as [Hl Hx].
  destruct j as [|j]; [lia|]. simpl in Hj.
  destruct i as [|i]; simpl in Hi.
  - injection Hi as ->. apply (proj1 (Forall_forall _ _) Hx).
    eapply list_elem_of_lookup_2, Hj.
  - apply (IH i j); try assumption. lia.
Qed.

Lemma named_keys d :
  named d -> map StructField.name (dict.values d) = dict.keys d.
Proof.
  unfold named, dict.values, dict.keys.
  induction d as [|[k f] d IH]; intros Hd; [reflexivity|].
  cbn [map]. simpl. rewrite (Hd k f) by left. f_equal.
  apply IH. intros k' f' Hin. apply Hd. right. exact Hin.
Qed.

(** When every class of the MRO was made by [type_new], the fields of
    the layout have distinct names. *)
Lemma field_list_names_NoDup raw :
  NoDup (map StructField.name (MetaStruct.field_list (map type_new raw))).
Proof.
  unfold MetaStruct.field_list.
  rewrite (fmap_Permutation StructField.name _ _ (sorted_Permutation _)).
  change (NoDup (map StructField.name
                   (dict.values (MetaStruct.collect (map type_new raw))))).
  rewrite (named_keys _ (collect_named raw)). apply collect_NoDup.
Qed.

(** * The specification, statement by statement *)

(** C1 -- Round trip.  For a record type that [MetaStruct] compiled and a
    record of it whose values are valid for its fields, [pack] succeeds
    and [unpack] of the bytes leaves the record with the same values,
    field by field; likewise [pack_endian] and [unpack_endian] under any
    byte order. *)
Theorem pack_unpack_roundtrip p bases attrs (h0 : heap) cls h1 (h : heap) self vs :
  MetaStruct.__new__ p bases attrs h0 = (Ok cls, h1) ->
  record h self = Some (cls, vs) ->
  valid_values (MetaStruct.field_list (type_new attrs :: bases)) vs ->
  (exists bs h',
      Struct.pack self h = (Ok bs, h) /\
      Struct.unpack self bs h = (Ok tt, h') /\
      record h' self = Some (cls, vs)) /\
  (forall o, exists bs h',
      Struct.pack_endian p self o h = (Ok bs, h) /\
      Struct.unpack_endian p self bs o h = (Ok tt, h') /\
      record h' self = Some (cls, vs)).
Proof.
  intros Hnew Hrec Hvs.
  apply new_Ok in Hnew as (o0 & _ & Hfl & -> & _).
  apply record_inv in Hrec as (s & Hself & Hitems).
  set (fl := MetaStruct.field_list (type_new attrs :: bases)) in *.
  split.
  - destruct (packer_roundtrip p o0 fl (length h0) vs Hvs) as (bs & Hpack & Hunpack).
    exists bs, (<[self := ObjStruct (compiled p o0 fl (length h0)) (PyTuple vs)]> h).
    rewrite (pack_run _ _ _ _ _ Hself Hitems), Hpack.
    rewrite (unpack_run _ _ _ _ _ Hself), Hunpack.
    rewrite (record_tuple _ _ _ _ _ Hself). auto.
  - intros o.
    destruct (packer_roundtrip p o fl 0%nat vs Hvs) as (bs & Hpack & Hunpack).
    exists bs, (<[self := ObjStruct (compiled p o0 fl (length h0)) (PyTuple vs)]> h).
    rewrite (pack_endian_run _ _ _ _ _ _ _ Hself Hitems).
    rewrite (unpack_endian_run _ _ _ _ _ _ _ Hself).
    cbn [compiled _BASE_STRUCT_FORMAT]. rewrite (Struct_fmt_of p o fl Hfl).
    cbn [mbind result_bind]. rewrite Hpack, Hunpack.
    rewrite (record_tuple _ _ _ _ _ Hself). auto.
Qed.

(** C2, as the code has it -- when the body of a class binds the name
    [n] to a descriptor [d], whatever the bases bind it to, the layout
    has exactly one field of that name, it is [d], and the name -> index
    map sends [n] to its position; the fields are ordered by their
    counters, so the position of the field is the one the counter of
    [d] gives it, not the one a base's descriptor of that name had. *)
Theorem override_one_slot p raw attrs n d (h0 : heap) cls h1 :
  NoDup (dict.keys attrs) ->
  dict.get n attrs = Some (AttrField d) ->
  MetaStruct.__new__ p (map type_new raw) attrs h0 = (Ok cls, h1) ->
  let fl := MetaStruct.field_list (type_new attrs :: map type_new raw) in
  exists i,
    fl !! i = Some (StructField.__set_name__ d n) /\
    dict.get n (_NAME_INDEX_MAP cls) = Some i /\
    (forall j f, fl !! j = Some f -> StructField.name f = n -> j = i) /\
    (forall j f, fl !! j = Some f ->
       ((j < i)%nat -> (StructField.count f <= StructField.count d)%nat) /\
       ((i < j)%nat -> (StructField.count d <= StructField.count f)%nat)).
Proof.
  intros Hnd Hget Hnew fl.
  apply new_Ok in Hnew as (o0 & _ & _ & -> & _). fold fl.
  set (d' := StructField.__set_name__ d n).
  assert (Hnames : NoDup (map StructField.name fl))
    by apply (field_list_names_NoDup (attrs :: raw)).
  assert (Hd' : d' ∈ fl).
  { unfold fl, MetaStruct.field_list. rewrite sorted_Permutation.
    apply (list_elem_of_fmap_2' snd _ (n, d')); [|reflexivity].
    apply dict_get_elem. rewrite collect_cons, collect_class_get
      by (rewrite type_new_keys; exact Hnd).
    rewrite (type_new_get _ _ _ Hget). reflexivity. }
  apply list_elem_of_lookup_1 in Hd' as [i Hi].
  exists i. split; [exact Hi|]. split; [|split].
  - cbn [compiled _NAME_INDEX_MAP].
    change n with (StructField.name d').
    rewrite (index_map_lookup fl 0 [] i d' Hnames Hi). reflexivity.
  - intros j f Hj Hname.
    apply (NoDup_lookup _ j i n Hnames); rewrite list_lookup_fmap.
    + rewrite Hj. simpl. rewrite Hname. reflexivity.
    + rewrite Hi. reflexivity.
  - intros j f Hj.
    pose proof (sorted_StronglySorted
                  (dict.values (MetaStruct.collect (type_new attrs :: map type_new raw))))
      as Hsorted.
    split; intros Hlt.
    + apply (StronglySorted_lookup_le _ j i f d' Hsorted Hlt Hj Hi).
    + apply (StronglySorted_lookup_le _ i j d' f Hsorted Hlt Hi Hj).
Qed.

(** C3, as the code has it -- [unpack] of a buffer whose length differs
    from [sizeof()] raises [struct.error] and leaves the store, hence
    the values, as they were; on a buffer of that length it rebinds
    [values] to a tuple with one decoded value per field.
    [unpack_endian] checks the length against the size of the layout
    under the byte order it is given, which is [sizeof()] when that
    order and the one of the class are both, or both not, the native
    aligned mode. *)
Theorem unpack_size_mismatch p bases attrs (h0 : heap) cls h1 (h : heap) self vs bs :
  MetaStruct.__new__ p bases attrs h0 = (Ok cls, h1) ->
  record h self = Some (cls, vs) ->
  exists n o_cls,
    Struct.sizeof self h = (Ok n, h) /\
    MetaStruct.getattr_BYTE_ORDER (type_new attrs :: bases) = Ok o_cls /\
    (length bs <> n -> Struct.unpack self bs h = (Raise struct_error, h)) /\
    (length bs = n ->
     exists vs' h',
       Struct.unpack self bs h = (Ok tt, h') /\
       record h' self = Some (cls, vs') /\
       PyStruct.unpack (_PACKER cls) bs = Ok vs' /\
       length vs' = length (MetaStruct.field_list (type_new attrs :: bases))) /\
    (forall o, exists st,
       PyStruct.Struct p (String (byte_order_char o) (_BASE_STRUCT_FORMAT cls)) = Ok st /\
       (PyStruct.is_aligned o = PyStruct.is_aligned o_cls -> PyStruct.size st = n) /\
       (length bs <> PyStruct.size st ->
        Struct.unpack_endian p self bs o h = (Raise struct_error, h)) /\
       (length bs = PyStruct.size st ->
        exists vs' h',
          Struct.unpack_endian p self bs o h = (Ok tt, h') /\
          record h' self = Some (cls, vs') /\
          PyStruct.unpack st bs = Ok vs' /\
          length vs' = length (MetaStruct.field_list (type_new attrs :: bases)))).
Proof.
  intros Hnew Hrec.
  apply new_Ok in Hnew as (o0 & Ho0 & Hfl & -> & _).
  apply record_inv in Hrec as (s & Hself & _).
  set (fl := MetaStruct.field_list (type_new attrs :: bases)) in *.
  set (cls := compiled p o0 fl (length h0)) in *.
  exists (PyStruct.size (_PACKER cls)), o0.
  split; [apply (sizeof_run _ _ _ _ Hself)|]. split; [exact Ho0|].
  destruct (packer_unpack p o0 fl (length h0) bs) as [Hbad Hgood]. fold cls in Hbad, Hgood.
  split; [|split].
  - intros Hlen. rewrite (unpack_run _ _ _ _ _ Hself), (Hbad Hlen). reflexivity.
  - intros Hlen. destruct (Hgood Hlen) as (vs' & Hvs' & Hlen').
    exists vs', (<[self := ObjStruct cls (PyTuple vs')]> h).
    rewrite (unpack_run _ _ _ _ _ Hself), Hvs', (record_tuple _ _ _ _ _ Hself). auto.
  - intros o. exists (_PACKER (compiled p o fl 0%nat)).
    assert (Hst : PyStruct.Struct p
                    (String (byte_order_char o) (_BASE_STRUCT_FORMAT cls)) =
                  Ok (_PACKER (compiled p o fl 0%nat)))
      by apply (Struct_fmt_of p o fl Hfl).
    split; [exact Hst|]. split.
    { intros Ha. unfold PyStruct.size. cbn [cls compiled _PACKER PyStruct.segments].
      rewrite Ha. reflexivity. }
    destruct (packer_unpack p o fl 0%nat bs) as [Hbad' Hgood'].
    split.
    + intros Hlen. rewrite (unpack_endian_run _ _ _ _ _ _ _ Hself), Hst.
      cbn [mbind result_bind]. rewrite (Hbad' Hlen). reflexivity.
    + intros Hlen. destruct (Hgood' Hlen) as (vs' & Hvs' & Hlen').
      exists vs', (<[self := ObjStruct cls (PyTuple vs')]> h).
      rewrite (unpack_endian_run _ _ _ _ _ _ _ Hself), Hst.
      cbn [mbind result_bind]. rewrite Hvs', (record_tuple _ _ _ _ _ Hself). auto.
Qed.

(** C4, as the code has it -- for a name that is not a field of the
    compiled layout, [get_field_value] and [set_field_value] raise
    Python's [KeyError] (not the library's [StructException]), and the
    store, hence the values, stay as they were. *)
Theorem unknown_field_KeyError p bases attrs (h0 : heap) cls h1 (h : heap) self vs name v :
  MetaStruct.__new__ p bases attrs h0 = (Ok cls, h1) ->
  record h self = Some (cls, vs) ->
  name ∉ map StructField.name (MetaStruct.field_list (type_new attrs :: bases)) ->
  Struct.get_field_value self name h = (Raise (KeyError name), h) /\
  Struct.set_field_value self name v h = (Raise (KeyError name), h).
Proof.
  intros Hnew Hrec Hname.
  apply new_Ok in Hnew as (o0 & _ & _ & -> & _).
  apply record_inv in Hrec as (s & Hself & _).
  assert (Hget : dict.get name
                   (_NAME_INDEX_MAP
                      (compiled p o0 (MetaStruct.field_list (type_new attrs :: bases))
                         (length h0))) = None).
  { apply index_map_None. split; [exact Hname|reflexivity]. }
  unfold Struct.get_field_value, Struct.set_field_value, Struct.name_index.
  unfold mbind at 1 3, M_bind.
  rewrite (instance_Some _ _ _ _ Hself). unfold mbind, M_bind. rewrite Hget.
  split; reflexivity.
Qed.

(** C5 -- at the failing input: a [Packet] is created, unpacks nine
    bytes, and its field [flag] is set; the assignment raises
    [TypeError], on every platform. *)
Theorem set_after_unpack_raises p :
  fst (Examples.set_after_unpack p []) = Raise TypeError.
Proof. reflexivity. Qed.

(** C6, as the code has it -- the bytes [pack] returns are as many as
    [sizeof()] says, a number fixed by the class alone; it is the sum of
    the declared widths under every byte order but the native aligned
    one, where padding can make it larger. *)
Theorem pack_length_is_sizeof p bases attrs (h0 : heap) cls h1 (h : heap) self vs bs h' :
  MetaStruct.__new__ p bases attrs h0 = (Ok cls, h1) ->
  record h self = Some (cls, vs) ->
  Struct.pack self h = (Ok bs, h') ->
  let fl := MetaStruct.field_list (type_new attrs :: bases) in
  Struct.sizeof self h = (Ok (length bs), h) /\
  length bs = PyStruct.size (_PACKER cls) /\
  (total_width fl <= length bs)%nat /\
  (MetaStruct.getattr_BYTE_ORDER (type_new attrs :: bases) <> Ok BYTE_ORDER_NATIVE ->
   length bs = total_width fl).
Proof.
  intros Hnew Hrec Hpack fl.
  apply new_Ok in Hnew as (o0 & Ho0 & Hfl & -> & _). fold fl in Hfl |- *.
  apply record_inv in Hrec as (s & Hself & Hitems).
  rewrite (pack_run _ _ _ _ _ Hself Hitems) in Hpack. injection Hpack as Hpack _.
  unfold PyStruct.pack in Hpack.
  destruct (_ =? _)%nat in Hpack; [|discriminate].
  apply pack_segments_length in Hpack. fold (PyStruct.size (_PACKER (compiled p o0 fl (length h0)))) in Hpack.
  rewrite (sizeof_run _ _ _ _ Hself), Hpack.
  destruct (packer_size p o0 fl (length h0)) as [Hle Heq].
  split; [reflexivity|]. split; [reflexivity|]. split; [exact Hle|].
  intros Ho. apply Heq. congruence.
Qed.

(** C7, as the code has it -- a [CHAR] descriptor is rejected, with
    [StructException], exactly when its length is omitted or zero; with
    any other length, negative ones included, and for every other type,
    construction succeeds and takes the next value of the counter. *)
Theorem StructField_init_rejects (t : type_code) (d : pyval) (str_len : option Z)
    (count_ : nat) :
  (t = CHAR /\ (str_len = None \/ str_len = Some 0) ->
   StructField.__init__ t d str_len count_ =
   Raise (StructException CHAR_fields_require_strlen)) /\
  (t <> CHAR \/ (exists n, str_len = Some n /\ n <> 0) ->
   exists f,
     StructField.__init__ t d str_len count_ = Ok (f, S count_) /\
     StructField.field_type f = t /\
     StructField.default f = d /\
     StructField.str_len f = str_len /\
     StructField.count f = count_).
Proof.
  unfold StructField.__init__. split.
  - intros [-> [->| ->]]; reflexivity.
  - intros H.
    assert (Hc : type_code_eqb t CHAR && negb (StructField.truthy str_len) = false).
    { destruct H as [Ht|(n & -> & Hn)].
      - destruct t; try reflexivity. contradiction.
      - simpl. apply Z.eqb_neq in Hn. rewrite Hn. apply andb_false_r. }
    rewrite Hc. eexists. split; [reflexivity|]. auto.
Qed.

(** C8 -- constructing a record with keyword arguments: the values start
    as a copy of the defaults; every keyword that names a field puts its
    value at the position of the field; if keywords are left, the
    construction raises [StructException] with all of them, in the order
    given, and otherwise it succeeds. *)
Theorem init_kwargs_checked p bases attrs (h0 : heap) cls h1 (h : heap) kwargs :
  MetaStruct.__new__ p bases attrs h0 = (Ok cls, h1) ->
  h !! _DEFAULT_VALUES cls = h1 !! _DEFAULT_VALUES cls ->
  NoDup (dict.keys kwargs) ->
  let fl := MetaStruct.field_list (type_new attrs :: bases) in
  exists vs h',
    Struct.__init__ cls kwargs h =
    (match unexpected cls kwargs with
     | [] => Ok (S (length h))
     | rest => Raise (StructException (Unexpected_kwargs rest))
     end, h') /\
    record h' (S (length h)) = Some (cls, vs) /\
    length vs = length fl /\
    forall name index,
      dict.get name (_NAME_INDEX_MAP cls) = Some index ->
      vs !! index =
      match dict.get name kwargs with
      | Some v => Some v
      | None => StructField.default <$> fl !! index
      end.
Proof.
  intros Hnew Hd Hkw fl.
  apply new_Ok in Hnew as (o0 & _ & _ & -> & ->). fold fl in Hd |- *.
  cbn [compiled _DEFAULT_VALUES] in Hd. rewrite lookup_snoc in Hd.
  set (cls := compiled p o0 fl (length h0)) in *.
  set (ds := map StructField.default fl) in *.
  pose proof (compiled_index_range p o0 fl (length h0)) as Hrange.
  fold cls ds in Hrange.
  exists (assign (_NAME_INDEX_MAP cls) kwargs ds),
    (h ++ [ObjList (assign (_NAME_INDEX_MAP cls) kwargs ds);
           ObjStruct cls (PyList (length h))]).
  split; [|split; [|split]].
  - rewrite (init_run cls kwargs h ds Hd Hrange).
    rewrite (leftover_filter _ _ Hkw). reflexivity.
  - unfold record.
    replace (h ++ [ObjList (assign (_NAME_INDEX_MAP cls) kwargs ds);
                   ObjStruct cls (PyList (length h))])
      with ((h ++ [ObjList (assign (_NAME_INDEX_MAP cls) kwargs ds)])
              ++ [ObjStruct cls (PyList (length h))])
      by (rewrite <- app_assoc; reflexivity).
    rewrite list_lookup_middle by (rewrite length_app; simpl; lia).
    rewrite lookup_app_l_Some with (x := ObjList (assign (_NAME_INDEX_MAP cls) kwargs ds))
      by apply lookup_snoc.
    reflexivity.
  - rewrite assign_length. apply length_map.
  - intros name index Hget.
    assert (Hin : (name, index) ∈ _NAME_INDEX_MAP cls) by apply dict_get_elem, Hget.
    rewrite (assign_item _ kwargs ds name index).
    + unfold ds. rewrite list_lookup_fmap. reflexivity.
    + apply index_map_NoDup. constructor.
    + apply index_map_values_NoDup.
    + exact Hkw.
    + exact Hin.
    + apply (proj1 (Forall_forall _ _) Hrange _ Hin).
Qed.

(** C9 -- the [Packet] scenario, on every platform: the record with
    [id = 1], [flag = 0], [tag = b"abcd"] packs to the nine bytes
    [01 00 00 00 00 61 62 63 64], and a record that unpacks these bytes
    has these three field values. *)
Theorem packet_scenario_bytes p :
  fst (Examples.packet_scenario p []) =
  Ok (Examples.packet_bytes, [PyInt 1; PyInt 0; PyBytes Examples.b_abcd]).
Proof. reflexivity. Qed.

(** C10 -- two records [a] and [b] of one class, created one after the
    other, and a field of either then set: the defaults list of the
    class is the same object with the same items throughout, neither
    record's list is the defaults list or the other's, creating [b]
    leaves [a] as it was, and setting a field of one leaves the other
    as it was. *)
Theorem instances_independent cls kw1 kw2 (h : heap) a h1 b h2
    name v res h3 name' v' res' h3' :
  Struct.__init__ cls kw1 h = (Ok a, h1) ->
  Struct.__init__ cls kw2 h1 = (Ok b, h2) ->
  Struct.set_field_value a name v h2 = (res, h3) ->
  Struct.set_field_value b name' v' h2 = (res', h3') ->
  let d := _DEFAULT_VALUES cls in
  (exists ds la lb,
      h !! d = Some (ObjList ds) /\
      h2 !! a = Some (ObjStruct cls (PyList la)) /\
      h2 !! b = Some (ObjStruct cls (PyList lb)) /\
      la <> d /\ lb <> d /\ la <> lb) /\
  h1 !! d = h !! d /\ h2 !! d = h !! d /\
  h3 !! d = h !! d /\ h3' !! d = h !! d /\
  record h2 a = record h1 a /\
  record h3 b = record h2 b /\
  record h3' a = record h2 a.
Proof.
  intros Ha Hb Hset Hset' d.
  apply init_Ok_shape in Ha as (-> & ds & vs & Hd & ->).
  apply init_Ok_shape in Hb as (-> & ds' & vs' & Hd' & ->).
  pose proof (lookup_lt_Some _ _ _ Hd) as Hlt. fold d in Hd, Hd', Hlt.
  remember (length h) as la eqn:Hla.
  set (oa := ObjStruct cls (PyList la)) in *.
  set (h1 := h ++ [ObjList vs; oa]) in *.
  assert (Hlen1 : length h1 = S (S la)).
  { unfold h1. rewrite length_app. simpl. lia. }
  remember (length h1) as lb eqn:Hlb.
  set (ob := ObjStruct cls (PyList lb)) in *.
  set (h2 := h1 ++ [ObjList vs'; ob]) in *.
  assert (H1la : h1 !! la = Some (ObjList vs))
    by (unfold h1; apply list_lookup_middle; exact Hla).
  assert (H1a : h1 !! S la = Some oa).
  { unfold h1. change (h ++ [ObjList vs; oa]) with (h ++ [ObjList vs] ++ [oa]).
    rewrite app_assoc. apply list_lookup_middle. rewrite length_app. simpl. lia. }
  assert (H2la : h2 !! la = Some (ObjList vs))
    by (apply lookup_app_l_Some, H1la).
  assert (H2a : h2 !! S la = Some oa) by (apply lookup_app_l_Some, H1a).
  assert (H2lb : h2 !! lb = Some (ObjList vs'))
    by (unfold h2; apply list_lookup_middle; exact Hlb).
  assert (H2b : h2 !! S lb = Some ob).
  { unfold h2. change (h1 ++ [ObjList vs'; ob]) with (h1 ++ [ObjList vs'] ++ [ob]).
    rewrite app_assoc. apply list_lookup_middle. rewrite length_app. simpl. lia. }
  assert (H1d : h1 !! d = h !! d) by (unfold h1; apply lookup_app_l; lia).
  assert (H2d : h2 !! d = h !! d).
  { unfold h2. rewrite lookup_app_l by lia. exact H1d. }
  destruct (set_field_value_frame _ _ _ _ _ _ _ _ _ H2a H2la Hset) as (xs3 & ->).
  destruct (set_field_value_frame _ _ _ _ _ _ _ _ _ H2b H2lb Hset') as (xs3' & ->).
  split; [|repeat split].
  - exists ds, la, lb. repeat split; try assumption; lia.
  - exact H1d.
  - exact H2d.
  - rewrite list_lookup_insert_ne by lia. exact H2d.
  - rewrite list_lookup_insert_ne by lia. exact H2d.
  - unfold record. rewrite H2a, H1a. unfold oa. rewrite H2la, H1la. reflexivity.
  - unfold record. rewrite !list_lookup_insert_ne by lia.
    rewrite H2b. unfold ob. rewrite list_lookup_insert_ne by lia. reflexivity.
  - unfold record. rewrite !list_lookup_insert_ne by lia.
    rewrite H2a. unfold oa. rewrite list_lookup_insert_ne by lia. reflexivity.
Qed.

(** * Further properties of the code *)

(** ** What [pack] accepts *)

Lemma pack_float32_raises native le x e :
  PyStruct.pack_float32 native le x = Raise e -> e = OverflowError.
Proof.
  unfold PyStruct.pack_float32.
  destruct native; [discriminate|].
  destruct (ieee.narrow x); [discriminate|]. intros [= <-]. reflexivity.
Qed.

Lemma pack_scalar_raises native le c v e :
  PyStruct.pack_scalar native le c v = Raise e ->
  e = struct_error \/ e = OverflowError.
Proof.
  unfold PyStruct.pack_scalar.
  destruct c, v; simpl;
    repeat match goal with
      | |- context [match ieee.of_int ?z with _ => _ end] =>
          destruct (ieee.of_int z)
      | |- context [if ?b then _ else _] => destruct b
      end;
    try (intros [= <-]; auto; fail);
    try discriminate;
    intros H; apply pack_float32_raises in H; auto.
Qed.

Lemma pack_bytes_raises n v e :
  PyStruct.pack_bytes n v = Raise e -> e = struct_error.
Proof. destruct v; simpl; try discriminate; intros [= <-]; reflexivity. Qed.

Lemma result_bind_Raise {A B} (m : result A) (f : A -> result B) (e : exn) :
  m ≫= f = Raise e -> m = Raise e \/ exists a, m = Ok a /\ f a = Raise e.
Proof. destruct m; simpl; [eauto|intros [= <-]; auto]. Qed.

Lemma pack_segments_raises native le segs : forall vals e,
  PyStruct.pack_segments native le segs vals = Raise e ->
  e = struct_error \/ e = OverflowError.
Proof.
  induction segs as [|[n|c|n] segs IH]; intros vals e; simpl.
  - discriminate.
  - intros H. apply result_bind_Raise in H as [H|(rest & _ & H)];
      [eapply IH, H|discriminate].
  - destruct vals as [|v vals]; [intros [= <-]; auto|]. intros H.
    apply result_bind_Raise in H as [H|(bs & _ & H)];
      [eapply pack_scalar_raises, H|].
    apply result_bind_Raise in H as [H|(rest & _ & H)];
      [eapply IH, H|discriminate].
  - destruct vals as [|v vals]; [intros [= <-]; auto|]. intros H.
    apply result_bind_Raise in H as [H|(bs & _ & H)];
      [left; eapply pack_bytes_raises, H|].
    apply result_bind_Raise in H as [H|(rest & _ & H)];
      [eapply IH, H|discriminate].
Qed.

Lemma pack_float32_packable native le x :
  (exists bs, PyStruct.pack_float32 native le x = Ok bs) <->
  packable_float32 native x = true.
Proof.
  unfold PyStruct.pack_float32, packable_float32, ieee.narrow.
  destruct native; simpl; [split; eauto|].
  destruct (ieee.overflows x); simpl; split; eauto.
  - intros [bs H]. discriminate.
  - discriminate.
Qed.

(** One value is taken exactly when it is [packable]. *)
Lemma pack_field_packable native le f v :
  (exists bs,
      PyStruct.pack_segments native le (field_segments f) [v] = Ok bs) <->
  packable native f v = true.
Proof.
  unfold field_segments, packable.
  destruct (StructField.field_type f) eqn:Ht;
    cbn [PyStruct.pack_segments PyStruct.pack_scalar PyStruct.pack_bytes];
    destruct v as [|z|x|b|s];
    cbn [PyStruct.int_range mbind result_bind];
    try (split; [intros [bs H]; discriminate|discriminate]);
    try (split; [reflexivity|eauto]; fail).
  all: try (destruct (_ && _); cbn [mbind result_bind];
            (split; [intros [bs H]; (reflexivity || discriminate)
                    |(eauto || discriminate)]); fail).
  - destruct (ieee.of_int z) as [x|]; cbn [mbind result_bind].
    + rewrite <- (pack_float32_packable native le x).
      destruct (PyStruct.pack_float32 native le x); cbn [mbind result_bind];
        split; intros [bs H]; (eauto || discriminate).
    + split; [intros [bs H]; discriminate|discriminate].
  - rewrite <- (pack_float32_packable native le x).
    destruct (PyStruct.pack_float32 native le x); cbn [mbind result_bind];
      split; intros [bs H]; (eauto || discriminate).
  - destruct (ieee.of_int z) as [x|]; cbn [mbind result_bind].
    + split; [reflexivity|eauto].
    + split; [intros [bs H]; discriminate|discriminate].
Qed.

Lemma pack_segments_app native le a : forall b vals,
  PyStruct.pack_segments native le (a ++ b) vals =
  (x ← PyStruct.pack_segments native le a (take (PyStruct.nvalues a) vals);
   y ← PyStruct.pack_segments native le b (drop (PyStruct.nvalues a) vals);
   Ok (x ++ y)).
Proof.
  induction a as [|[n|c|n] a IH]; intros b vals;
    cbn [app PyStruct.pack_segments PyStruct.nvalues].
  - rewrite drop_0. cbn [mbind result_bind].
    destruct (PyStruct.pack_segments native le b vals); reflexivity.
  - rewrite IH.
    destruct (PyStruct.pack_segments native le a _); cbn [mbind result_bind];
      [|reflexivity].
    destruct (PyStruct.pack_segments native le b _); cbn [mbind result_bind];
      [|reflexivity].
    rewrite app_assoc. reflexivity.
  - destruct vals as [|v vals]; [reflexivity|]. cbn [take drop].
    destruct (PyStruct.pack_scalar native le c v); cbn [mbind result_bind];
      [|reflexivity].
    rewrite IH.
    destruct (PyStruct.pack_segments native le a _); cbn [mbind result_bind];
      [|reflexivity].
    destruct (PyStruct.pack_segments native le b _); cbn [mbind result_bind];
      [|reflexivity].
    rewrite app_assoc. reflexivity.
  - destruct vals as [|v vals]; [reflexivity|]. cbn [take drop].
    destruct (PyStruct.pack_bytes n v); cbn [mbind result_bind];
      [|reflexivity].
    rewrite IH.
    destruct (PyStruct.pack_segments native le a _); cbn [mbind result_bind];
      [|reflexivity].
    destruct (PyStruct.pack_segments native le b _); cbn [mbind result_bind];
      [|reflexivity].
    rewrite app_assoc. reflexivity.
Qed.

Lemma field_segments_nvalues f : PyStruct.nvalues (field_segments f) = 1%nat.
Proof. unfold field_segments. destruct (StructField.field_type f); reflexivity. Qed.

(** The layout of the fields [fl] applied to as many values: the bytes
    of each field, after its padding. *)
Lemma layout_pack_cons p aligned native le f fl v vs size :
  PyStruct.pack_segments native le
    (PyStruct.layout p aligned size (map code_of (f :: fl))) (v :: vs) =
  (x ← PyStruct.pack_segments native le (field_segments f) [v];
   y ← PyStruct.pack_segments native le
         (PyStruct.layout p aligned
            (size + field_padding p aligned size f + width f) (map code_of fl)) vs;
   Ok ((if aligned then replicate (field_padding p aligned size f) Byte.x00
        else []) ++ x ++ y)).
Proof.
  rewrite layout_cons.
  assert (Hbody :
    PyStruct.pack_segments native le
      (field_segments f ++
       PyStruct.layout p aligned
         (size + field_padding p aligned size f + width f) (map code_of fl))
      (v :: vs) =
    (x ← PyStruct.pack_segments native le (field_segments f) [v];
     y ← PyStruct.pack_segments native le
           (PyStruct.layout p aligned
              (size + field_padding p aligned size f + width f) (map code_of fl)) vs;
     Ok (x ++ y))).
  { rewrite pack_segments_app, field_segments_nvalues.
    cbn [take drop]. rewrite take_0, drop_0. reflexivity. }
  destruct aligned; cbn [app PyStruct.pack_segments].
  - rewrite Hbody.
    destruct (PyStruct.pack_segments native le (field_segments f) [v]);
      cbn [mbind result_bind]; [|reflexivity].
    destruct (PyStruct.pack_segments native le _ vs);
      cbn [mbind result_bind]; reflexivity.
  - exact Hbody.
Qed.

Lemma layout_pack_Ok p aligned native le fl : forall vs size,
  length vs = length fl ->
  (exists bs,
      PyStruct.pack_segments native le
        (PyStruct.layout p aligned size (map code_of fl)) vs = Ok bs) <->
  Forall2 (fun f v => packable native f v = true) fl vs.
Proof.
  induction fl as [|f fl IH]; intros vs size Hlen.
  - destruct vs; [|discriminate]. split; [constructor|]. intros _. exists []. reflexivity.
  - destruct vs as [|v vs]; [discriminate|]. injection Hlen as Hlen.
    rewrite layout_pack_cons. rewrite Forall2_cons.
    rewrite <- (pack_field_packable native le f v).
    rewrite <- (IH vs (size + field_padding p aligned size f + width f)%nat Hlen).
    destruct (PyStruct.pack_segments native le (field_segments f) [v]);
      cbn [mbind result_bind].
    + destruct (PyStruct.pack_segments native le _ vs); cbn [mbind result_bind].
      * split; eauto.
      * split; [intros [bs H]; discriminate|intros [_ [bs H]]; discriminate].
    + split; [intros [bs H]; discriminate|intros [[bs H] _]; discriminate].
Qed.

(** The packer of a compiled class takes exactly the lists of packable
    values, one per field. *)
Lemma packer_accepts p o fl d vs :
  let native := PyStruct.is_aligned o in
  (Forall2 (fun f v => packable native f v = true) fl vs ->
   exists bs, PyStruct.pack (_PACKER (compiled p o fl d)) vs = Ok bs) /\
  (~ Forall2 (fun f v => packable native f v = true) fl vs ->
   exists e, PyStruct.pack (_PACKER (compiled p o fl d)) vs = Raise e /\
             (e = struct_error \/ e = OverflowError)).
Proof.
  intros native. unfold PyStruct.pack. rewrite packer_nvalues.
  cbn [compiled _PACKER PyStruct.segments PyStruct.native PyStruct.little_endian].
  fold native. split.
  - intros Hvs. rewrite <- (Forall2_length _ _ _ Hvs), Nat.eqb_refl.
    apply (layout_pack_Ok p native native (PyStruct.is_little_endian p o)
             fl vs 0%nat); [|exact Hvs].
    symmetry. apply (Forall2_length _ _ _ Hvs).
  - intros Hvs. destruct (Nat.eqb_spec (length vs) (length fl)) as [Hlen|Hlen].
    + destruct (PyStruct.pack_segments native _ _ vs) as [bs|e] eqn:Hpack.
      * exfalso. apply Hvs.
        apply (layout_pack_Ok p native native (PyStruct.is_little_endian p o)
                 fl vs 0%nat Hlen). eauto.
      * exists e. split; [reflexivity|]. eapply pack_segments_raises, Hpack.
    + exists struct_error. auto.
Qed.

(** X2 -- what [pack] accepts.  For a record of a compiled class, [pack]
    returns bytes exactly when every field holds a value its type takes
    ([packable]); otherwise it raises [struct.error] or [OverflowError].
    Either way the store is left as it was.  [pack_endian] does the same
    under the byte order it is given. *)
Theorem pack_accepts p bases attrs (h0 : heap) cls h1 (h : heap) self vs :
  MetaStruct.__new__ p bases attrs h0 = (Ok cls, h1) ->
  record h self = Some (cls, vs) ->
  let fl := MetaStruct.field_list (type_new attrs :: bases) in
  let ok native := Forall2 (fun f v => packable native f v = true) fl vs in
  (ok (PyStruct.native (_PACKER cls)) ->
   exists bs, Struct.pack self h = (Ok bs, h)) /\
  (~ ok (PyStruct.native (_PACKER cls)) ->
   exists e, Struct.pack self h = (Raise e, h) /\
             (e = struct_error \/ e = OverflowError)) /\
  (forall o,
     (ok (PyStruct.is_aligned o) ->
      exists bs, Struct.pack_endian p self o h = (Ok bs, h)) /\
     (~ ok (PyStruct.is_aligned o) ->
      exists e, Struct.pack_endian p self o h = (Raise e, h) /\
                (e = struct_error \/ e = OverflowError))).
Proof.
  intros Hnew Hrec. cbv zeta.
  apply new_Ok in Hnew as (o0 & _ & Hfl & -> & _).
  set (fl := MetaStruct.field_list (type_new attrs :: bases)) in *.
  apply record_inv in Hrec as (s & Hself & Hitems).
  rewrite (pack_run _ _ _ _ _ Hself Hitems).
  destruct (packer_accepts p o0 fl (length h0) vs) as [Hyes Hno].
  split; [|split].
  - intros Hok. destruct (Hyes Hok) as [bs ->]. eauto.
  - intros Hok. destruct (Hno Hok) as (e & -> & He). eauto.
  - intros o. rewrite (pack_endian_run _ _ _ _ _ _ _ Hself Hitems).
    cbn [compiled _BASE_STRUCT_FORMAT]. rewrite (Struct_fmt_of p o fl Hfl).
    cbn [mbind result_bind].
    destruct (packer_accepts p o fl 0%nat vs) as [Hyes' Hno']. split.
    + intros Hok. destruct (Hyes' Hok) as [bs ->]. eauto.
    + intros Hok. destruct (Hno' Hok) as (e & -> & He). eauto.
Qed.

(** ** What a round trip keeps *)




Lemma unpack_segments_app le a : forall b bs,
  PyStruct.unpack_segments le (a ++ b) bs =
  PyStruct.unpack_segments le a bs
    ++ PyStruct.unpack_segments le b (drop (PyStruct.segments_size a) bs).
Proof.
  unfold PyStruct.segments_size.
  induction a as [|[n|c|n] a IH]; intros b bs;
    cbn [app PyStruct.unpack_segments foldr PyStruct.segment_size].
  - rewrite drop_0. reflexivity.
  - rewrite IH, drop_drop. reflexivity.
  - rewrite IH, drop_drop. reflexivity.
  - rewrite IH, drop_drop. reflexivity.
Qed.

Lemma layout_unpack_cons p aligned le f fl size pad bs rest :
  length pad = field_padding p aligned size f ->
  length bs = width f ->
  PyStruct.unpack_segments le
    (PyStruct.layout p aligned size (map code_of (f :: fl)))
    ((if aligned then pad else []) ++ bs ++ rest) =
  PyStruct.unpack_segments le (field_segments f) (bs ++ rest)
    ++ PyStruct.unpack_segments le
         (PyStruct.layout p aligned
            (size + field_padding p aligned size f + width f) (map code_of fl))
         rest.
Proof.
  intros Hpad Hbs. rewrite layout_cons.
  assert (Hbody : forall tail,
    PyStruct.unpack_segments le (field_segments f ++ tail) (bs ++ rest) =
    PyStruct.unpack_segments le (field_segments f) (bs ++ rest)
      ++ PyStruct.unpack_segments le tail rest).
  { intros tail. rewrite unpack_segments_app, field_segments_size.
    rewrite drop_app_length' by (symmetry; exact Hbs). reflexivity. }
  destruct aligned; cbn [app PyStruct.unpack_segments].
  - rewrite drop_app_length' by (symmetry; exact Hpad). apply Hbody.
  - apply Hbody.
Qed.




(** ** From bytes to values and back *)

Lemma split_combine_ordered (le : bool) (n : nat) (bs : list byte) :
  length bs = n ->
  PyStruct.ordered le (le_split n (le_combine (PyStruct.ordered le bs))) = bs.
Proof.
  intros Hlen. rewrite split_le_combine' by (rewrite length_ordered; exact Hlen).
  apply ordered_involutive.
Qed.

Lemma combine_ordered_bound (le : bool) (n : nat) (bs : list byte) :
  length bs = n ->
  0 <= le_combine (PyStruct.ordered le bs) < 2 ^ (8 * Z.of_nat n).
Proof.
  intros <-. rewrite <- (length_ordered le bs). apply le_combine_bound.
Qed.

Lemma split_signed (n : nat) (m z : Z) :
  2 ^ (Z.of_nat n * 8) = 2 * m -> 0 <= z < 2 * m ->
  le_split n (if z <? m then z else z - 2 * m) = le_split n z.
Proof.
  intros Hm Hz. destruct (Z.ltb_spec z m); [reflexivity|].
  rewrite (le_split_mod (z - 2 * m)), (le_split_mod z), Hm.
  f_equal. replace (z - 2 * m) with (z + (-1) * (2 * m)) by lia.
  apply Z.mod_add. lia.
Qed.

Lemma andb_leb (lo z hi : Z) :
  lo <= z <= hi -> (lo <=? z) && (z <=? hi) = true.
Proof. intros H. apply andb_true_intro. split; apply Z.leb_le; lia. Qed.

Lemma pack_int (le : bool) (k : nat) (lo hi m : Z) (signed : bool)
    (bs : list byte) :
  length bs = k -> 2 ^ (Z.of_nat k * 8) = 2 * m -> 0 < m ->
  (if signed then lo = - m /\ hi = m - 1 else lo = 0 /\ hi = 2 * m - 1) ->
  let n := le_combine (PyStruct.ordered le bs) in
  let z := if signed then (if n <? m then n else n - 2 * m) else n in
  (if (lo <=? z) && (z <=? hi)
   then Ok (PyStruct.ordered le (le_split k z))
   else Raise struct_error) = Ok bs.
Proof.
  intros Hlen Hm Hpos Hrange n z.
  pose proof (combine_ordered_bound le k bs Hlen) as Hn. fold n in Hn.
  replace (8 * Z.of_nat k) with (Z.of_nat k * 8) in Hn by lia.
  rewrite Hm in Hn.
  assert (Hz : le_split k z = le_split k n).
  { unfold z. destruct signed; [|reflexivity].
    apply split_signed; assumption. }
  rewrite andb_leb.
  - rewrite Hz. unfold n. rewrite split_combine_ordered by exact Hlen.
    reflexivity.
  - unfold z. destruct signed; destruct Hrange as [-> ->];
      [destruct (Z.ltb_spec n m)|]; lia.
Qed.

(** The bytes of a scalar other than a single-precision float are those
    of the value they unpack to. *)
Lemma unpack_pack_scalar native le c bs :
  c <> CHAR -> c <> FLOAT32_T ->
  length bs = PyStruct.itemsize c ->
  PyStruct.pack_scalar native le c (PyStruct.unpack_scalar le c bs) = Ok bs.
Proof.
  intros Hc Hf Hlen.
  destruct c; try contradiction;
    unfold PyStruct.pack_scalar, PyStruct.unpack_scalar;
    cbn [PyStruct.int_range].
  - apply (pack_int le 1 _ _ (2 ^ 7) true bs Hlen); [reflexivity|lia|split; reflexivity].
  - apply (pack_int le 1 _ _ (2 ^ 7) false bs Hlen); [reflexivity|lia|split; reflexivity].
  - apply (pack_int le 2 _ _ (2 ^ 15) true bs Hlen); [reflexivity|lia|split; reflexivity].
  - apply (pack_int le 2 _ _ (2 ^ 15) false bs Hlen); [reflexivity|lia|split; reflexivity].
  - apply (pack_int le 4 _ _ (2 ^ 31) true bs Hlen); [reflexivity|lia|split; reflexivity].
  - apply (pack_int le 4 _ _ (2 ^ 31) false bs Hlen); [reflexivity|lia|split; reflexivity].
  - apply (pack_int le 8 _ _ (2 ^ 63) true bs Hlen); [reflexivity|lia|split; reflexivity].
  - apply (pack_int le 8 _ _ (2 ^ 63) false bs Hlen); [reflexivity|lia|split; reflexivity].
  - rewrite (split_combine_ordered le 8 bs Hlen). reflexivity.
Qed.

(** One field: what its bytes unpack to packs into the same bytes. *)
Lemma unpack_pack_field native le f bs rest :
  StructField.field_type f <> FLOAT32_T ->
  length bs = width f ->
  exists v,
    PyStruct.unpack_segments le (field_segments f) (bs ++ rest) = [v] /\
    PyStruct.pack_segments native le (field_segments f) [v] = Ok bs.
Proof.
  intros Hf Hlen. unfold field_segments, width in *.
  destruct (StructField.field_type f) eqn:Ht; try contradiction;
    cbn [PyStruct.unpack_segments PyStruct.pack_segments];
    rewrite take_app_length' by (symmetry; exact Hlen);
    eexists; (split; [reflexivity|]);
    try (rewrite unpack_pack_scalar by (discriminate || exact Hlen);
         cbn [mbind result_bind]; rewrite app_nil_r; reflexivity).
  cbn [PyStruct.pack_bytes mbind result_bind].
  rewrite app_nil_r, <- Hlen, take_app_length. reflexivity.
Qed.

(** Without alignment, and without single-precision fields, a layout
    packs what it unpacked into the bytes it unpacked. *)
Lemma layout_unpack_pack p native le fl : forall bs size,
  Forall (fun f => StructField.field_type f <> FLOAT32_T) fl ->
  length bs = total_width fl ->
  PyStruct.pack_segments native le
    (PyStruct.layout p false size (map code_of fl))
    (PyStruct.unpack_segments le
       (PyStruct.layout p false size (map code_of fl)) bs) = Ok bs.
Proof.
  induction fl as [|f fl IH]; intros bs size Hfl Hlen.
  - destruct bs; [reflexivity|discriminate].
  - apply Forall_cons in Hfl as [Hf Hfl]. cbn [total_width foldr] in Hlen.
    fold (total_width fl) in Hlen.
    rewrite <- (take_drop (width f) bs).
    assert (Hhead : length (take (width f) bs) = width f)
      by (rewrite length_take; lia).
    assert (Htail : length (drop (width f) bs) = total_width fl)
      by (rewrite length_drop; lia).
    destruct (unpack_pack_field native le f _ (drop (width f) bs) Hf Hhead)
      as (v & Hv & Hpack).
    pose proof (layout_unpack_cons p false le f fl size [] _
                  (drop (width f) bs) eq_refl Hhead) as Hu.
    cbn [app] in Hu. rewrite Hu, Hv. cbn [app].
    rewrite layout_pack_cons, Hpack. cbn [mbind result_bind].
    rewrite (IH _ _ Hfl Htail). reflexivity.
Qed.

Lemma packer_unpack_pack p o fl d bs :
  o <> BYTE_ORDER_NATIVE ->
  Forall (fun f => StructField.field_type f <> FLOAT32_T) fl ->
  length bs = total_width fl ->
  exists vs,
    PyStruct.unpack (_PACKER (compiled p o fl d)) bs = Ok vs /\
    PyStruct.pack (_PACKER (compiled p o fl d)) vs = Ok bs.
Proof.
  intros Ho Hfl Hlen.
  destruct (packer_size p o fl d) as [_ Hsize]. specialize (Hsize Ho).
  unfold PyStruct.unpack, PyStruct.pack. rewrite Hsize, Hlen, Nat.eqb_refl.
  eexists. split; [reflexivity|].
  rewrite unpack_segments_length, Nat.eqb_refl.
  cbn [compiled _PACKER PyStruct.segments PyStruct.native PyStruct.little_endian].
  assert (Ha : PyStruct.is_aligned o = false)
    by (destruct o; try reflexivity; contradiction).
  rewrite Ha. apply layout_unpack_pack; assumption.
Qed.

(** The packer depends on the byte order through its alignment and its
    endianness only. *)
Lemma packer_same p o o' fl d d' :
  PyStruct.is_aligned o = PyStruct.is_aligned o' ->
  PyStruct.is_little_endian p o = PyStruct.is_little_endian p o' ->
  PyStruct.pack (_PACKER (compiled p o fl d)) =
    PyStruct.pack (_PACKER (compiled p o' fl d')) /\
  PyStruct.unpack (_PACKER (compiled p o fl d)) =
    PyStruct.unpack (_PACKER (compiled p o' fl d')).
Proof.
  intros Ha Hle. unfold PyStruct.pack, PyStruct.unpack, PyStruct.size.
  cbn [compiled _PACKER PyStruct.segments PyStruct.native PyStruct.little_endian].
  rewrite Ha, Hle. split; reflexivity.
Qed.

(** X4 -- from bytes to values and back.  For a record of a compiled
    class that has no [FLOAT32_T] field and whose byte order is not the
    native aligned one, [unpack] of any buffer of the size of the record
    followed by [pack] returns the buffer; likewise [unpack_endian] and
    [pack_endian] under any byte order but the native aligned one. *)
Theorem unpack_pack_roundtrip p bases attrs (h0 : heap) cls h1 (h : heap) self vs bs :
  MetaStruct.__new__ p bases attrs h0 = (Ok cls, h1) ->
  record h self = Some (cls, vs) ->
  let fl := MetaStruct.field_list (type_new attrs :: bases) in
  Forall (fun f => StructField.field_type f <> FLOAT32_T) fl ->
  length bs = total_width fl ->
  (MetaStruct.getattr_BYTE_ORDER (type_new attrs :: bases) <> Ok BYTE_ORDER_NATIVE ->
   exists h',
     Struct.unpack self bs h = (Ok tt, h') /\
     Struct.pack self h' = (Ok bs, h')) /\
  (forall o, o <> BYTE_ORDER_NATIVE ->
   exists h',
     Struct.unpack_endian p self bs o h = (Ok tt, h') /\
     Struct.pack_endian p self o h' = (Ok bs, h')).
Proof.
  intros Hnew Hrec. cbv zeta.
  apply new_Ok in Hnew as (o0 & Ho0 & Hfl & -> & _).
  set (fl := MetaStruct.field_list (type_new attrs :: bases)) in *.
  set (cls := compiled p o0 fl (length h0)) in *.
  intros Hf Hlen.
  apply record_inv in Hrec as (s & Hself & _).
  assert (Hself' : forall vs',
    (<[self := ObjStruct cls (PyTuple vs')]> h) !! self =
    Some (ObjStruct cls (PyTuple vs'))).
  { intros vs'. apply list_lookup_insert_eq. eapply lookup_lt_Some, Hself. }
  split.
  - intros Ho. assert (Ho' : o0 <> BYTE_ORDER_NATIVE) by congruence.
    destruct (packer_unpack_pack p o0 fl (length h0) bs Ho' Hf Hlen)
      as (vs' & Hunpack & Hpack).
    exists (<[self := ObjStruct cls (PyTuple vs')]> h).
    rewrite (unpack_run _ _ _ _ _ Hself). fold cls in Hunpack, Hpack.
    rewrite Hunpack. split; [reflexivity|].
    rewrite (pack_run _ _ _ _ vs' (Hself' vs') eq_refl), Hpack. reflexivity.
  - intros o Ho.
    destruct (packer_unpack_pack p o fl 0%nat bs Ho Hf Hlen)
      as (vs' & Hunpack & Hpack).
    exists (<[self := ObjStruct cls (PyTuple vs')]> h).
    rewrite (unpack_endian_run _ _ _ _ _ _ _ Hself).
    cbn [cls compiled _BASE_STRUCT_FORMAT]. rewrite (Struct_fmt_of p o fl Hfl).
    cbn [mbind result_bind]. rewrite Hunpack. split; [reflexivity|].
    rewrite (pack_endian_run _ _ _ _ _ vs' _ (Hself' vs') eq_refl).
    cbn [cls compiled _BASE_STRUCT_FORMAT]. rewrite (Struct_fmt_of p o fl Hfl).
    cbn [mbind result_bind]. rewrite Hpack. reflexivity.
Qed.

(** X5 -- the byte order argument.  For a record of a compiled class,
    [pack_endian] and [unpack_endian] under the byte order of the class
    are [pack] and [unpack]; the network order is the big-endian one;
    and the native order with standard sizes is the little-endian or the
    big-endian one, as the platform is. *)
Theorem pack_endian_own_order p bases attrs (h0 : heap) cls h1 (h : heap) self vs o bs :
  MetaStruct.__new__ p bases attrs h0 = (Ok cls, h1) ->
  record h self = Some (cls, vs) ->
  MetaStruct.getattr_BYTE_ORDER (type_new attrs :: bases) = Ok o ->
  let fixed :=
    if native_little_endian p then BYTE_ORDER_LITTLE_ENDIAN
    else BYTE_ORDER_BIG_ENDIAN in
  Struct.pack_endian p self o h = Struct.pack self h /\
  Struct.unpack_endian p self bs o h = Struct.unpack self bs h /\
  Struct.pack_endian p self BYTE_ORDER_NETWORK h =
    Struct.pack_endian p self BYTE_ORDER_BIG_ENDIAN h /\
  Struct.unpack_endian p self bs BYTE_ORDER_NETWORK h =
    Struct.unpack_endian p self bs BYTE_ORDER_BIG_ENDIAN h /\
  Struct.pack_endian p self BYTE_ORDER_NATIVE_STD h =
    Struct.pack_endian p self fixed h /\
  Struct.unpack_endian p self bs BYTE_ORDER_NATIVE_STD h =
    Struct.unpack_endian p self bs fixed h.
Proof.
  intros Hnew Hrec Ho. cbv zeta.
  apply new_Ok in Hnew as (o0 & Ho0 & Hfl & -> & _).
  set (fl := MetaStruct.field_list (type_new attrs :: bases)) in *.
  assert (o0 = o) as -> by congruence.
  apply record_inv in Hrec as (s & Hself & Hitems).
  assert (Hpack : forall o', Struct.pack_endian p self o' h =
            (PyStruct.pack (_PACKER (compiled p o' fl 0%nat)) vs, h)).
  { intros o'. rewrite (pack_endian_run _ _ _ _ _ _ _ Hself Hitems).
    cbn [compiled _BASE_STRUCT_FORMAT]. rewrite (Struct_fmt_of p o' fl Hfl).
    reflexivity. }
  assert (Hunpack : forall o', Struct.unpack_endian p self bs o' h =
            match PyStruct.unpack (_PACKER (compiled p o' fl 0%nat)) bs with
            | Ok vs' =>
                (Ok tt, <[self := ObjStruct (compiled p o fl (length h0))
                                    (PyTuple vs')]> h)
            | Raise e => (Raise e, h)
            end).
  { intros o'. rewrite (unpack_endian_run _ _ _ _ _ _ _ Hself).
    cbn [compiled _BASE_STRUCT_FORMAT]. rewrite (Struct_fmt_of p o' fl Hfl).
    reflexivity. }
  rewrite !Hpack, !Hunpack.
  rewrite (pack_run _ _ _ _ _ Hself Hitems), (unpack_run _ _ _ _ _ Hself).
  destruct (packer_same p BYTE_ORDER_NETWORK BYTE_ORDER_BIG_ENDIAN fl 0%nat 0%nat
              eq_refl eq_refl) as [-> ->].
  assert (Hstd : PyStruct.is_little_endian p BYTE_ORDER_NATIVE_STD =
                 PyStruct.is_little_endian p
                   (if native_little_endian p then BYTE_ORDER_LITTLE_ENDIAN
                    else BYTE_ORDER_BIG_ENDIAN))
    by (simpl; destruct (native_little_endian p); reflexivity).
  assert (Hstd' : PyStruct.is_aligned BYTE_ORDER_NATIVE_STD =
                  PyStruct.is_aligned
                    (if native_little_endian p then BYTE_ORDER_LITTLE_ENDIAN
                     else BYTE_ORDER_BIG_ENDIAN))
    by (destruct (native_little_endian p); reflexivity).
  destruct (packer_same p BYTE_ORDER_NATIVE_STD _ fl 0%nat 0%nat Hstd' Hstd)
    as [-> ->].
  repeat split; reflexivity.
Qed.

(** ** Methods that only read *)

Lemma bind_reads {A B} (m : M A) (f : A -> M B) (h : heap) :
  (m h).2 = h -> (forall a, (f a h).2 = h) -> ((m ≫= f) h).2 = h.
Proof.
  unfold mbind, M_bind. destruct (m h) as [[a|e] h']; simpl; intros ->; auto.
Qed.

Lemma load_reads l (h : heap) : (load l h).2 = h.
Proof. unfold load. destruct (h !! l); reflexivity. Qed.

Lemma instance_reads self (h : heap) : (instance self h).2 = h.
Proof.
  unfold instance. apply bind_reads; [apply load_reads|].
  intros [xs|cls s]; reflexivity.
Qed.

Lemma seq_items_reads s (h : heap) : (seq_items s h).2 = h.
Proof.
  destruct s as [l|xs]; [|reflexivity]. unfold seq_items, list_items.
  apply bind_reads; [apply load_reads|]. intros [xs|cls s]; reflexivity.
Qed.

Lemma lift_reads {A} (r : result A) (h : heap) : (lift r h).2 = h.
Proof. reflexivity. Qed.

Lemma get_field_value_reads self name (h : heap) :
  (Struct.get_field_value self name h).2 = h.
Proof.
  unfold Struct.get_field_value. apply bind_reads; [apply instance_reads|].
  intros [cls s]. apply bind_reads.
  - unfold Struct.name_index. destruct (dict.get name _); reflexivity.
  - intros index. unfold seq_getitem. apply bind_reads; [apply seq_items_reads|].
    intros xs. destruct (xs !! index); reflexivity.
Qed.

Lemma pack_reads self (h : heap) : (Struct.pack self h).2 = h.
Proof.
  unfold Struct.pack. apply bind_reads; [apply instance_reads|].
  intros [cls s]. apply bind_reads; [apply seq_items_reads|].
  intros vals. apply lift_reads.
Qed.

Lemma pack_endian_reads p self o (h : heap) :
  (Struct.pack_endian p self o h).2 = h.
Proof.
  unfold Struct.pack_endian. apply bind_reads; [apply instance_reads|].
  intros [cls s]. apply bind_reads; [apply seq_items_reads|].
  intros vals. apply lift_reads.
Qed.

Lemma sizeof_reads self (h : heap) : (Struct.sizeof self h).2 = h.
Proof.
  unfold Struct.sizeof, Struct.__len__. apply bind_reads; [apply instance_reads|].
  intros [cls s]. reflexivity.
Qed.

(** ** Reading a field *)

Lemma get_field_value_run (h : heap) self cls s vs name index :
  h !! self = Some (ObjStruct cls s) ->
  seq_items s h = (Ok vs, h) ->
  dict.get name (_NAME_INDEX_MAP cls) = Some index ->
  Struct.get_field_value self name h =
  (match vs !! index with Some v => Ok v | None => Raise IndexError end, h).
Proof.
  intros Hself Hitems Hget. unfold Struct.get_field_value, Struct.name_index.
  rewrite (bind_Ok _ _ _ _ _ (instance_Some _ _ _ _ Hself)). rewrite Hget.
  erewrite bind_Ok by reflexivity. unfold seq_getitem.
  rewrite (bind_Ok _ _ _ _ _ Hitems). destruct (vs !! index); reflexivity.
Qed.

(** Every field name is in the map of a compiled class, at a position
    of the field list. *)
Lemma compiled_index p o fl d f :
  f ∈ fl ->
  exists index,
    dict.get (StructField.name f) (_NAME_INDEX_MAP (compiled p o fl d)) = Some index /\
    (index < length fl)%nat.
Proof.
  intros Hf. cbn [compiled _NAME_INDEX_MAP].
  destruct (dict.get (StructField.name f) (index_map 0 fl [])) as [index|] eqn:Hget.
  - exists index. split; [reflexivity|].
    apply index_map_range in Hget as (g & Hg & _). eapply lookup_lt_Some, Hg.
  - apply index_map_None in Hget as [Hname _]. exfalso. apply Hname.
    apply list_elem_of_fmap. eauto.
Qed.

(** ** The state the methods keep *)

Lemma intact_items cls n ds self (h : heap) :
  intact cls n ds self h ->
  exists s vs,
    h !! self = Some (ObjStruct cls s) /\
    seq_items s h = (Ok vs, h) /\ length vs = n.
Proof.
  intros [_ [(l & xs & Hself & Hl & Hlen & _)|(xs & Hself & Hlen)]].
  - exists (PyList l), xs. split; [exact Hself|]. split; [|exact Hlen].
    apply list_items_Some, Hl.
  - exists (PyTuple xs), xs. auto.
Qed.

Lemma intact_record cls n ds self (h : heap) :
  intact cls n ds self h ->
  exists vs, record h self = Some (cls, vs) /\ length vs = n.
Proof.
  intros [_ [(l & xs & Hself & Hl & Hlen & _)|(xs & Hself & Hlen)]];
    exists xs; unfold record; rewrite Hself, ?Hl; auto.
Qed.

Lemma intact_tuple cls n ds self (h : heap) s vs :
  intact cls n ds self h ->
  h !! self = Some (ObjStruct cls s) ->
  length vs = n ->
  intact cls n ds self (<[self := ObjStruct cls (PyTuple vs)]> h).
Proof.
  intros [Hd _] Hself Hlen. split.
  - rewrite list_lookup_insert_ne by (intros Heq; congruence). exact Hd.
  - right. exists vs. split; [|exact Hlen].
    apply list_lookup_insert_eq. eapply lookup_lt_Some, Hself.
Qed.

Lemma set_field_value_intact cls n ds self name v (h : heap) :
  intact cls n ds self h ->
  intact cls n ds self (Struct.set_field_value self name v h).2.
Proof.
  intros Hin.
  destruct Hin as [Hd [(l & xs & Hself & Hl & Hlen & Hne)|(xs & Hself & Hlen)]].
  - unfold Struct.set_field_value, Struct.name_index.
    rewrite (bind_Ok _ _ _ _ _ (instance_Some _ _ _ _ Hself)).
    destruct (dict.get name (_NAME_INDEX_MAP cls)) as [index|].
    + erewrite bind_Ok by reflexivity. cbn [seq_setitem].
      rewrite (list_setitem_run _ _ _ _ _ Hl).
      destruct (index <? length xs)%nat; cbn [snd];
        [|split; [exact Hd|left; eauto 10]].
      split.
      * rewrite list_lookup_insert_ne by exact Hne. exact Hd.
      * left. exists l, (<[index := v]> xs).
        rewrite list_lookup_insert_ne by (intros Heq; congruence).
        rewrite list_lookup_insert_eq by (eapply lookup_lt_Some, Hl).
        rewrite length_insert. auto.
    + erewrite bind_Raise by reflexivity. split; [exact Hd|left; eauto 10].
  - unfold Struct.set_field_value, Struct.name_index.
    rewrite (bind_Ok _ _ _ _ _ (instance_Some _ _ _ _ Hself)).
    destruct (dict.get name (_NAME_INDEX_MAP cls)) as [index|].
    + erewrite bind_Ok by reflexivity. split; [exact Hd|right; eauto].
    + erewrite bind_Raise by reflexivity. split; [exact Hd|right; eauto].
Qed.

Lemma unpack_intact p o fl d ds self bs (h : heap) :
  let cls := compiled p o fl d in
  intact cls (length fl) ds self h ->
  intact cls (length fl) ds self (Struct.unpack self bs h).2.
Proof.
  intros cls Hin. destruct (intact_items _ _ _ _ _ Hin) as (s & vs & Hself & _ & _).
  rewrite (unpack_run _ _ _ _ _ Hself).
  destruct (PyStruct.unpack (_PACKER cls) bs) as [vs'|e] eqn:Hunpack; [|exact Hin].
  cbn [snd]. apply (intact_tuple _ _ _ _ _ s); [exact Hin|exact Hself|].
  unfold PyStruct.unpack in Hunpack.
  destruct (_ =? _)%nat in Hunpack; [|discriminate]. injection Hunpack as <-.
  rewrite unpack_segments_length. apply (packer_nvalues p o fl d).
Qed.

Lemma unpack_endian_intact p o fl d ds self bs o' (h : heap) :
  let cls := compiled p o fl d in
  Forall countable fl ->
  intact cls (length fl) ds self h ->
  intact cls (length fl) ds self (Struct.unpack_endian p self bs o' h).2.
Proof.
  intros cls Hfl Hin.
  destruct (intact_items _ _ _ _ _ Hin) as (s & vs & Hself & _ & _).
  rewrite (unpack_endian_run _ _ _ _ _ _ _ Hself).
  cbn [cls compiled _BASE_STRUCT_FORMAT]. rewrite (Struct_fmt_of p o' fl Hfl).
  cbn [mbind result_bind].
  destruct (PyStruct.unpack (_PACKER (compiled p o' fl 0%nat)) bs) as [vs'|e] eqn:Hunpack;
    [|exact Hin].
  cbn [snd]. apply (intact_tuple _ _ _ _ _ s); [exact Hin|exact Hself|].
  unfold PyStruct.unpack in Hunpack.
  destruct (_ =? _)%nat in Hunpack; [|discriminate]. injection Hunpack as <-.
  rewrite unpack_segments_length. apply (packer_nvalues p o' fl 0%nat).
Qed.

Lemma run_calls_intact p o fl d ds self cs : forall (h : heap),
  let cls := compiled p o fl d in
  Forall countable fl ->
  intact cls (length fl) ds self h ->
  intact cls (length fl) ds self (run_calls p self cs h).
Proof.
  induction cs as [|c cs IH]; intros h cls Hfl Hin; [exact Hin|].
  unfold run_calls. cbn [fold_left]. apply IH; [exact Hfl|].
  destruct c; cbn [run_call].
  - rewrite get_field_value_reads. exact Hin.
  - apply set_field_value_intact, Hin.
  - rewrite pack_reads. exact Hin.
  - rewrite pack_endian_reads. exact Hin.
  - apply unpack_intact, Hin.
  - apply unpack_endian_intact; assumption.
  - rewrite sizeof_reads. exact Hin.
Qed.

(** X6 -- what the methods keep.  A record is constructed from a
    compiled class, then its methods are called any number of times in
    any order with any arguments, the caller going on after a call that
    raised.  The record then still has one value per field of the
    class, the defaults list of the class holds what it held,
    [sizeof()] is the size of the class, and [get_field_value] returns
    a value for the name of every field. *)
Theorem methods_keep_record p bases attrs (h0 : heap) cls h1 (h : heap) kwargs self h2 cs :
  MetaStruct.__new__ p bases attrs h0 = (Ok cls, h1) ->
  h !! _DEFAULT_VALUES cls = h1 !! _DEFAULT_VALUES cls ->
  Struct.__init__ cls kwargs h = (Ok self, h2) ->
  let fl := MetaStruct.field_list (type_new attrs :: bases) in
  let h3 := run_calls p self cs h2 in
  (exists vs, record h3 self = Some (cls, vs) /\ length vs = length fl) /\
  h3 !! _DEFAULT_VALUES cls = h !! _DEFAULT_VALUES cls /\
  Struct.sizeof self h3 = (Ok (PyStruct.size (_PACKER cls)), h3) /\
  (forall f, f ∈ fl ->
     exists v, Struct.get_field_value self (StructField.name f) h3 = (Ok v, h3)).
Proof.
  intros Hnew Hd Hinit. cbv zeta.
  apply new_Ok in Hnew as (o0 & _ & Hfl & -> & ->).
  set (fl := MetaStruct.field_list (type_new attrs :: bases)) in *.
  cbn [compiled _DEFAULT_VALUES] in Hd. rewrite lookup_snoc in Hd.
  set (cls := compiled p o0 fl (length h0)) in *.
  set (ds := map StructField.default fl) in *.
  pose proof (compiled_index_range p o0 fl (length h0)) as Hrange.
  fold cls ds in Hrange.
  rewrite (init_run cls kwargs h ds Hd Hrange) in Hinit.
  injection Hinit as Hself <-.
  assert (self = S (length h)) as ->.
  { destruct (leftover _ _); [injection Hself as <-; reflexivity|discriminate]. }
  clear Hself.
  set (xs := assign (_NAME_INDEX_MAP cls) kwargs ds).
  assert (Hin : intact cls (length fl) ds (S (length h))
                  (h ++ [ObjList xs; ObjStruct cls (PyList (length h))])).
  { pose proof (lookup_lt_Some _ _ _ Hd) as Hlt. split.
    - rewrite lookup_app_l by exact Hlt. exact Hd.
    - left. exists (length h), xs. split; [|split; [|split]].
      + change (h ++ [ObjList xs; ObjStruct cls (PyList (length h))])
          with (h ++ [ObjList xs] ++ [ObjStruct cls (PyList (length h))]).
        rewrite app_assoc. apply list_lookup_middle.
        rewrite length_app. simpl. lia.
      + apply list_lookup_middle. reflexivity.
      + unfold xs, ds. rewrite assign_length, length_map. reflexivity.
      + cbn [cls compiled _DEFAULT_VALUES] in Hlt |- *. lia. }
  apply (run_calls_intact p o0 fl (length h0) ds _ cs) in Hin; [|exact Hfl].
  fold cls in Hin.
  set (h3 := run_calls p (S (length h)) cs _) in *.
  split; [apply (intact_record _ _ _ _ _ Hin)|]. split; [|split].
  - destruct Hin as [-> _]. symmetry. exact Hd.
  - destruct (intact_items _ _ _ _ _ Hin) as (s & vs & Hself & _ & _).
    apply (sizeof_run _ _ _ _ Hself).
  - intros f Hf.
    destruct (compiled_index p o0 fl (length h0) f Hf) as (index & Hget & Hlt).
    destruct (intact_items _ _ _ _ _ Hin) as (s & vs & Hself & Hitems & Hlen).
    rewrite (get_field_value_run _ _ _ _ _ _ _ Hself Hitems Hget).
    destruct (vs !! index) as [v|] eqn:Hv; [eauto|].
    apply lookup_ge_None in Hv. lia.
Qed.

(** ** The size of a record with fields *)

(** A descriptor that [StructField.__init__] made and whose length is a
    repeat count is at least one byte wide. *)
Lemma constructed_width (f : StructField.t) :
  constructed f -> countable f -> (1 <= width f)%nat.
Proof.
  unfold constructed, countable, StructField.__init__, width.
  intros Hmade Hcount.
  destruct (StructField.field_type f); simpl; try lia.
  destruct (Hcount eq_refl) as (n & Hn & Hpos). rewrite Hn in *.
  simpl in Hmade |- *.
  destruct (Z.eqb_spec n 0) as [Heq|Hne]; [discriminate|]. lia.
Qed.

Lemma total_width_elem (fl : list StructField.t) (f : StructField.t) :
  f ∈ fl -> (width f <= total_width fl)%nat.
Proof.
  induction fl as [|g fl IH]; intros Hf; [inversion Hf|].
  cbn [total_width foldr]. fold (total_width fl).
  apply elem_of_cons in Hf as [->|Hf]; [lia|]. specialize (IH Hf). lia.
Qed.

Lemma compiled_size_pos p o fl d f :
  f ∈ fl -> constructed f -> countable f ->
  (0 < PyStruct.size (_PACKER (compiled p o fl d)))%nat.
Proof.
  intros Hf Hmade Hcount.
  pose proof (constructed_width f Hmade Hcount).
  pose proof (total_width_elem fl f Hf).
  destruct (packer_size p o fl d) as [Hle _]. lia.
Qed.

Lemma descriptor_get_run (h : heap) self cls s f :
  h !! self = Some (ObjStruct cls s) ->
  (0 < PyStruct.size (_PACKER cls))%nat ->
  Descriptor.__get__ f (Some self) h =
  (v ← Struct.get_field_value self (StructField.name f); mret (inr v)) h.
Proof.
  intros Hself Hsize. unfold Descriptor.__get__, Struct.__len__.
  erewrite bind_Ok; cycle 1.
  { rewrite (bind_Ok _ _ _ _ _ (instance_Some _ _ _ _ Hself)). reflexivity. }
  destruct (Nat.eqb_spec (PyStruct.size (_PACKER cls)) 0); [lia|reflexivity].
Qed.

(** ** Formats that [struct] rejects *)

Lemma prepare_raises s : forall num e,
  PyStruct.prepare s num = Raise e -> e = struct_error.
Proof.
  induction s as [|c s IH]; intros num e; cbn [PyStruct.prepare].
  - destruct num; [intros [= <-]; reflexivity|discriminate].
  - destruct (PyStruct.is_digit c); [apply IH|].
    destruct (_ && _); [apply IH|].
    destruct (PyStruct.getentry c); [|intros [= <-]; reflexivity].
    destruct (PyStruct.prepare s None) eqn:Hs; cbn [mbind result_bind];
      [discriminate|].
    intros [= <-]. eapply IH, Hs.
Qed.

Lemma Struct_raises p fmt e :
  PyStruct.Struct p fmt = Raise e -> e = struct_error.
Proof.
  unfold PyStruct.Struct. destruct (PyStruct.whichtable fmt) as [o codes].
  destruct (PyStruct.prepare codes None) eqn:Hs; cbn [mbind result_bind];
    [discriminate|].
  intros [= <-]. eapply prepare_raises, Hs.
Qed.

(** X7 -- reading a field through its descriptor.  [__get__] tests
    [not instance], and a record is false when its [__len__()] is zero.
    For a compiled class whose descriptors [StructField.__init__] made,
    every field is at least one byte wide, so a record with fields is
    never false: the attribute of a record is the value of the field,
    the one [get_field_value] returns, and only the attribute of the
    class is the descriptor itself. *)
Theorem descriptor_get p raw attrs (h0 : heap) cls h1 (h : heap) self vs i f v :
  MetaStruct.__new__ p (map type_new raw) attrs h0 = (Ok cls, h1) ->
  record h self = Some (cls, vs) ->
  let fl := MetaStruct.field_list (type_new attrs :: map type_new raw) in
  Forall constructed fl ->
  fl !! i = Some f ->
  vs !! i = Some v ->
  Struct.sizeof self h <> (Ok 0%nat, h) /\
  Descriptor.__get__ f (Some self) h = (Ok (inr v), h) /\
  Struct.get_field_value self (StructField.name f) h = (Ok v, h) /\
  Descriptor.__get__ f None h = (Ok (inl f), h).
Proof.
  intros Hnew Hrec. cbv zeta.
  apply new_Ok in Hnew as (o0 & _ & Hfl & -> & _).
  set (fl := MetaStruct.field_list (type_new attrs :: map type_new raw)) in *.
  set (cls := compiled p o0 fl (length h0)) in *.
  intros Hmade Hi Hv.
  apply record_inv in Hrec as (s & Hself & Hitems).
  assert (Hf : f ∈ fl) by (eapply list_elem_of_lookup_2, Hi).
  assert (Hsize : (0 < PyStruct.size (_PACKER cls))%nat).
  { apply (compiled_size_pos p o0 fl (length h0) f Hf).
    - apply (proj1 (Forall_forall _ _) Hmade _ Hf).
    - apply (proj1 (Forall_forall _ _) Hfl _ Hf). }
  assert (Hnames : NoDup (map StructField.name fl))
    by apply (field_list_names_NoDup (attrs :: raw)).
  assert (Hget : Struct.get_field_value self (StructField.name f) h = (Ok v, h)).
  { rewrite (get_field_value_run _ _ _ _ vs _ i Hself Hitems).
    - rewrite Hv. reflexivity.
    - apply (index_map_lookup fl 0 [] i f Hnames Hi). }
  split; [|split; [|split]].
  - rewrite (sizeof_run _ _ _ _ Hself). intros Heq.
    assert (Hz : PyStruct.size (_PACKER cls) = 0%nat) by congruence.
    rewrite Hz in Hsize. inversion Hsize.
  - rewrite (descriptor_get_run _ _ _ _ _ Hself Hsize).
    rewrite (bind_Ok _ _ _ _ _ Hget). reflexivity.
  - exact Hget.
  - reflexivity.
Qed.

(** X8 -- assigning a field through its descriptor.  On a record whose
    values are the list [__init__] made, [__set__] writes the value at
    the position of the field and nowhere else, and [__get__] then
    returns it. *)
Theorem descriptor_set_get p raw attrs (h0 : heap) cls h1 (h : heap) self l xs i f v :
  MetaStruct.__new__ p (map type_new raw) attrs h0 = (Ok cls, h1) ->
  h !! self = Some (ObjStruct cls (PyList l)) ->
  h !! l = Some (ObjList xs) ->
  let fl := MetaStruct.field_list (type_new attrs :: map type_new raw) in
  Forall constructed fl ->
  fl !! i = Some f ->
  (i < length xs)%nat ->
  exists h',
    Descriptor.__set__ f self v h = (Ok tt, h') /\
    record h' self = Some (cls, <[i := v]> xs) /\
    Descriptor.__get__ f (Some self) h' = (Ok (inr v), h').
Proof.
  intros Hnew Hself Hl. cbv zeta.
  apply new_Ok in Hnew as (o0 & _ & Hfl & -> & _).
  set (fl := MetaStruct.field_list (type_new attrs :: map type_new raw)) in *.
  set (cls := compiled p o0 fl (length h0)) in *.
  intros Hmade Hi Hlt.
  assert (Hf : f ∈ fl) by (eapply list_elem_of_lookup_2, Hi).
  assert (Hsize : (0 < PyStruct.size (_PACKER cls))%nat).
  { apply (compiled_size_pos p o0 fl (length h0) f Hf).
    - apply (proj1 (Forall_forall _ _) Hmade _ Hf).
    - apply (proj1 (Forall_forall _ _) Hfl _ Hf). }
  assert (Hnames : NoDup (map StructField.name fl))
    by apply (field_list_names_NoDup (attrs :: raw)).
  assert (Hget : dict.get (StructField.name f) (_NAME_INDEX_MAP cls) = Some i)
    by apply (index_map_lookup fl 0 [] i f Hnames Hi).
  assert (Hne : l <> self) by (intros Heq; congruence).
  set (h' := <[l := ObjList (<[i := v]> xs)]> h).
  assert (Hself' : h' !! self = Some (ObjStruct cls (PyList l))).
  { unfold h'. rewrite list_lookup_insert_ne by exact Hne. exact Hself. }
  assert (Hl' : h' !! l = Some (ObjList (<[i := v]> xs))).
  { apply list_lookup_insert_eq. eapply lookup_lt_Some, Hl. }
  exists h'. split; [|split].
  - unfold Descriptor.__set__, Struct.set_field_value, Struct.name_index.
    rewrite (bind_Ok _ _ _ _ _ (instance_Some _ _ _ _ Hself)). rewrite Hget.
    erewrite bind_Ok by reflexivity. cbn [seq_setitem].
    apply (list_setitem_Some _ _ _ _ _ Hl Hlt).
  - unfold record. rewrite Hself', Hl'. reflexivity.
  - rewrite (descriptor_get_run _ _ _ _ _ Hself' Hsize).
    erewrite bind_Ok; [reflexivity|].
    rewrite (get_field_value_run _ _ _ _ (<[i := v]> xs) _ i Hself'
               (list_items_Some _ _ _ Hl') Hget).
    rewrite list_lookup_insert_eq by exact Hlt. reflexivity.
Qed.

(** X9 -- a byte string field of negative length.  [StructField]
    accepts it, but the class that declares it cannot be created: its
    length prints with a sign, [struct.Struct] rejects the format and
    [MetaStruct.__new__] raises [struct.error], after the defaults list
    of the class was made. *)
Theorem negative_length_fails_class p bases attrs (h : heap) f n o :
  let mro := type_new attrs :: bases in
  f ∈ MetaStruct.field_list mro ->
  StructField.field_type f = CHAR ->
  StructField.str_len f = Some n ->
  n < 0 ->
  MetaStruct.getattr_BYTE_ORDER mro = Ok o ->
  MetaStruct.__new__ p bases attrs h =
  (Raise struct_error,
   h ++ [ObjList (map StructField.default (MetaStruct.field_list mro))]).
Proof.
  intros mro Hf Ht Hlen Hn Ho. rewrite new_spec. fold mro. rewrite Ho.
  destruct (PyStruct.Struct p _) as [s|e] eqn:Hs.
  - exfalso. apply Struct_fmt_of_inv in Hs as [Hfl _].
    pose proof (proj1 (Forall_forall _ _) Hfl f Hf) as Hcount.
    destruct (Hcount Ht) as (m & Hm & Hpos). rewrite Hlen in Hm.
    injection Hm as <-. lia.
  - apply Struct_raises in Hs as ->. reflexivity.
Qed.

(** ** Class bodies *)

Lemma set_name_twice (f : StructField.t) :
  StructField.__set_name__ (StructField.__set_name__ f EmptyString)
    (StructField.name f) = f.
Proof. destruct f. reflexivity. Qed.

(** What [declare] binds: the declared descriptors, not yet named. *)
Lemma declare_Ok decls : forall ns count_ body count_',
  declare decls ns count_ = Ok (body, count_') ->
  count_' = (count_ + length decls)%nat /\
  body =
  fold_left
    (fun ns f =>
       dict.set ns (StructField.name f)
         (AttrField (StructField.__set_name__ f EmptyString)))
    (declared decls count_) ns.
Proof.
  induction decls as [|[name [[t d] sl]] decls IH]; intros ns c body c'.
  - intros [= <- <-]. split; [simpl; lia|reflexivity].
  - cbn [declare declared fold_left]. unfold StructField.__init__.
    destruct (_ && _); [discriminate|]. cbn [mbind result_bind].
    intros H. apply IH in H as [-> ->]. split; [simpl; lia|reflexivity].
Qed.

Lemma declared_names decls : forall count_,
  map StructField.name (declared decls count_) = map fst decls.
Proof.
  induction decls as [|[name [[t d] sl]] decls IH]; intros c; [reflexivity|].
  cbn [declared map]. rewrite IH. reflexivity.
Qed.

Lemma declared_constructed decls ns count_ body count_' :
  declare decls ns count_ = Ok (body, count_') ->
  Forall constructed (declared decls count_).
Proof.
  revert ns count_. induction decls as [|[name [[t d] sl]] decls IH];
    intros ns c; [constructor|].
  cbn [declare declared]. unfold StructField.__init__ at 1.
  destruct (_ && _) eqn:Hc; [discriminate|]. cbn [mbind result_bind].
  intros H. constructor; [|eapply IH, H].
  unfold constructed, StructField.__init__. cbn. rewrite Hc. reflexivity.
Qed.

Lemma dict_set_fresh {V} (d : dict.t V) k v :
  k ∉ dict.keys d -> dict.set d k v = d ++ [(k, v)].
Proof.
  induction d as [|[k0 v0] d IH]; intros Hk; [reflexivity|].
  cbn [dict.keys map] in Hk. apply not_elem_of_cons in Hk as [Hne Hk].
  cbn [dict.set]. destruct (String.eqb_spec k k0); [contradiction|].
  cbn [app]. f_equal. apply IH, Hk.
Qed.

Lemma bind_fresh {V} (g : StructField.t -> V) own : forall (ns : dict.t V),
  NoDup (dict.keys ns ++ map StructField.name own) ->
  fold_left (fun ns f => dict.set ns (StructField.name f) (g f)) own ns =
  ns ++ map (fun f => (StructField.name f, g f)) own.
Proof.
  induction own as [|f own IH]; intros ns Hnd.
  - cbn. rewrite app_nil_r. reflexivity.
  - cbn [fold_left map]. cbn [map] in Hnd.
    assert (Hf : StructField.name f ∉ dict.keys ns).
    { apply NoDup_app in Hnd as (_ & Hdisj & _). intros Hin.
      apply (Hdisj _ Hin). left. }
    rewrite (dict_set_fresh _ _ _ Hf). rewrite IH.
    + rewrite <- app_assoc. reflexivity.
    + unfold dict.keys in *. rewrite map_app, <- app_assoc. exact Hnd.
Qed.

Lemma collect_class_app acc a b :
  MetaStruct.collect_class acc (a ++ b) =
  MetaStruct.collect_class (MetaStruct.collect_class acc a) b.
Proof. unfold MetaStruct.collect_class, dict.items. apply fold_left_app. Qed.

Lemma collect_class_no_field acc (ns : namespace) :
  Forall (fun kv => forall f, kv.2 <> AttrField f) ns ->
  MetaStruct.collect_class acc (type_new ns) = acc.
Proof.
  unfold MetaStruct.collect_class, dict.items, type_new.
  induction 1 as [|[k v] ns Hv _ IH]; [reflexivity|].
  cbn [map fold_left]. simpl in Hv.
  destruct v as [f| |]; [exfalso; apply (Hv f); reflexivity|exact IH|exact IH].
Qed.

Lemma collect_class_fields acc own :
  MetaStruct.collect_class acc
    (map (fun f => (StructField.name f, AttrField f)) own) =
  fold_left (fun acc f => dict.set acc (StructField.name f) f) own acc.
Proof.
  unfold MetaStruct.collect_class, dict.items. revert acc.
  induction own as [|f own IH]; intros acc; [reflexivity|].
  cbn [map fold_left]. apply IH.
Qed.

(** The class body of [declare], as [MetaStruct] collects it. *)
Lemma collect_class_declared acc (ns : namespace) own :
  Forall (fun kv => forall f, kv.2 <> AttrField f) ns ->
  NoDup (dict.keys ns ++ map StructField.name own) ->
  MetaStruct.collect_class acc
    (type_new
       (fold_left
          (fun ns f =>
             dict.set ns (StructField.name f)
               (AttrField (StructField.__set_name__ f EmptyString)))
          own ns)) =
  fold_left (fun acc f => dict.set acc (StructField.name f) f) own acc.
Proof.
  intros Hns Hnd.
  rewrite (bind_fresh
             (fun f => AttrField (StructField.__set_name__ f EmptyString))
             own ns Hnd).
  unfold type_new at 1. rewrite map_app. fold (type_new ns).
  rewrite collect_class_app, (collect_class_no_field _ _ Hns).
  rewrite map_map. rewrite <- collect_class_fields. f_equal.
  apply map_ext. intros f. cbn. rewrite set_name_twice. reflexivity.
Qed.

(** ** The values of a dictionary after assignments *)

Lemma filter_all {A} (P : A -> Prop) `{!forall x, Decision (P x)} (l : list A) :
  (forall x, P x) -> filter P l = l.
Proof.
  intros HP. induction l as [|x l IH]; [reflexivity|].
  rewrite filter_cons_True by apply HP. f_equal. exact IH.
Qed.

Lemma filter_other_names (d : dict.t StructField.t) k :
  named d -> k ∉ dict.keys d ->
  filter (fun f => negb (String.eqb (StructField.name f) k)) (dict.values d) =
  dict.values d.
Proof.
  induction d as [|[k0 f0] d IH]; intros Hd Hk; [reflexivity|].
  cbn [dict.keys map] in Hk. apply not_elem_of_cons in Hk as [Hne Hk].
  simpl in Hne. cbn [dict.values map]. simpl.
  assert (Hf0 : StructField.name f0 = k0) by (apply Hd; left).
  rewrite filter_cons_True.
  - f_equal. apply IH; [|exact Hk]. intros k' f' Hin. apply Hd. right. exact Hin.
  - rewrite Hf0. destruct (String.eqb_spec k0 k); [congruence|exact I].
Qed.

Lemma values_set_Permutation (d : dict.t StructField.t) v :
  named d -> NoDup (dict.keys d) ->
  dict.values (dict.set d (StructField.name v) v) ≡ₚ
  filter (fun f => negb (String.eqb (StructField.name f) (StructField.name v)))
    (dict.values d) ++ [v].
Proof.
  induction d as [|[k0 f0] d IH]; intros Hd Hnd; [reflexivity|].
  cbn [dict.keys map] in Hnd. apply NoDup_cons in Hnd as [Hk0 Hnd].
  simpl in Hk0.
  assert (Hf0 : StructField.name f0 = k0) by (apply Hd; left).
  assert (Hd' : named d) by (intros k' f' Hin; apply Hd; right; exact Hin).
  cbn [dict.set]. destruct (String.eqb_spec (StructField.name v) k0) as [Heq|Hne].
  - cbn [dict.values map]. simpl. rewrite filter_cons_False.
    + rewrite (filter_other_names d _ Hd') by (rewrite Heq; exact Hk0).
      unfold dict.values. apply Permutation_cons_append.
    + rewrite Hf0, <- Heq, String.eqb_refl. simpl. auto.
  - cbn [dict.values map]. simpl. rewrite filter_cons_True.
    + cbn [app]. constructor. apply IH; assumption.
    + rewrite Hf0. destruct (String.eqb_spec k0 (StructField.name v));
        [congruence|exact I].
Qed.

Lemma set_named (d : dict.t StructField.t) v :
  named d -> named (dict.set d (StructField.name v) v).
Proof.
  intros Hd k f Hin. apply dict_set_elem in Hin as [[= -> ->]|Hin];
    [reflexivity|apply Hd, Hin].
Qed.

Lemma existsb_eqb_elem (k : string) (ks : list string) :
  existsb (String.eqb k) ks = true <-> k ∈ ks.
Proof.
  rewrite existsb_exists. split.
  - intros (x & Hin & Heq). apply String.eqb_eq in Heq as ->.
    apply list_elem_of_In, Hin.
  - intros Hin. exists k. split; [apply list_elem_of_In, Hin|apply String.eqb_refl].
Qed.

Lemma values_fold_Permutation own : forall (acc : dict.t StructField.t),
  named acc -> NoDup (dict.keys acc) -> NoDup (map StructField.name own) ->
  dict.values
    (fold_left (fun acc f => dict.set acc (StructField.name f) f) own acc) ≡ₚ
  filter
    (fun f => negb (existsb (String.eqb (StructField.name f))
                      (map StructField.name own)))
    (dict.values acc) ++ own.
Proof.
  induction own as [|g own IH]; intros acc Hacc Hnd Hown.
  - cbn [fold_left map existsb negb app]. rewrite app_nil_r.
    rewrite filter_all; [reflexivity|]. intros f. exact I.
  - cbn [fold_left]. cbn [map] in Hown. apply NoDup_cons in Hown as [Hg Hown].
    rewrite IH; [|apply set_named, Hacc|apply dict_NoDup_set, Hnd|exact Hown].
    rewrite (values_set_Permutation acc g Hacc Hnd).
    rewrite filter_app, list_filter_filter.
    rewrite (filter_cons_True _ g []); cycle 1.
    { destruct (existsb _ _) eqn:He; [|exact I].
      apply existsb_eqb_elem in He. contradiction. }
    rewrite filter_nil, <- app_assoc. cbn [app].
    apply Permutation_app; [|reflexivity].
    erewrite list_filter_iff; [reflexivity|].
    intros f. cbn [map existsb].
    destruct (String.eqb (StructField.name f) (StructField.name g));
      destruct (existsb _ _); simpl; tauto.
Qed.

(** ** Lists ordered by strictly increasing counters *)

Lemma sorted_lt_unique (l1 : list StructField.t) : forall l2,
  l1 ≡ₚ l2 ->
  StronglySorted count_le l1 -> StronglySorted count_lt l2 -> l1 = l2.
Proof.
  induction l1 as [|x l1 IH]; intros l2 Hperm H1 H2.
  - apply Permutation_nil_l in Hperm. congruence.
  - destruct l2 as [|y l2].
    { apply Permutation_nil_r in Hperm. discriminate. }
    apply StronglySorted_inv in H1 as [H1 Hx].
    apply StronglySorted_inv in H2 as [H2 Hy].
    assert (Hxy : x = y).
    { assert (Hxin : x ∈ y :: l2) by (rewrite <- Hperm; left).
      assert (Hyin : y ∈ x :: l1) by (rewrite Hperm; left).
      apply elem_of_cons in Hxin as [Hxin|Hxin]; [exact Hxin|].
      apply elem_of_cons in Hyin as [Hyin|Hyin]; [congruence|].
      pose proof (proj1 (Forall_forall _ _) Hx y Hyin) as Hle.
      pose proof (proj1 (Forall_forall _ _) Hy x Hxin) as Hlt.
      unfold count_le, count_lt in *. lia. }
    subst y. f_equal. apply IH; [|exact H1|exact H2].
    eapply Permutation_cons_inv, Hperm.
Qed.

Lemma sorted_le_lt (l : list StructField.t) :
  StronglySorted count_le l -> NoDup (map StructField.count l) ->
  StronglySorted count_lt l.
Proof.
  induction 1 as [|x l Hl IH Hx]; intros Hnd; [constructor|].
  cbn [map] in Hnd. apply NoDup_cons in Hnd as [Hc Hnd].
  constructor; [apply IH, Hnd|].
  apply Forall_forall. intros g Hg.
  pose proof (proj1 (Forall_forall _ _) Hx g Hg) as Hle.
  assert (StructField.count x <> StructField.count g).
  { intros Heq. apply Hc. rewrite Heq. apply list_elem_of_fmap. eauto. }
  unfold count_le, count_lt in *. lia.
Qed.

Lemma sorted_lt_filter (P : StructField.t -> Prop) `{!forall f, Decision (P f)}
    (l : list StructField.t) :
  StronglySorted count_lt l -> StronglySorted count_lt (filter P l).
Proof.
  induction 1 as [|x l Hl IH Hx]; [constructor|].
  destruct (decide (P x)) as [HP|HP].
  - rewrite filter_cons_True by exact HP. constructor; [exact IH|].
    apply Forall_forall. intros g Hg. apply list_elem_of_filter in Hg as [_ Hg].
    apply (proj1 (Forall_forall _ _) Hx g Hg).
  - rewrite filter_cons_False by exact HP. exact IH.
Qed.

Lemma sorted_lt_app (l1 l2 : list StructField.t) :
  StronglySorted count_lt l1 -> StronglySorted count_lt l2 ->
  (forall f g, f ∈ l1 -> g ∈ l2 -> count_lt f g) ->
  StronglySorted count_lt (l1 ++ l2).
Proof.
  induction 1 as [|x l1 Hl1 IH Hx]; intros H2 Hlt; [exact H2|].
  cbn [app]. constructor.
  - apply IH; [exact H2|]. intros f g Hf Hg. apply Hlt; [right|]; assumption.
  - apply Forall_app. split; [exact Hx|].
    apply Forall_forall. intros g Hg. apply Hlt; [left|exact Hg].
Qed.

Lemma declared_sorted decls : forall count_,
  StronglySorted count_lt (declared decls count_) /\
  Forall (fun f => (count_ <= StructField.count f)%nat) (declared decls count_).
Proof.
  induction decls as [|[name [[t d] sl]] decls IH]; intros c.
  - split; constructor.
  - destruct (IH (S c)) as [Hs Hc]. cbn [declared]. split.
    + constructor; [exact Hs|].
      eapply Forall_impl; [exact Hc|]. unfold count_lt. simpl. intros; lia.
    + constructor; [simpl; lia|].
      eapply Forall_impl; [exact Hc|]. simpl. intros; lia.
Qed.

(** X10 -- declaration order.  A class body that constructs its
    descriptors one after the other and binds each to a name of its own
    gives them the next values of the counter.  When the descriptors
    the bases contribute were all constructed before, each with a
    counter of its own, the field list of the new class is: the fields
    of the bases in their order, without those whose name the body
    declares again, then the fields of the body in the order of their
    declaration. *)
Theorem declaration_order raw ns decls count_ body count_' :
  declare decls ns count_ = Ok (body, count_') ->
  NoDup (dict.keys ns ++ map fst decls) ->
  Forall (fun kv => forall f, kv.2 <> AttrField f) ns ->
  let inherited := MetaStruct.field_list (map type_new raw) in
  Forall (fun f => (StructField.count f < count_)%nat) inherited ->
  NoDup (map StructField.count inherited) ->
  count_' = (count_ + length decls)%nat /\
  Forall constructed (declared decls count_) /\
  MetaStruct.field_list (type_new body :: map type_new raw) =
  filter (fun f => negb (declares decls f)) inherited ++ declared decls count_.
Proof.
  intros Hdecl Hnd Hns inherited Hold Hcounts.
  pose proof (declared_constructed _ _ _ _ _ Hdecl) as Hmade.
  apply declare_Ok in Hdecl as [-> ->].
  split; [reflexivity|]. split; [exact Hmade|].
  set (own := declared decls count_) in *.
  assert (Hnames : map StructField.name own = map fst decls)
    by apply declared_names.
  rewrite <- Hnames in Hnd.
  assert (Hown : NoDup (map StructField.name own))
    by (apply NoDup_app in Hnd as (_ & _ & Hnd); exact Hnd).
  unfold MetaStruct.field_list at 1.
  rewrite collect_cons, (collect_class_declared _ _ _ Hns Hnd).
  set (acc := MetaStruct.collect (map type_new raw)) in *.
  assert (Hfilter : forall l : list StructField.t,
    filter (fun f => negb (existsb (String.eqb (StructField.name f))
                             (map StructField.name own))) l =
    filter (fun f => negb (declares decls f)) l).
  { intros l. apply list_filter_iff. intros f. unfold declares.
    rewrite Hnames. reflexivity. }
  apply sorted_lt_unique.
  - rewrite sorted_Permutation.
    rewrite (values_fold_Permutation own acc (collect_named raw)
               (collect_NoDup _) Hown).
    rewrite Hfilter. apply Permutation_app; [|reflexivity].
    apply filter_Permutation. symmetry. apply sorted_Permutation.
  - apply sorted_StronglySorted.
  - destruct (declared_sorted decls count_) as [Hsorted Hfrom].
    apply sorted_lt_app; [|exact Hsorted|].
    + apply sorted_lt_filter, sorted_le_lt; [apply sorted_StronglySorted|].
      exact Hcounts.
    + intros f g Hf Hg. apply list_elem_of_filter in Hf as [_ Hf].
      pose proof (proj1 (Forall_forall _ _) Hold f Hf).
      pose proof (proj1 (Forall_forall _ _) Hfrom g Hg).
      unfold count_lt. simpl in *. lia.
Qed.

(** ** Running the methods of [FileHelper] *)

Section FileHelperFacts.
Context {F : Type} `{!io.File F}.

Lemma read_into_run (helper : FileHelper.t F) (h : heap) self cls s :
  h !! self = Some (ObjStruct cls s) ->
  FileHelper.read_into self helper h =
  match io.read (FileHelper.fp helper) (PyStruct.size (_PACKER cls)) with
  | (Returns bytes_, fp') =>
      if (length bytes_ <? PyStruct.size (_PACKER cls))%nat
      then (Returns false, {| FileHelper.fp := fp' |}, h)
      else
        match PyStruct.unpack (_PACKER cls) bytes_ with
        | Ok vs =>
            (Returns true, {| FileHelper.fp := fp' |},
             <[self := ObjStruct cls (PyTuple vs)]> h)
        | Raise e => (Raises (Exn e), {| FileHelper.fp := fp' |}, h)
        end
  | (Raises e, fp') => (Raises e, {| FileHelper.fp := fp' |}, h)
  end.
Proof.
  intros Hself. unfold FileHelper.read_into.
  unfold mbind at 1, FileHelper.FM_bind at 1, FileHelper.of_record at 1.
  rewrite (sizeof_run _ _ _ _ Hself).
  unfold mbind at 1, FileHelper.FM_bind at 1, FileHelper.fp_read at 1.
  destruct (io.read (FileHelper.fp helper) _) as [[bytes_|e] fp']; [|reflexivity].
  destruct (length bytes_ <? _)%nat; [reflexivity|].
  unfold mbind, FileHelper.FM_bind, FileHelper.of_record.
  rewrite (unpack_run _ _ _ _ _ Hself).
  destruct (PyStruct.unpack (_PACKER cls) bytes_); reflexivity.
Qed.

Lemma write_run (helper : FileHelper.t F) (h : heap) self cls s vs :
  h !! self = Some (ObjStruct cls s) ->
  seq_items s h = (Ok vs, h) ->
  FileHelper.write self helper h =
  match PyStruct.pack (_PACKER cls) vs with
  | Ok bytes_ =>
      let '(r, fp') := io.write (FileHelper.fp helper) bytes_ in
      (r, {| FileHelper.fp := fp' |}, h)
  | Raise e => (Raises (Exn e), helper, h)
  end.
Proof.
  intros Hself Hitems. unfold FileHelper.write.
  unfold mbind, FileHelper.FM_bind, FileHelper.of_record.
  rewrite (pack_run _ _ _ _ _ Hself Hitems).
  destruct (PyStruct.pack (_PACKER cls) vs); reflexivity.
Qed.
End FileHelperFacts.

(** ** Binary files *)


(** Where [write] puts the bytes. *)
Lemma BinaryFile_written (f : BinaryFile.t) (b : list byte) start :
  start = (if BinaryFile.appending f then length (BinaryFile.data f)
           else BinaryFile.pos f) ->
  let data' :=
    take start (BinaryFile.data f)
      ++ replicate (start - length (BinaryFile.data f)) Byte.x00
      ++ b ++ drop (start + length b) (BinaryFile.data f) in
  take (length b) (drop start data') = b /\
  length data' = Nat.max (length (BinaryFile.data f)) (start + length b).
Proof.
  intros _ data'.
  assert (Hpre : length (take start (BinaryFile.data f)
                           ++ replicate (start - length (BinaryFile.data f)) Byte.x00)
                 = start).
  { rewrite length_app, length_take, length_replicate. lia. }
  split.
  - unfold data'. rewrite app_assoc, drop_app_length' by (symmetry; exact Hpre).
    apply take_app_length.
  - unfold data'. rewrite app_assoc, length_app, Hpre, length_app, length_drop.
    lia.
Qed.

(** X11 -- reading a record from a binary file.  [read_into] asks the file
    for [sizeof()] bytes.  When that many are left it unpacks them into
    the record, moves the position past them and returns [True]; a
    record without fields has size zero, so for it this is always the
    case.  When fewer are left it returns [False] and leaves the record
    alone, but the file is then at its end: the bytes that were left
    are consumed.  On a file that is not open for reading nothing
    changes and the error of the file is raised. *)
Theorem read_into_binary_file p bases attrs (h0 : heap) cls h1 (h : heap) self vs
    (f : BinaryFile.t) :
  MetaStruct.__new__ p bases attrs h0 = (Ok cls, h1) ->
  record h self = Some (cls, vs) ->
  let size := PyStruct.size (_PACKER cls) in
  let left := (length (BinaryFile.data f) - BinaryFile.pos f)%nat in
  let helper := {| FileHelper.fp := f |} in
  let moved n :=
    {| FileHelper.fp :=
         {| BinaryFile.opened := BinaryFile.opened f;
            BinaryFile.data := BinaryFile.data f;
            BinaryFile.pos := (BinaryFile.pos f + n)%nat |} |} in
  (BinaryFile.readable f = true -> (size <= left)%nat ->
   exists vs',
     PyStruct.unpack (_PACKER cls)
       (take size (drop (BinaryFile.pos f) (BinaryFile.data f))) = Ok vs' /\
     length vs' = length (MetaStruct.field_list (type_new attrs :: bases)) /\
     exists h',
       FileHelper.read_into self helper h = (Returns true, moved size, h') /\
       record h' self = Some (cls, vs')) /\
  (BinaryFile.readable f = true -> (left < size)%nat ->
   FileHelper.read_into self helper h = (Returns false, moved left, h)) /\
  (BinaryFile.readable f = false ->
   FileHelper.read_into self helper h = (Raises UnsupportedOperation, helper, h)).
Proof.
  intros Hnew Hrec. cbv zeta.
  apply new_Ok in Hnew as (o0 & _ & Hfl & -> & _).
  set (fl := MetaStruct.field_list (type_new attrs :: bases)) in *.
  set (cls := compiled p o0 fl (length h0)) in *.
  apply record_inv in Hrec as (s & Hself & _).
  rewrite (read_into_run _ _ _ _ _ Hself).
  cbn [io.read BinaryFile.File FileHelper.fp]. unfold BinaryFile.read.
  set (size := PyStruct.size (_PACKER cls)).
  set (bytes_ := take size (drop (BinaryFile.pos f) (BinaryFile.data f))).
  assert (Hlen : length bytes_ =
                 Nat.min size (length (BinaryFile.data f) - BinaryFile.pos f)).
  { unfold bytes_. rewrite length_take, length_drop. reflexivity. }
  split; [|split].
  - intros -> Hleft. rewrite Hlen, Nat.min_l by exact Hleft.
    rewrite Nat.ltb_irrefl.
    destruct (packer_unpack p o0 fl (length h0) bytes_) as [_ Hgood].
    destruct Hgood as (vs' & Hvs' & Hn).
    { rewrite Hlen, Nat.min_l by exact Hleft. reflexivity. }
    fold cls in Hvs'. exists vs'. split; [exact Hvs'|]. split; [exact Hn|].
    rewrite Hvs'. eexists. split; [reflexivity|].
    apply (record_tuple _ _ _ _ _ Hself).
  - intros -> Hleft. rewrite Hlen, Nat.min_r by lia.
    apply Nat.ltb_lt in Hleft. rewrite Hleft. reflexivity.
  - intros ->. destruct f. reflexivity.
Qed.

(** X12 -- writing a record to a binary file.  [write] packs the record
    first: when [pack] raises, that exception is raised and the file is
    left as it was.  Otherwise the file receives the bytes of [pack] at
    its position (at its end, in an append mode), which is moved past
    them, and [write] returns their number, [sizeof()].  On a file that
    is not open for writing nothing changes and the error of the file
    is raised. *)
Theorem write_binary_file p bases attrs (h0 : heap) cls h1 (h : heap) self vs
    (f : BinaryFile.t) :
  MetaStruct.__new__ p bases attrs h0 = (Ok cls, h1) ->
  record h self = Some (cls, vs) ->
  let helper := {| FileHelper.fp := f |} in
  let start :=
    if BinaryFile.appending f then length (BinaryFile.data f)
    else BinaryFile.pos f in
  (forall e, Struct.pack self h = (Raise e, h) ->
   FileHelper.write self helper h = (Raises (Exn e), helper, h)) /\
  (forall bytes_, Struct.pack self h = (Ok bytes_, h) ->
   (BinaryFile.writable f = false ->
    FileHelper.write self helper h = (Raises UnsupportedOperation, helper, h)) /\
   (BinaryFile.writable f = true ->
    exists f',
      FileHelper.write self helper h =
        (Returns (PyStruct.size (_PACKER cls)), {| FileHelper.fp := f' |}, h) /\
      length bytes_ = PyStruct.size (_PACKER cls) /\
      BinaryFile.opened f' = BinaryFile.opened f /\
      BinaryFile.pos f' = (start + length bytes_)%nat /\
      take (length bytes_) (drop start (BinaryFile.data f')) = bytes_ /\
      length (BinaryFile.data f') =
        Nat.max (length (BinaryFile.data f)) (start + length bytes_))).
Proof.
  intros Hnew Hrec. cbv zeta.
  apply new_Ok in Hnew as (o0 & _ & Hfl & -> & _).
  set (fl := MetaStruct.field_list (type_new attrs :: bases)) in *.
  set (cls := compiled p o0 fl (length h0)) in *.
  apply record_inv in Hrec as (s & Hself & Hitems).
  rewrite (write_run _ _ _ _ _ _ Hself Hitems).
  rewrite (pack_run _ _ _ _ _ Hself Hitems).
  split.
  - intros e Hraise.
    assert (Hpack : PyStruct.pack (_PACKER cls) vs = Raise e) by congruence.
    rewrite Hpack. reflexivity.
  - intros bytes_ Hok.
    assert (Hpack : PyStruct.pack (_PACKER cls) vs = Ok bytes_) by congruence.
    clear Hok. rewrite Hpack.
    cbn [io.write BinaryFile.File FileHelper.fp]. unfold BinaryFile.write.
    split; [intros ->; destruct f; reflexivity|]. intros ->.
    assert (Hsize : length bytes_ = PyStruct.size (_PACKER cls)).
    { unfold PyStruct.pack in Hpack.
      destruct (_ =? _)%nat in Hpack; [|discriminate].
      apply pack_segments_length in Hpack. exact Hpack. }
    eexists. split; [rewrite <- Hsize; reflexivity|].
    split; [exact Hsize|]. split; [reflexivity|]. split; [reflexivity|].
    cbn [BinaryFile.data]. apply (BinaryFile_written f bytes_ _ eq_refl).
Qed.


(** ** The byte order of a class *)

Lemma type_new_get_other attrs k :
  dict.get k (type_new attrs) =
  match dict.get k attrs with
  | Some (AttrField f) => Some (AttrField (StructField.__set_name__ f k))
  | other => other
  end.
Proof.
  induction attrs as [|[k0 v0] attrs IH]; [reflexivity|]. simpl.
  destruct (String.eqb_spec k k0) as [Heq|_]; [|exact IH].
  subst k0. destruct v0; reflexivity.
Qed.

(** Classes that do not bind [BYTE_ORDER] are passed over. *)
Lemma getattr_BYTE_ORDER_skip mid mro :
  Forall (fun ns => dict.get "BYTE_ORDER" ns = None) mid ->
  MetaStruct.getattr_BYTE_ORDER (map type_new mid ++ mro) =
  MetaStruct.getattr_BYTE_ORDER mro.
Proof.
  induction 1 as [|ns mid Hns _ IH]; [reflexivity|].
  cbn [map app MetaStruct.getattr_BYTE_ORDER].
  rewrite type_new_get_other, Hns. exact IH.
Qed.

(** X14 -- the byte order of a class.  A class that binds [BYTE_ORDER]
    to a byte order is compiled under it.  A subclass of [Struct] in
    whose line of classes down to [Struct] none binds [BYTE_ORDER] is
    compiled under that of [Struct], the little-endian order, whatever
    the platform: its format starts with ["<"], its bytes are
    little-endian and there is no padding, so its size is the sum of
    the widths of its fields. *)
Theorem byte_order_inherited p mid attrs (h0 : heap) cls h1 :
  MetaStruct.__new__ p (map type_new mid ++ [Struct_body; []]) attrs h0 =
    (Ok cls, h1) ->
  let fl :=
    MetaStruct.field_list (type_new attrs :: map type_new mid ++ [Struct_body; []]) in
  (forall o, dict.get "BYTE_ORDER" attrs = Some (AttrByteOrder o) ->
     _STRUCT_FORMAT cls = String (byte_order_char o) (_BASE_STRUCT_FORMAT cls) /\
     PyStruct.native (_PACKER cls) = PyStruct.is_aligned o /\
     PyStruct.little_endian (_PACKER cls) = PyStruct.is_little_endian p o) /\
  (Forall (fun ns => dict.get "BYTE_ORDER" ns = None) (attrs :: mid) ->
     _STRUCT_FORMAT cls = String "<" (_BASE_STRUCT_FORMAT cls) /\
     PyStruct.native (_PACKER cls) = false /\
     PyStruct.little_endian (_PACKER cls) = true /\
     PyStruct.size (_PACKER cls) = total_width fl).
Proof.
  intros Hnew. cbv zeta.
  apply new_Ok in Hnew as (o0 & Ho0 & Hfl & -> & _).
  set (fl := MetaStruct.field_list _) in *.
  split.
  - intros o Hget. cbn [MetaStruct.getattr_BYTE_ORDER] in Ho0.
    rewrite type_new_get_other, Hget in Ho0. injection Ho0 as <-.
    repeat split.
  - intros Hnone.
    change (type_new attrs :: map type_new mid ++ [Struct_body; []])
      with (map type_new (attrs :: mid) ++ [Struct_body; []]) in Ho0.
    rewrite (getattr_BYTE_ORDER_skip _ _ Hnone) in Ho0.
    injection Ho0 as <-.
    split; [reflexivity|]. split; [reflexivity|]. split; [reflexivity|].
    apply (packer_size p BYTE_ORDER_LITTLE_ENDIAN fl (length h0)). discriminate.
Qed.

(** X15 -- the values of a new record.  After a class was called with keyword arguments and returned a
    record,
    [get_field_value] returns, for every field, the keyword argument of
    its name if there is one and else the default of the field. *)
Theorem init_then_get p raw attrs (h0 : heap) cls h1 (h : heap) kwargs self h2 i f :
  MetaStruct.__new__ p (map type_new raw) attrs h0 = (Ok cls, h1) ->
  h !! _DEFAULT_VALUES cls = h1 !! _DEFAULT_VALUES cls ->
  NoDup (dict.keys kwargs) ->
  Struct.__init__ cls kwargs h = (Ok self, h2) ->
  MetaStruct.field_list (type_new attrs :: map type_new raw) !! i = Some f ->
  Struct.get_field_value self (StructField.name f) h2 =
  (Ok match dict.get (StructField.name f) kwargs with
      | Some v => v
      | None => StructField.default f
      end, h2).
Proof.
  intros Hnew Hd Hkw Hinit Hi.
  apply new_Ok in Hnew as (o0 & _ & Hfl & -> & ->).
  set (fl := MetaStruct.field_list (type_new attrs :: map type_new raw)) in *.
  cbn [compiled _DEFAULT_VALUES] in Hd. rewrite lookup_snoc in Hd.
  set (cls := compiled p o0 fl (length h0)) in *.
  set (ds := map StructField.default fl) in *.
  pose proof (compiled_index_range p o0 fl (length h0)) as Hrange.
  fold cls ds in Hrange.
  rewrite (init_run cls kwargs h ds Hd Hrange) in Hinit.
  injection Hinit as Hself <-.
  assert (self = S (length h)) as ->.
  { destruct (leftover _ _); [injection Hself as <-; reflexivity|discriminate]. }
  clear Hself.
  set (xs := assign (_NAME_INDEX_MAP cls) kwargs ds).
  set (h2 := h ++ [ObjList xs; ObjStruct cls (PyList (length h))]).
  assert (Hself : h2 !! S (length h) = Some (ObjStruct cls (PyList (length h)))).
  { unfold h2.
    change (h ++ [ObjList xs; ObjStruct cls (PyList (length h))])
      with (h ++ [ObjList xs] ++ [ObjStruct cls (PyList (length h))]).
    rewrite app_assoc. apply list_lookup_middle.
    rewrite length_app. simpl. lia. }
  assert (Hl : h2 !! length h = Some (ObjList xs))
    by (apply list_lookup_middle; reflexivity).
  assert (Hnames : NoDup (map StructField.name fl))
    by apply (field_list_names_NoDup (attrs :: raw)).
  assert (Hget : dict.get (StructField.name f) (_NAME_INDEX_MAP cls) = Some i)
    by apply (index_map_lookup fl 0 [] i f Hnames Hi).
  change (Struct.get_field_value (S (length h)) (StructField.name f) h2 =
          (Ok match dict.get (StructField.name f) kwargs with
              | Some v => v
              | None => StructField.default f
              end, h2)).
  rewrite (get_field_value_run _ _ _ _ xs _ i Hself (list_items_Some _ _ _ Hl) Hget).
  assert (Hlt : (i < length ds)%nat).
  { unfold ds. rewrite length_map. eapply lookup_lt_Some, Hi. }
  unfold xs.
  rewrite (assign_item _ kwargs ds (StructField.name f) i);
    [|apply index_map_NoDup; constructor|apply index_map_values_NoDup
     |exact Hkw|apply dict_get_elem, Hget|exact Hlt].
  destruct (dict.get (StructField.name f) kwargs); [reflexivity|].
  unfold ds. rewrite list_lookup_fmap, Hi. reflexivity.
Qed.

(** * Concrete instances *)

Lemma pack_unpack_roundtrip_witness :
  (exists bs h',
      Struct.pack 2 Examples.Packet_store = (Ok bs, Examples.Packet_store) /\
      Struct.unpack 2 bs Examples.Packet_store = (Ok tt, h') /\
      record h' 2 = Some (Examples.Packet_cls, Examples.abcd_values)) /\
  (forall o, exists bs h',
      Struct.pack_endian lp64_le 2 o Examples.Packet_store =
        (Ok bs, Examples.Packet_store) /\
      Struct.unpack_endian lp64_le 2 bs o Examples.Packet_store = (Ok tt, h') /\
      record h' 2 = Some (Examples.Packet_cls, Examples.abcd_values)).
Proof.
  apply (pack_unpack_roundtrip lp64_le Examples.Struct_mro Examples.Packet_attrs
           [] Examples.Packet_cls Examples.Packet_defaults).
  - reflexivity.
  - reflexivity.
  - repeat constructor.
Defined.

(** C2, counterexample: [Base] declares [a] then [b]; [Derived]
    redeclares [a].  In [Base] the field [a] comes first, in [Derived]
    it comes after [b]. *)
Lemma override_moves_field :
  exists Base Derived,
    fst (Examples.Base_Derived lp64_le []) = Ok (Base, Derived) /\
    dict.get "a"%string (_NAME_INDEX_MAP Base) = Some 0%nat /\
    dict.get "b"%string (_NAME_INDEX_MAP Base) = Some 1%nat /\
    dict.get "a"%string (_NAME_INDEX_MAP Derived) = Some 1%nat /\
    dict.get "b"%string (_NAME_INDEX_MAP Derived) = Some 0%nat.
Proof. do 2 eexists. repeat split. Qed.

(** C2 at [Derived]: its one field [a] is the [uint16_t] descriptor, at
    position 1. *)
Lemma override_one_slot_witness :
  exists i,
    MetaStruct.field_list
      (type_new Examples.Derived_attrs
         :: map type_new [Examples.Base_attrs; Struct_body; []]) !! i =
    Some {| StructField.field_type := UINT16_T;
            StructField.default := PyNone;
            StructField.str_len := None;
            StructField.count := 2;
            StructField.name := "a" |} /\
    i = 1%nat.
Proof.
  destruct (override_one_slot lp64_le [Examples.Base_attrs; Struct_body; []]
              Examples.Derived_attrs "a"
              {| StructField.field_type := UINT16_T;
                 StructField.default := PyNone;
                 StructField.str_len := None;
                 StructField.count := 2;
                 StructField.name := EmptyString |}
              [] _ _
              ltac:(repeat constructor; apply not_elem_of_nil)
              eq_refl eq_refl) as (i & Hi & Hidx & _).
  exists i. split; [exact Hi|].
  vm_compute in Hidx. congruence.
Defined.

(** C3, counterexample: a little-endian [Pair] has size 5; eight bytes,
    which is not its size, are unpacked under the native byte order
    without error, and the values are replaced. *)
Lemma unpack_endian_other_size :
  fst (Examples.unpack_native lp64_le []) = Ok (5%nat, [PyInt 1; PyInt 2]) /\
  length Examples.eight_bytes = 8%nat.
Proof. split; reflexivity. Qed.

(** C3 at a [Packet], whose size is 9, and a buffer of eight bytes. *)
Lemma unpack_size_mismatch_witness :
  exists n,
    Struct.sizeof 2 Examples.Packet_store = (Ok n, Examples.Packet_store) /\
    Struct.unpack 2 Examples.eight_bytes Examples.Packet_store =
      (Raise struct_error, Examples.Packet_store).
Proof.
  destruct (unpack_size_mismatch lp64_le Examples.Struct_mro Examples.Packet_attrs
              [] Examples.Packet_cls Examples.Packet_defaults
              Examples.Packet_store 2 Examples.abcd_values Examples.eight_bytes
              eq_refl eq_refl) as (n & o & Hn & _ & Hbad & _).
  exists n. split; [exact Hn|]. apply Hbad.
  vm_compute in Hn. injection Hn as <-. vm_compute. lia.
Defined.

(** C4, counterexample: reading and writing the name [size], which is
    not a field of [Packet], raise [KeyError]; that is not a
    [StructException]. *)
Lemma unknown_field_not_StructException :
  fst (Examples.get_unknown lp64_le []) = Raise (KeyError "size") /\
  fst (Examples.set_unknown lp64_le []) = Raise (KeyError "size") /\
  forall msg, KeyError "size" <> StructException msg.
Proof. repeat split; discriminate. Qed.

(** C4 at a [Packet] and the name [size]. *)
Lemma unknown_field_KeyError_witness :
  Struct.get_field_value 2 "size" Examples.Packet_store =
    (Raise (KeyError "size"), Examples.Packet_store) /\
  Struct.set_field_value 2 "size" (PyInt 9) Examples.Packet_store =
    (Raise (KeyError "size"), Examples.Packet_store).
Proof.
  apply (unknown_field_KeyError lp64_le Examples.Struct_mro Examples.Packet_attrs
           [] Examples.Packet_cls Examples.Packet_defaults
           Examples.Packet_store 2 Examples.abcd_values).
  - reflexivity.
  - reflexivity.
  - intros Hin. apply list_elem_of_In in Hin. vm_compute in Hin.
    intuition discriminate.
Defined.

(** C6, counterexample: a [Pair] declared with the native byte order
    packs into eight bytes, and [sizeof()] is 8, while the widths of its
    fields add up to 5. *)
Lemma native_size_with_padding :
  fst (Examples.pack_native lp64_le []) = Ok (8%nat, 8%nat) /\
  total_width (Examples.Pair_fields BYTE_ORDER_NATIVE) = 5%nat.
Proof. split; reflexivity. Qed.

(** C6 at the little-endian [Packet]: nine bytes, the sum of 4, 1 and 4. *)
Lemma pack_length_is_sizeof_witness :
  Struct.sizeof 2 Examples.Packet_store =
    (Ok (length Examples.packet_bytes), Examples.Packet_store) /\
  length Examples.packet_bytes = total_width Examples.Packet_fields.
Proof.
  destruct (pack_length_is_sizeof lp64_le Examples.Struct_mro Examples.Packet_attrs
              [] Examples.Packet_cls Examples.Packet_defaults
              Examples.Packet_store 2 Examples.abcd_values
              Examples.packet_bytes Examples.Packet_store
              eq_refl eq_refl eq_refl) as (Hsize & _ & _ & Hsum).
  split; [exact Hsize|]. apply Hsum. vm_compute. discriminate.
Defined.

(** C7, counterexample: a [CHAR] descriptor of length -1 is
    constructed without error. *)
Lemma char_negative_length_accepted :
  char (-1) PyNone 0 =
  Ok ({| StructField.field_type := CHAR;
         StructField.default := PyNone;
         StructField.str_len := Some (-1);
         StructField.count := 0;
         StructField.name := EmptyString |}, 1%nat).
Proof. reflexivity. Qed.

(** C7 at [CHAR] descriptors of length 0 and 4. *)
Lemma StructField_init_rejects_witness :
  StructField.__init__ CHAR PyNone (Some 0) 0 =
    Raise (StructException CHAR_fields_require_strlen) /\
  exists f, StructField.__init__ CHAR PyNone (Some 4) 0 = Ok (f, 1%nat).
Proof.
  destruct (StructField_init_rejects CHAR PyNone (Some 0) 0) as [Hbad _].
  destruct (StructField_init_rejects CHAR PyNone (Some 4) 0) as [_ Hgood].
  split.
  - apply Hbad. split; [reflexivity|]. right. reflexivity.
  - destruct Hgood as (f & Hf & _).
    + right. exists 4. split; [reflexivity|lia].
    + exists f. exact Hf.
Defined.

(** C8 at a [Packet] constructed with two field names and two other
    keywords. *)
Lemma init_kwargs_checked_witness :
  exists vs h',
    Struct.__init__ Examples.Packet_cls
      [("id", PyInt 7); ("size", PyInt 9); ("tag", PyBytes Examples.b_abcd);
       ("crc", PyNone)]%string Examples.Packet_defaults =
    (Raise (StructException
              (Unexpected_kwargs [("size", PyInt 9); ("crc", PyNone)]%string)), h') /\
    record h' 2 = Some (Examples.Packet_cls, vs) /\
    vs !! 0%nat = Some (PyInt 7) /\
    vs !! 1%nat = Some (PyInt 1).
Proof.
  destruct (init_kwargs_checked lp64_le Examples.Struct_mro Examples.Packet_attrs
              [] Examples.Packet_cls Examples.Packet_defaults
              Examples.Packet_defaults
              [("id", PyInt 7); ("size", PyInt 9); ("tag", PyBytes Examples.b_abcd);
               ("crc", PyNone)]%string
              eq_refl eq_refl)
    as (vs & h' & Hinit & Hrec & _ & Hvs).
  - unfold dict.keys. cbn [map fst].
    repeat (apply NoDup_cons; split;
            [intros Hin; apply list_elem_of_In in Hin; vm_compute in Hin;
             intuition discriminate|]).
    apply NoDup_nil_2.
  - exists vs, h'. split; [exact Hinit|]. split; [exact Hrec|]. split.
    + apply (Hvs "id"%string 0%nat). reflexivity.
    + apply (Hvs "flag"%string 1%nat). reflexivity.
Defined.

(** C10 at two [Packet] records made from the defaults, the first of
    which then has its [flag] set. *)
Lemma instances_independent_witness :
  exists h1 h2 h3,
    Struct.__init__ Examples.Packet_cls [] Examples.Packet_defaults = (Ok 2%nat, h1) /\
    Struct.__init__ Examples.Packet_cls [] h1 = (Ok 4%nat, h2) /\
    Struct.set_field_value 2 "flag" (PyInt 5) h2 = (Ok tt, h3) /\
    h3 !! 0%nat = Examples.Packet_defaults !! 0%nat /\
    record h3 4 = record h2 4.
Proof.
  eexists _, _, _.
  split; [reflexivity|]. split; [reflexivity|]. split; [reflexivity|].
  destruct (instances_independent Examples.Packet_cls [] []
              Examples.Packet_defaults 2 _ 4 _
              "flag" (PyInt 5) _ _ "flag" (PyInt 6) _ _
              eq_refl eq_refl eq_refl eq_refl)
    as (_ & _ & _ & Hd & _ & _ & Hb & _).
  split; [exact Hd|exact Hb].
Defined.

(** [set_get_list] at the record [Packet(id=1, flag=0, tag=b"abcd")]. *)
Lemma set_get_list_witness :
  Struct.set_field_value 2 "flag" (PyInt 5) Examples.Packet_store =
    (Ok tt, <[1%nat := ObjList (<[1%nat := PyInt 5]> Examples.abcd_values)]>
              Examples.Packet_store) /\
  Struct.get_field_value 2 "flag"
    (<[1%nat := ObjList (<[1%nat := PyInt 5]> Examples.abcd_values)]>
       Examples.Packet_store) =
    (Ok (PyInt 5),
     <[1%nat := ObjList (<[1%nat := PyInt 5]> Examples.abcd_values)]>
       Examples.Packet_store).
Proof.
  apply (set_get_list Examples.Packet_store 2 Examples.Packet_cls 1
           Examples.abcd_values "flag" 1 (PyInt 5)).
  - reflexivity.
  - reflexivity.
  - reflexivity.
  - simpl. lia.
Defined.

(** [pack_accepts] at [Packet(id=1, flag=0, tag=b"abcd")], and at the
    record whose [flag] is [None]. *)
Lemma pack_accepts_witness :
  (exists bs, Struct.pack 2 Examples.Packet_store = (Ok bs, Examples.Packet_store)) /\
  (exists e,
      Struct.pack 2 Samples.unset_store = (Raise e, Samples.unset_store) /\
      (e = struct_error \/ e = OverflowError)).
Proof.
  split.
  - destruct (pack_accepts lp64_le Examples.Struct_mro Examples.Packet_attrs
                [] Examples.Packet_cls Examples.Packet_defaults
                Examples.Packet_store 2 Examples.abcd_values
                eq_refl eq_refl) as (Hyes & _ & _).
    apply Hyes. repeat constructor.
  - destruct (pack_accepts lp64_le Examples.Struct_mro Examples.Packet_attrs
                [] Examples.Packet_cls Examples.Packet_defaults
                Samples.unset_store 2 Samples.unset_values
                eq_refl eq_refl) as (_ & Hno & _).
    apply Hno. intros Hok.
    inversion Hok as [|? ? ? ? _ Hrest]; subst.
    inversion Hrest as [|? ? ? ? Hflag _]; subst.
    discriminate Hflag.
Defined.


(** [unpack_pack_roundtrip] at a [Packet] and the nine bytes of the
    scenario. *)
Lemma unpack_pack_roundtrip_witness :
  exists h',
    Struct.unpack 2 Examples.packet_bytes Examples.Packet_store = (Ok tt, h') /\
    Struct.pack 2 h' = (Ok Examples.packet_bytes, h').
Proof.
  destruct (unpack_pack_roundtrip lp64_le Examples.Struct_mro Examples.Packet_attrs
              [] Examples.Packet_cls Examples.Packet_defaults
              Examples.Packet_store 2 Examples.abcd_values Examples.packet_bytes
              eq_refl eq_refl) as [Hown _].
  - repeat constructor; discriminate.
  - reflexivity.
  - apply Hown. vm_compute. discriminate.
Defined.

(** [pack_endian_own_order] at a [Packet], which is little-endian. *)
Lemma pack_endian_own_order_witness :
  Struct.pack_endian lp64_le 2 BYTE_ORDER_LITTLE_ENDIAN Examples.Packet_store =
    Struct.pack 2 Examples.Packet_store /\
  Struct.pack_endian lp64_le 2 BYTE_ORDER_NETWORK Examples.Packet_store =
    Struct.pack_endian lp64_le 2 BYTE_ORDER_BIG_ENDIAN Examples.Packet_store.
Proof.
  destruct (pack_endian_own_order lp64_le Examples.Struct_mro Examples.Packet_attrs
              [] Examples.Packet_cls Examples.Packet_defaults
              Examples.Packet_store 2 Examples.abcd_values
              BYTE_ORDER_LITTLE_ENDIAN Examples.packet_bytes
              eq_refl eq_refl eq_refl) as (Hown & _ & Hnet & _).
  split; [exact Hown|exact Hnet].
Defined.

(** [methods_keep_record] at a new [Packet] and five calls. *)
Lemma methods_keep_record_witness :
  exists vs,
    record (run_calls lp64_le 2 Samples.some_calls
              (Examples.Packet_defaults
                 ++ [ObjList [PyInt 0; PyInt 1; PyBytes Examples.b_none];
                     ObjStruct Examples.Packet_cls (PyList 1)])) 2 =
    Some (Examples.Packet_cls, vs) /\
    length vs = 3%nat.
Proof.
  destruct (methods_keep_record lp64_le Examples.Struct_mro Examples.Packet_attrs
              [] Examples.Packet_cls Examples.Packet_defaults
              Examples.Packet_defaults [] 2 _ Samples.some_calls
              eq_refl eq_refl eq_refl) as ((vs & Hrec & Hlen) & _).
  exists vs. split; [exact Hrec|exact Hlen].
Defined.

(** [descriptor_get] at [Packet(id=1, flag=0, tag=b"abcd")] and its
    attribute [flag]. *)
Lemma descriptor_get_witness :
  Descriptor.__get__ Samples.Packet_flag (Some 2%nat) Examples.Packet_store =
    (Ok (inr (PyInt 0)), Examples.Packet_store) /\
  Descriptor.__get__ Samples.Packet_flag None Examples.Packet_store =
    (Ok (inl Samples.Packet_flag), Examples.Packet_store).
Proof.
  destruct (descriptor_get lp64_le [Struct_body; []] Examples.Packet_attrs
              [] Examples.Packet_cls Examples.Packet_defaults
              Examples.Packet_store 2 Examples.abcd_values
              1%nat Samples.Packet_flag (PyInt 0)
              eq_refl eq_refl) as (_ & Hget & _ & Hcls).
  - repeat constructor.
  - reflexivity.
  - reflexivity.
  - split; [exact Hget|exact Hcls].
Defined.

(** [descriptor_set_get] at the same record: [r.flag = 5]. *)
Lemma descriptor_set_get_witness :
  exists h',
    Descriptor.__set__ Samples.Packet_flag 2 (PyInt 5) Examples.Packet_store =
      (Ok tt, h') /\
    record h' 2 =
      Some (Examples.Packet_cls, [PyInt 1; PyInt 5; PyBytes Examples.b_abcd]) /\
    Descriptor.__get__ Samples.Packet_flag (Some 2%nat) h' = (Ok (inr (PyInt 5)), h').
Proof.
  apply (descriptor_set_get lp64_le [Struct_body; []] Examples.Packet_attrs
           [] Examples.Packet_cls Examples.Packet_defaults
           Examples.Packet_store 2 1 Examples.abcd_values
           1%nat Samples.Packet_flag (PyInt 5)).
  - reflexivity.
  - reflexivity.
  - reflexivity.
  - repeat constructor.
  - reflexivity.
  - simpl. lia.
Defined.

(** [negative_length_fails_class] at [class Bad(Struct)] with
    [tag = char(-1)]. *)
Lemma negative_length_fails_class_witness :
  MetaStruct.__new__ lp64_le Examples.Struct_mro Samples.Bad_attrs [] =
  (Raise struct_error, [ObjList [PyNone]]).
Proof.
  apply (negative_length_fails_class lp64_le Examples.Struct_mro Samples.Bad_attrs
           []
           {| StructField.field_type := CHAR;
              StructField.default := PyNone;
              StructField.str_len := Some (-1);
              StructField.count := 0;
              StructField.name := "tag" |}
           (-1) BYTE_ORDER_LITTLE_ENDIAN).
  - left.
  - reflexivity.
  - reflexivity.
  - lia.
  - reflexivity.
Defined.

(** [declaration_order] at the body of [Derived], which declares [a]
    again after [Base] declared [a] and [b]: the field list of
    [Derived] is [b], then the new [a]. *)
Lemma declaration_order_witness :
  exists body,
    declare Samples.Derived_decls [] 2 = Ok (body, 3%nat) /\
    MetaStruct.field_list
      (type_new body :: map type_new [Examples.Base_attrs; Struct_body; []]) =
    [{| StructField.field_type := UINT8_T;
        StructField.default := PyNone;
        StructField.str_len := None;
        StructField.count := 1;
        StructField.name := "b" |};
     {| StructField.field_type := UINT16_T;
        StructField.default := PyNone;
        StructField.str_len := None;
        StructField.count := 2;
        StructField.name := "a" |}].
Proof.
  eexists. split; [reflexivity|].
  destruct (declaration_order [Examples.Base_attrs; Struct_body; []] []
              Samples.Derived_decls 2 _ 3 eq_refl) as (_ & _ & Hfl).
  - repeat constructor; apply not_elem_of_nil.
  - constructor.
  - vm_compute. repeat constructor.
  - vm_compute. repeat constructor.
    + intros Hin. apply list_elem_of_In in Hin. vm_compute in Hin.
      intuition discriminate.
    + apply not_elem_of_nil.
  - exact Hfl.
Defined.

(** [read_into_binary_file] at a [Packet], whose size is 9, and a file
    of ten bytes: the first call reads a record, the second finds one
    byte and returns [False] at the end of the file. *)
Lemma read_into_binary_file_witness :
  (exists h',
      FileHelper.read_into 2 {| FileHelper.fp := Samples.ten_bytes 0 |}
        Examples.Packet_store =
      (Returns true, {| FileHelper.fp := Samples.ten_bytes 9 |}, h') /\
      record h' 2 = Some (Examples.Packet_cls, Examples.abcd_values)) /\
  FileHelper.read_into 2 {| FileHelper.fp := Samples.ten_bytes 9 |}
    Examples.Packet_store =
  (Returns false, {| FileHelper.fp := Samples.ten_bytes 10 |}, Examples.Packet_store).
Proof.
  split.
  - destruct (read_into_binary_file lp64_le Examples.Struct_mro Examples.Packet_attrs
                [] Examples.Packet_cls Examples.Packet_defaults
                Examples.Packet_store 2 Examples.abcd_values
                (Samples.ten_bytes 0) eq_refl eq_refl)
      as (Hfull & _ & _).
    destruct Hfull as (vs' & Hvs' & _ & h' & Hread & Hrec).
    + reflexivity.
    + vm_compute. lia.
    + vm_compute in Hvs'. injection Hvs' as <-.
      exists h'. split; [exact Hread|exact Hrec].
  - destruct (read_into_binary_file lp64_le Examples.Struct_mro Examples.Packet_attrs
                [] Examples.Packet_cls Examples.Packet_defaults
                Examples.Packet_store 2 Examples.abcd_values
                (Samples.ten_bytes 9) eq_refl eq_refl)
      as (_ & Hshort & _).
    apply Hshort; [reflexivity|vm_compute; lia].
Defined.

(** [write_binary_file] at a [Packet] and an empty file: nine bytes
    are written. *)
Lemma write_binary_file_witness :
  exists f',
    FileHelper.write 2 {| FileHelper.fp := Samples.empty_file |}
      Examples.Packet_store =
    (Returns 9%nat, {| FileHelper.fp := f' |}, Examples.Packet_store) /\
    BinaryFile.pos f' = 9%nat /\
    take 9 (BinaryFile.data f') = Examples.packet_bytes.
Proof.
  destruct (write_binary_file lp64_le Examples.Struct_mro Examples.Packet_attrs
              [] Examples.Packet_cls Examples.Packet_defaults
              Examples.Packet_store 2 Examples.abcd_values
              Samples.empty_file eq_refl eq_refl) as [_ Hok].
  destruct (Hok Examples.packet_bytes eq_refl) as [_ Hw].
  destruct (Hw eq_refl) as (f' & Hwrite & _ & _ & Hpos & Hdata & _).
  exists f'. split; [exact Hwrite|]. split; [exact Hpos|exact Hdata].
Defined.


(** [byte_order_inherited] at [Packet], which does not bind
    [BYTE_ORDER]. *)
Lemma byte_order_inherited_witness :
  _STRUCT_FORMAT Examples.Packet_cls = "<IB4s"%string /\
  PyStruct.size (_PACKER Examples.Packet_cls) = 9%nat.
Proof.
  destruct (byte_order_inherited lp64_le [] Examples.Packet_attrs
              [] Examples.Packet_cls Examples.Packet_defaults eq_refl)
    as [_ Hdefault].
  destruct Hdefault as (Hfmt & _ & _ & Hsize); [repeat constructor|].
  split; [exact Hfmt|exact Hsize].
Defined.

(** [init_then_get] at [Packet(id=7)]: [id] is 7 and [flag] its
    default 1. *)
Lemma init_then_get_witness :
  exists h2,
    Struct.__init__ Examples.Packet_cls [("id", PyInt 7)]%string
      Examples.Packet_defaults = (Ok 2%nat, h2) /\
    Struct.get_field_value 2 "id" h2 = (Ok (PyInt 7), h2) /\
    Struct.get_field_value 2 "flag" h2 = (Ok (PyInt 1), h2).
Proof.
  eexists. split; [reflexivity|].
  assert (Hkw : NoDup (dict.keys [("id"%string, PyInt 7)])).
  { repeat constructor. apply not_elem_of_nil. }
  split.
  - apply (init_then_get lp64_le [Struct_body; []] Examples.Packet_attrs
             [] Examples.Packet_cls Examples.Packet_defaults
             Examples.Packet_defaults [("id", PyInt 7)]%string 2 _ 0%nat
             {| StructField.field_type := UINT32_T;
                StructField.default := PyInt 0;
                StructField.str_len := None;
                StructField.count := 0;
                StructField.name := "id" |}
             eq_refl eq_refl Hkw eq_refl eq_refl).
  - apply (init_then_get lp64_le [Struct_body; []] Examples.Packet_attrs
             [] Examples.Packet_cls Examples.Packet_defaults
             Examples.Packet_defaults [("id", PyInt 7)]%string 2 _ 1%nat
             Samples.Packet_flag
             eq_refl eq_refl Hkw eq_refl eq_refl).
Defined.
